(** * ControlCopier: the row-to-document fill-and-merge pipeline of [src/App.js]

    A shallow embedding of [fillPdfForm], [processCsvData] and [onDrop], and
    the properties of the specification proved on it.

    - JavaScript values are a small tagged union; objects are association
      lists in property-enumeration order.
    - [async] functions run sequentially here (every call is awaited), so a
      state-and-exception monad over a [World] models them: the World holds
      the heap of ArrayBuffers and PDFDocument objects, the console, and the
      five React state variables of the component.
    - pdf-lib's byte-level work (decoding, flattening, serialising) and
      PapaParse are parameters of the development.
    - The template loader of [useEffect], [downloadPdf] and the JSX are left
      out: a World says whether the template is loaded. *)

From Stdlib Require Import String Ascii List Bool Arith Lia DecimalString.
From stdpp Require Import base list strings gmap.
Import ListNotations.
Local Open Scope string_scope.
Local Open Scope list_scope.

(** ** JavaScript values *)

Module Js.

(** The values a parsed CSV cell can hold under PapaParse's
    [dynamicTyping: true], plus [undefined] for a missing property.  A number
    and a Date are kept by what this program observes of them: their
    truthiness and their [String(...)] rendering. *)
Inductive JsValue : Type :=
| JUndefined
| JNull
| JBool (b : bool)
| JNum (truthy : bool) (shown : string)
| JStr (s : string)
| JDate (shown : string).

(** Thrown values; the program only ever reads [err.message]. *)
Inductive JsError : Type :=
| Error (msg : string)
| TypeError (msg : string).

Definition message (e : JsError) : string :=
  match e with Error m => m | TypeError m => m end.

Inductive Result (A : Type) : Type :=
| Ok (a : A)
| Throw (e : JsError).
Arguments Ok {A} a.
Arguments Throw {A} e.

Definition is_empty (s : string) : bool :=
  match s with EmptyString => true | String _ _ => false end.

(** ToBoolean *)
Definition toBoolean (v : JsValue) : bool :=
  match v with
  | JUndefined | JNull => false
  | JBool b => b
  | JNum t _ => t
  | JStr s => negb (is_empty s)
  | JDate _ => true
  end.

(** [String(v)] *)
Definition toString (v : JsValue) : string :=
  match v with
  | JUndefined => "undefined"
  | JNull => "null"
  | JBool true => "true"
  | JBool false => "false"
  | JNum _ t => t
  | JStr s => s
  | JDate t => t
  end.

(** [a || b] *)
Definition or (a b : JsValue) : JsValue := if toBoolean a then a else b.

(** [String.prototype.includes] *)
Fixpoint includes (s sub : string) : bool :=
  String.prefix sub s ||
  match s with
  | EmptyString => false
  | String _ s' => includes s' sub
  end.

(** WhiteSpace and LineTerminator code units; a character of a Rocq string
    stands for one UTF-16 code unit below 256. *)
Definition isWhiteSpace (c : ascii) : bool :=
  let n := nat_of_ascii c in
  existsb (Nat.eqb n) [9; 10; 11; 12; 13; 32; 160]%nat.

Fixpoint trimStart (s : string) : string :=
  match s with
  | EmptyString => EmptyString
  | String c s' => if isWhiteSpace c then trimStart s' else s
  end.

Fixpoint trimEnd (s : string) : string :=
  match s with
  | EmptyString => EmptyString
  | String c s' =>
      match trimEnd s' with
      | EmptyString => if isWhiteSpace c then EmptyString else String c EmptyString
      | t => String c t
      end
  end.

(** [String.prototype.trim] *)
Definition trim (s : string) : string := trimEnd (trimStart s).

(** [Array.prototype.join]: [undefined] and [null] elements render empty. *)
Definition joinItem (v : JsValue) : string :=
  match v with
  | JUndefined | JNull => ""
  | _ => toString v
  end.

Definition join (sep : string) (l : list JsValue) : string :=
  String.concat sep (map joinItem l).

(** [String.prototype.endsWith] *)
Fixpoint endsWith (s suffix : string) : bool :=
  String.eqb s suffix ||
  match s with
  | EmptyString => false
  | String _ s' => endsWith s' suffix
  end.

(** An object: its own properties in enumeration order.  Keys are distinct
    in a JavaScript object; [WellFormed] says so. *)
Definition JsObject : Type := list (string * JsValue).

Definition WellFormed (o : JsObject) : Prop := NoDup (map fst o).

(** [o[k]] *)
Fixpoint get (o : JsObject) (k : string) : JsValue :=
  match o with
  | [] => JUndefined
  | (k', v) :: o' => if String.eqb k' k then v else get o' k
  end.

(** [Object.keys(o)] *)
Definition keys (o : JsObject) : list string := map fst o.

(** [Array.prototype.filter] with a callback that may throw. *)
Fixpoint filterR {A : Type} (p : A -> Result bool) (l : list A) : Result (list A) :=
  match l with
  | [] => Ok []
  | x :: l' =>
      match p x with
      | Throw e => Throw e
      | Ok b =>
          match filterR p l' with
          | Throw e => Throw e
          | Ok r => Ok (if b then x :: r else r)
          end
      end
  end.

End Js.
Import Js.

(** ** The field mapper (lines 84-113 of [fillPdfForm]) *)

(** [fieldMappings]: CSV column to PDF form field, in [Object.entries] order. *)
Definition fieldMappings : list (string * string) :=
  [ ("Client", "Client");
    ("Prosystems #", "ProSystem's #");
    ("Tax Year", "Tax Year");
    ("Return Type", "Return Type");
    ("File Directory", "File Directory") ].

(** [rowData[csvField] || ''] followed by [String(value)] *)
Definition mappedText (rowData : JsObject) (csvField : string) : string :=
  toString (or (get rowData csvField) (JStr "")).

(** The filter callback
    [key.includes('States') && rowData[key] && rowData[key].trim()].
    A truthy value that is not a string has no [trim] method. *)
Definition isStateField (rowData : JsObject) (key : string) : Result bool :=
  if includes key "States" then
    let v := get rowData key in
    if toBoolean v then
      match v with
      | JStr s => Ok (toBoolean (JStr (trim s)))
      | _ => Throw (TypeError "rowData[key].trim is not a function")
      end
    else Ok false
  else Ok false.

Definition stateFields (rowData : JsObject) : Result (list string) :=
  filterR (isStateField rowData) (keys rowData).

Definition stateValues (rowData : JsObject) (fields : list string) : list JsValue :=
  List.filter toBoolean (map (get rowData) fields).

Definition statesText (rowData : JsObject) : Result string :=
  match stateFields rowData with
  | Throw e => Throw e
  | Ok fields => Ok (join ", " (stateValues rowData fields))
  end.

(** ** pdf-lib *)

(** A form field: a text field with its optional maximum length and its text
    (the empty text is pdf-lib's absent value), or a field of another type. *)
Inductive PDFField : Type :=
| TextField (maxLength : option nat) (text : string)
| OtherField (typeName : string).

(** What the program observes of a PDFDocument: its pages in order and its
    form fields by fully qualified name.  The dates pdf-lib stamps into a
    document's metadata when it creates or loads it are not part of it. *)
Record PDFDoc (Page : Type) : Type := mkDoc {
  pages : list Page;
  fields : gmap string PDFField
}.
Arguments mkDoc {Page} pages fields.
Arguments pages {Page} _.
Arguments fields {Page} _.

(** The byte-level work of pdf-lib, taken as given: what [PDFDocument.load]
    decodes from a buffer, what [form.flatten()] turns a document into, what
    the serialiser behind [save()] writes for given pages and fields (each
    may throw), and the blank page [addPage()] makes when it is given none.
    A buffer is taken up to the metadata dates in it, which vary with the
    clock. *)
Class PdfLib : Type := {
  Bytes : Type;
  Page : Type;
  decode : Bytes -> Result (PDFDoc Page);
  flattened : PDFDoc Page -> Result (PDFDoc Page);
  encode : PDFDoc Page -> Result Bytes;
  blankPage : Page
}.

(** PapaParse: [Papa.parse] either calls [complete] with the rows and the
    errors it found, or calls [error]. *)
Record ParseResults : Type := mkResults {
  data : list JsObject;
  errors : list JsError
}.

Inductive ParseOutcome : Type :=
| Complete (results : ParseResults)
| Failed (err : JsError).

Class Papa : Type := {
  Papa_parse : string -> ParseOutcome
}.

Definition quote : string := String (ascii_of_nat 34) EmptyString.

Definition showNat (n : nat) : string := NilEmpty.string_of_uint (Nat.to_uint n).

Module Form.
Section Form.
Context {Page : Type}.

(** pdf-lib's NoSuchFieldError, UnexpectedFieldTypeError and
    ExceededMaxLengthError. *)
Definition NoSuchFieldError (name : string) : JsError :=
  Error ("PDFDocument has no form field with the name " ++ quote ++ name ++ quote).

Definition UnexpectedFieldTypeError (name actual : string) : JsError :=
  Error ("Expected field " ++ quote ++ name ++ quote
         ++ " to be of type PDFTextField, but it is actually of type " ++ actual).

Definition ExceededMaxLengthError (textLength maxLength : nat) (name : string) : JsError :=
  Error ("Attempted to set text with length=" ++ showNat textLength
         ++ " for TextField with maxLength=" ++ showNat maxLength
         ++ " and name=" ++ name).

(** [form.getTextField(name)]: the field, or a throw when no field has that
    name or the field is not a text field. *)
Definition getTextField (d : PDFDoc Page) (name : string) : Result (option nat) :=
  match fields d !! name with
  | None => Throw (NoSuchFieldError name)
  | Some (OtherField t) => Throw (UnexpectedFieldTypeError name t)
  | Some (TextField maxLength _) => Ok maxLength
  end.

(** [field.setText(text)] on the text field [name] of [d]. *)
Definition setText (d : PDFDoc Page) (name text : string) : Result (PDFDoc Page) :=
  match getTextField d name with
  | Throw e => Throw e
  | Ok maxLength =>
      match maxLength with
      | Some n =>
          if Nat.ltb n (String.length text)
          then Throw (ExceededMaxLengthError (String.length text) n name)
          else Ok (mkDoc (pages d) (<[name := TextField maxLength text]> (fields d)))
      | None => Ok (mkDoc (pages d) (<[name := TextField maxLength text]> (fields d)))
      end
  end.

(** [doc.getPageIndices()] *)
Definition getPageIndices (d : PDFDoc Page) : list nat := seq 0 (length (pages d)).

(** The pages [copyPages] hands back: those of the source at [indices]. *)
Fixpoint pagesAt (d : PDFDoc Page) (indices : list nat) : Result (list Page) :=
  match indices with
  | [] => Ok []
  | i :: rest =>
      match pages d !! i with
      | None => Throw (Error "copyPages: page index out of range")
      | Some p =>
          match pagesAt d rest with
          | Throw e => Throw e
          | Ok ps => Ok (p :: ps)
          end
      end
  end.

Definition addPage (d : PDFDoc Page) (p : Page) : PDFDoc Page :=
  mkDoc (pages d ++ [p]) (fields d).

(** [if (addDefaultPage && this.getPageCount() === 0) this.addPage()], the
    first step of [save()] with its default options. *)
Definition withDefaultPage (d : PDFDoc Page) (blank : Page) : PDFDoc Page :=
  if Nat.eqb (length (pages d)) 0 then addPage d blank else d.

End Form.
End Form.

(** ** The world the component runs in *)

(** A reference to a heap object (an ArrayBuffer or a PDFDocument). *)
Abbreviation Ref := nat (only parsing).

(** [console.warn(msg)] and [console.error(label, err)] *)
Inductive LogEntry : Type :=
| Warn (msg : string)
| LogError (label : string) (err : JsError).

Section Program.
Context {L : PdfLib}.

Inductive Obj : Type :=
| OBuffer (b : Bytes)
| ODoc (d : PDFDoc Page).

(** The heap, the console, and the component's [useState] variables. *)
Record World : Type := mkWorld {
  heap : list Obj;
  console : list LogEntry;
  processing : bool;
  error : option string;
  completedPdf : option Ref;
  templatePdf : option Ref;
  processedCount : nat
}.

Definition withHeap (h : list Obj) (w : World) : World :=
  mkWorld h (console w) (processing w) (error w) (completedPdf w)
          (templatePdf w) (processedCount w).

Definition withConsole (c : list LogEntry) (w : World) : World :=
  mkWorld (heap w) c (processing w) (error w) (completedPdf w)
          (templatePdf w) (processedCount w).

(** ** Sequential JavaScript: state and exceptions *)

Definition M (A : Type) : Type := World -> Result A * World.

Definition ret {A : Type} (a : A) : M A := fun w => (Ok a, w).

Definition throw {A : Type} (e : JsError) : M A := fun w => (Throw e, w).

Definition bind {A B : Type} (m : M A) (k : A -> M B) : M B :=
  fun w =>
    match m w with
    | (Ok a, w') => k a w'
    | (Throw e, w') => (Throw e, w')
    end.

(** [try { m } catch (err) { handler err }] *)
Definition tryCatch {A : Type} (m : M A) (handler : JsError -> M A) : M A :=
  fun w =>
    match m w with
    | (Ok a, w') => (Ok a, w')
    | (Throw e, w') => handler e w'
    end.

(** [try { m } finally { final }] *)
Definition tryFinally {A : Type} (m : M A) (final : M unit) : M A :=
  fun w =>
    match m w with
    | (r, w') =>
        match final w' with
        | (Ok _, w'') => (r, w'')
        | (Throw e, w'') => (Throw e, w'')
        end
    end.

Definition liftR {A : Type} (r : Result A) : M A := fun w => (r, w).

Notation "x <- m ;; k" := (bind m (fun x => k))
  (at level 100, m at next level, right associativity).
Notation "m ;; k" := (bind m (fun _ => k))
  (at level 100, right associativity).

(** [for (const x of l) { body x }] and [l.forEach(body)] *)
Fixpoint forEach {A : Type} (body : A -> M unit) (l : list A) : M unit :=
  match l with
  | [] => ret tt
  | x :: l' => body x ;; forEach body l'
  end.

(** *** The heap *)

Definition alloc (o : Obj) : M Ref :=
  fun w => (Ok (length (heap w)), withHeap (heap w ++ [o]) w).

Definition readBuffer (r : Ref) : M Bytes :=
  fun w =>
    match heap w !! r with
    | Some (OBuffer b) => (Ok b, w)
    | _ => (Throw (TypeError "not an ArrayBuffer"), w)
    end.

Definition readDoc (r : Ref) : M (PDFDoc Page) :=
  fun w =>
    match heap w !! r with
    | Some (ODoc d) => (Ok d, w)
    | _ => (Throw (TypeError "not a PDFDocument"), w)
    end.

Definition writeDoc (r : Ref) (d : PDFDoc Page) : M unit :=
  fun w => (Ok tt, withHeap (<[r := ODoc d]> (heap w)) w).

(** Mutation of the document object behind [r]. *)
Definition modifyDoc (r : Ref) (f : PDFDoc Page -> Result (PDFDoc Page)) : M unit :=
  d <- readDoc r ;; d' <- liftR (f d) ;; writeDoc r d'.

(** *** The console and the state setters *)

Definition console_warn (msg : string) : M unit :=
  fun w => (Ok tt, withConsole (console w ++ [Warn msg]) w).

Definition console_error (label : string) (err : JsError) : M unit :=
  fun w => (Ok tt, withConsole (console w ++ [LogError label err]) w).

Definition setProcessing (b : bool) : M unit :=
  fun w => (Ok tt, mkWorld (heap w) (console w) b (error w) (completedPdf w)
                           (templatePdf w) (processedCount w)).

Definition setError (e : option string) : M unit :=
  fun w => (Ok tt, mkWorld (heap w) (console w) (processing w) e (completedPdf w)
                           (templatePdf w) (processedCount w)).

Definition setCompletedPdf (p : option Ref) : M unit :=
  fun w => (Ok tt, mkWorld (heap w) (console w) (processing w) (error w) p
                           (templatePdf w) (processedCount w)).

(** [setProcessedCount(n)] is [setProcessedCount (fun _ => n)]. *)
Definition setProcessedCount (update : nat -> nat) : M unit :=
  fun w => (Ok tt, mkWorld (heap w) (console w) (processing w) (error w)
                           (completedPdf w) (templatePdf w)
                           (update (processedCount w))).

Definition getTemplatePdf : M (option Ref) := fun w => (Ok (templatePdf w), w).

(** *** pdf-lib's objects on the heap *)

Definition PDFDocument_create : M Ref := alloc (ODoc (mkDoc [] ∅)).

(** [PDFDocument.load(pdf)]: a new document object decoded from the buffer. *)
Definition PDFDocument_load (pdf : Ref) : M Ref :=
  b <- readBuffer pdf ;; d <- liftR (decode b) ;; alloc (ODoc d).

(** [pdfDoc.getForm()]: the form is a view of its document. *)
Definition getForm (pdfDoc : Ref) : M Ref := ret pdfDoc.

(** A PDFTextField handle: the document it belongs to and its name. *)
Definition getTextField (form : Ref) (name : string) : M (Ref * string) :=
  d <- readDoc form ;; _ <- liftR (Form.getTextField d name) ;; ret (form, name).

Definition setText (field : Ref * string) (text : string) : M unit :=
  modifyDoc (fst field) (fun d => Form.setText d (snd field) text).

Definition flatten (form : Ref) : M unit := modifyDoc form flattened.

Definition addPage (doc : Ref) (page : Page) : M unit :=
  modifyDoc doc (fun d => Ok (Form.addPage d page)).

Definition getPageCount (doc : Ref) : M nat :=
  d <- readDoc doc ;; ret (length (pages d)).

(** [doc.save()] with its default options: a document without pages is
    first given a blank one, then the document is written to a new buffer. *)
Definition save (doc : Ref) : M Ref :=
  pageCount <- getPageCount doc ;;
  (if Nat.eqb pageCount 0 then addPage doc blankPage else ret tt) ;;
  d <- readDoc doc ;; b <- liftR (encode d) ;; alloc (OBuffer b).

Definition getPageIndices (doc : Ref) : M (list nat) :=
  d <- readDoc doc ;; ret (Form.getPageIndices d).

Definition copyPages (dst src : Ref) (indices : list nat) : M (list Page) :=
  d <- readDoc src ;; liftR (Form.pagesAt d indices).

(** ** [fillPdfForm] *)

(** The [forEach] callback of lines 93-103.  [getTextField] never returns a
    falsy value, so the [if (formField)] test always passes. *)
Definition fillMappedField (form : Ref) (rowData : JsObject)
    (entry : string * string) : M unit :=
  let '(csvField, pdfField) := entry in
  let value := or (get rowData csvField) (JStr "") in
  tryCatch
    (formField <- getTextField form pdfField ;;
     setText formField (toString value))
    (fun fieldErr =>
       console_warn ("Could not fill field " ++ quote ++ pdfField ++ quote
                     ++ ": " ++ message fieldErr)).

(** Lines 105-122. *)
Definition fillStatesField (form : Ref) (rowData : JsObject) : M unit :=
  stateFields <- liftR (stateFields rowData) ;;
  let stateValues := stateValues rowData stateFields in
  let statesText := join ", " stateValues in
  tryCatch
    (statesField <- getTextField form "States" ;;
     setText statesField statesText)
    (fun stateErr =>
       console_warn ("Could not fill States field: " ++ message stateErr)).

(** The outer [try]/[catch] of lines 82-126. *)
Definition fillFormFields (form : Ref) (rowData : JsObject) : M unit :=
  tryCatch
    (forEach (fillMappedField form rowData) fieldMappings ;;
     fillStatesField form rowData)
    (fun err =>
       console_error "Error filling PDF form:" err ;;
       throw (Error ("Error filling PDF form: " ++ message err))).

Definition fillPdfForm (templateBytes : Ref) (rowData : JsObject) : M Ref :=
  pdfDoc <- PDFDocument_load templateBytes ;;
  form <- getForm pdfDoc ;;
  fillFormFields form rowData ;;
  flatten form ;;
  save pdfDoc.

(** ** [processCsvData] *)

(** The body of the [for] loop, lines 50-62. *)
Definition processRow (templatePdf mergedPdf : Ref) (row : JsObject) : M unit :=
  pdfBytes <- fillPdfForm templatePdf row ;;
  filledPdf <- PDFDocument_load pdfBytes ;;
  indices <- getPageIndices filledPdf ;;
  copiedPages <- copyPages mergedPdf filledPdf indices ;;
  forEach (fun page => addPage mergedPdf page) copiedPages ;;
  setProcessedCount (fun prev => prev + 1).

Definition processCsvData (csvData : list JsObject) : M unit :=
  setProcessing true ;;
  setError None ;;
  setCompletedPdf None ;;
  setProcessedCount (fun _ => 0) ;;
  tryFinally
    (tryCatch
       (templatePdf <- getTemplatePdf ;;
        match templatePdf with
        | None => throw (Error "PDF template not loaded. Please reload the page.")
        | Some templatePdf =>
            mergedPdf <- PDFDocument_create ;;
            forEach (processRow templatePdf mergedPdf) csvData ;;
            mergedPdfBytes <- save mergedPdf ;;
            setCompletedPdf (Some mergedPdfBytes)
        end)
       (fun err =>
          console_error "Error processing CSV data:" err ;;
          setError (Some ("Failed to process CSV data: " ++ message err)%string)))
    (setProcessing false).

(** ** [onDrop] *)

(** A dropped file: its name, its MIME type, and what the FileReader delivers
    ([onload] with the text, or [onerror]). *)
Record File : Type := mkFile {
  name : string;
  type : string;
  contents : option string
}.

Context {P : Papa}.

(** The [complete] callback, lines 179-186. *)
Definition complete (results : ParseResults) : M unit :=
  match errors results with
  | e :: _ => setError (Some ("Error parsing CSV: " ++ message e)%string)
  | [] => processCsvData (data results)
  end.

(** The [onload] handler: [Papa.parse(csvText, {complete, error})]. *)
Definition onload (csvText : string) : M unit :=
  match Papa_parse csvText with
  | Complete results => complete results
  | Failed err => setError (Some ("Error parsing CSV: " ++ message err)%string)
  end.

Definition onDrop (acceptedFiles : list File) : M unit :=
  setError None ;;
  match acceptedFiles with
  | [file] =>
      if negb (String.eqb (type file) "text/csv") && negb (endsWith (name file) ".csv")
      then setError (Some "Please upload a CSV file")
      else
        match contents file with
        | Some csvText => onload csvText
        | None => setError (Some "Failed to read the file")
        end
  | _ => setError (Some "Please upload exactly one CSV file")
  end.

(** The parse reported [e]: it is the first of [results.errors], or what the
    [error] callback receives. *)
Definition reportsError (parsed : ParseOutcome) (e : JsError) : Prop :=
  match parsed with
  | Complete results => exists rest, errors results = e :: rest
  | Failed err => err = e
  end.

End Program.

(** ** Row records and what the specification says of them *)

(** A RowRecord of the specification: column name to string value, in
    column order. *)
Definition RowRecord : Type := list (string * string).

(** The JavaScript object a RowRecord is.  (A column name that is an array
    index enumerates before the others in JavaScript; no such name contains
    "States", so the States columns enumerate in column order either way.) *)
Definition rowObject (row : RowRecord) : JsObject :=
  map (fun kv => (fst kv, JStr (snd kv))) row.

(** The row's cell under a column name, if the row has that column. *)
Fixpoint cell (row : RowRecord) (c : string) : option string :=
  match row with
  | [] => None
  | (c', v) :: row' => if String.eqb c' c then Some v else cell row' c
  end.

(** The row's value for a column, blank when the column is absent. *)
Definition column (row : RowRecord) (c : string) : string :=
  match cell row c with
  | Some v => v
  | None => ""
  end.

(** The States rule in the words of the specification: the values of the
    columns whose name contains "States" and whose value is non-empty after
    trimming, in column order ... *)
Definition keepsState (kv : string * string) : bool :=
  includes (fst kv) "States" && negb (is_empty (trim (snd kv))).

Definition keptStates (row : RowRecord) : list string :=
  map snd (List.filter keepsState row).

(** ... joined with a comma and a space. *)
Definition joinedStates (row : RowRecord) : string :=
  String.concat ", " (keptStates row).

(** The six template fields and the text the field mapper sends to each. *)
Definition fieldTexts (row : RowRecord) : list (string * string) :=
  map (fun m => (snd m, column row (fst m))) fieldMappings
  ++ [("States", joinedStates row)].

Section Observations.
Context {L : PdfLib}.

Definition run {A : Type} (m : M A) (w : World) : World := snd (m w).

Definition outcome {A : Type} (m : M A) (w : World) : Result A := fst (m w).

(** A world that holds nothing but the template buffer, at reference 0. *)
Definition standalone (template : Bytes) : World :=
  mkWorld [OBuffer template] [] false None None (Some 0) 0.

(** A row's filled document: lines 51 and 54 run on their own. *)
Definition filledDocument (template : Bytes) (row : JsObject) : Result (PDFDoc Page) :=
  outcome
    (bind (fillPdfForm 0 row) (fun pdfBytes =>
     bind (PDFDocument_load pdfBytes) (fun filledPdf =>
     readDoc filledPdf)))
    (standalone template).

(** The bytes a reference points to. *)
Definition bufferAt (w : World) (r : Ref) : option Bytes :=
  match heap w !! r with
  | Some (OBuffer b) => Some b
  | _ => None
  end.

Definition docAt (w : World) (r : Ref) : option (PDFDoc Page) :=
  match heap w !! r with
  | Some (ODoc d) => Some d
  | _ => None
  end.

(** The pages of the artifact: those [PDFDocument.load] finds in the bytes
    behind [completedPdf]. *)
Definition artifactPages (w : World) : option (list Page) :=
  match completedPdf w with
  | None => None
  | Some r =>
      match bufferAt w r with
      | None => None
      | Some bytes =>
          match decode bytes with
          | Ok d => Some (pages d)
          | Throw _ => None
          end
      end
  end.

(** Lines 78-126 on their own: the instance [fillPdfForm] decodes from the
    template, as the filling block leaves it. *)
Definition filledInstance (templateBytes : Ref) (rowData : JsObject) (w : World)
    : option (PDFDoc Page) :=
  match PDFDocument_load templateBytes w with
  | (Ok pdfDoc, w') => docAt (run (fillFormFields pdfDoc rowData) w') pdfDoc
  | (Throw _, _) => None
  end.

(** The fields of the instance behind [form] after the filling block. *)
Definition filledFields (form : Ref) (rowData : JsObject) (w : World)
    : option (gmap string PDFField) :=
  option_map fields (docAt (run (fillFormFields form rowData) w) form).

(** The text of a text field of a document. *)
Definition fieldText (d : PDFDoc Page) (name : string) : option string :=
  match fields d !! name with
  | Some (TextField _ text) => Some text
  | _ => None
  end.

(** The field exists as a text field that accepts [text]. *)
Definition accepts (d : PDFDoc Page) (name text : string) : Prop :=
  exists maxLength old,
    fields d !! name = Some (TextField maxLength old) /\
    match maxLength with
    | Some n => String.length text <= n
    | None => True
    end.

End Observations.

(** ** What the calls do, as functions

    The effect of each call on the world, written as a function of the
    decoded documents; the run lemmas below show the program does just that. *)

Section Effects.
Context {L : PdfLib}.

(** The world with a new heap and console and the state variables kept. *)
Definition touched (h : list Obj) (c : list LogEntry) (w : World) : World :=
  mkWorld h c (processing w) (error w) (completedPdf w) (templatePdf w)
          (processedCount w).

Definition mappedWarning (pdfField : string) (e : JsError) : string :=
  "Could not fill field " ++ quote ++ pdfField ++ quote ++ ": " ++ message e.

Definition statesWarning (e : JsError) : string :=
  "Could not fill States field: " ++ message e.

(** One guarded [getTextField]/[setText]: the document and the warnings. *)
Definition tryText (warning : JsError -> string) (d : PDFDoc Page)
    (name text : string) : PDFDoc Page * list LogEntry :=
  match Form.setText d name text with
  | Ok d' => (d', [])
  | Throw e => (d, [Warn (warning e)])
  end.

Fixpoint fillMapped (rowData : JsObject) (entries : list (string * string))
    (d : PDFDoc Page) : PDFDoc Page * list LogEntry :=
  match entries with
  | [] => (d, [])
  | (csvField, pdfField) :: rest =>
      let step := tryText (mappedWarning pdfField) d pdfField
                          (mappedText rowData csvField) in
      let tail := fillMapped rowData rest (fst step) in
      (fst tail, snd step ++ snd tail)
  end.

(** The filling block as a function of the decoded document. *)
Definition fillFields (rowData : JsObject) (d : PDFDoc Page)
    : Result unit * PDFDoc Page * list LogEntry :=
  let mapped := fillMapped rowData fieldMappings d in
  match statesText rowData with
  | Ok text =>
      let states := tryText statesWarning (fst mapped) "States" text in
      (Ok tt, fst states, snd mapped ++ snd states)
  | Throw e =>
      (Throw (Error ("Error filling PDF form: " ++ message e)), fst mapped,
       snd mapped ++ [LogError "Error filling PDF form:" e])
  end.

(** [fillPdfForm] as a function of the template bytes: the result, the
    objects it allocates and what it logs. *)
Definition fillEffect (template : Bytes) (rowData : JsObject)
    : Result Bytes * list Obj * list LogEntry :=
  match decode template with
  | Throw e => (Throw e, [], [])
  | Ok d0 =>
      match fillFields rowData d0 with
      | (Throw e, d1, log) => (Throw e, [ODoc d1], log)
      | (Ok _, d1, log) =>
          match flattened d1 with
          | Throw e => (Throw e, [ODoc d1], log)
          | Ok d2 =>
              let d3 := Form.withDefaultPage d2 blankPage in
              match encode d3 with
              | Throw e => (Throw e, [ODoc d3], log)
              | Ok bytes => (Ok bytes, [ODoc d3; OBuffer bytes], log)
              end
          end
      end
  end.

(** Lines 51 and 54 likewise: the reloaded document. *)
Definition rowEffect (template : Bytes) (rowData : JsObject)
    : Result (PDFDoc Page) * list Obj * list LogEntry :=
  match fillEffect template rowData with
  | (Throw e, objs, log) => (Throw e, objs, log)
  | (Ok bytes, objs, log) =>
      match decode bytes with
      | Throw e => (Throw e, objs, log)
      | Ok d => (Ok d, objs ++ [ODoc d], log)
      end
  end.

(** The document a row contributes, appended to the merged one. *)
Definition appended (merged filled : PDFDoc Page) : PDFDoc Page :=
  mkDoc (pages merged ++ pages filled) (fields merged).

(** Every object other than the merged document, and every state variable
    but the counter, is carried over. *)
Definition carried (mergedPdf : Ref) (w w' : World) : Prop :=
  (forall a o, a <> mergedPdf -> heap w !! a = Some o -> heap w' !! a = Some o)
  /\ processing w' = processing w
  /\ error w' = error w
  /\ completedPdf w' = completedPdf w
  /\ templatePdf w' = templatePdf w.

(** The world the loop starts in: the four setters have run and the merged
    document has been created. *)
Definition started (templatePdf : Ref) (w : World) : World :=
  mkWorld (heap w ++ [ODoc (mkDoc [] ∅)]) (console w) true None None
          (Some templatePdf) 0.

(** The [catch] and [finally] blocks after a throw. *)
Definition failed (e : JsError) (w : World) : World :=
  mkWorld (heap w) (console w ++ [LogError "Error processing CSV data:" e])
          false (Some ("Failed to process CSV data: " ++ message e)%string)
          (completedPdf w) (templatePdf w) (processedCount w).

(** The end of the [try] block and the [finally] block after the loop. *)
Definition finished (mergedPdf : Ref) (w : World) : World :=
  match save mergedPdf w with
  | (Ok r, w') =>
      mkWorld (heap w') (console w') false (error w') (Some r) (templatePdf w')
              (processedCount w')
  | (Throw e, w') => failed e w'
  end.

(** The warning logged when field [name] cannot be filled. *)
Definition warningFor (name : string) : JsError -> string :=
  if String.eqb name "States" then statesWarning else mappedWarning name.

(** The guarded assignments in order: the document and the warnings. *)
Fixpoint tryTexts (items : list (string * string)) (d : PDFDoc Page)
    : PDFDoc Page * list LogEntry :=
  match items with
  | [] => (d, [])
  | (name, text) :: rest =>
      let step := tryText (warningFor name) d name text in
      let tail := tryTexts rest (fst step) in
      (fst tail, snd step ++ snd tail)
  end.

(** The pairs the field mapper sends for any row object whose States text
    is [text]. *)
Definition sentTexts (rowData : JsObject) (text : string) : list (string * string) :=
  map (fun m => (snd m, mappedText rowData (fst m))) fieldMappings
  ++ [("States", text)].

End Effects.

(** ** A small pdf-lib to run examples on *)

Module Reference.

(** A buffer is a serialised document or not a PDF at all. *)
Inductive RefBytes : Type :=
| Pdf (d : PDFDoc string)
| Garbage.

(** Flattening removes the fields; a buffer written by [save] decodes to
    the pages and fields that were written. *)
#[export] Instance lib : PdfLib := {|
  Bytes := RefBytes;
  Page := string;
  decode b :=
    match b with
    | Pdf d => Ok d
    | Garbage => Throw (Error "Failed to parse PDF document")
    end;
  flattened d := Ok (mkDoc (pages d) ∅);
  encode d := Ok (Pdf d);
  blankPage := "blank"
|}.

Definition blank : PDFField := TextField None "".

(** A one-page template with the six text fields of the form. *)
Definition template : PDFDoc string :=
  mkDoc ["control copy"]
        (list_to_map
           [("Client", blank); ("ProSystem's #", blank); ("Tax Year", blank);
            ("Return Type", blank); ("File Directory", blank); ("States", blank)]).

(** The component once the template is loaded. *)
Definition ready : World := standalone (Pdf template).

(** The two rows of the specification's example. *)
Definition acme : RowRecord :=
  [("Client", "Acme"); ("Tax Year", "2023"); ("States_A", "CA"); ("States_B", "")].

Definition globex : RowRecord :=
  [("Client", "Globex"); ("Tax Year", "2022"); ("States_A", ""); ("States_B", "NY, TX")].

(** A row as the parser types it when a States cell holds digits only. *)
Definition typed : JsObject :=
  [("Client", JStr "Initech"); ("States", JNum true "5")].

(** A row whose only States cell has white space around its value. *)
Definition padded : RowRecord := [("States", " CA ")].

(** What a fill of the template flattens to. *)
Definition flat : PDFDoc string := mkDoc ["control copy"] ∅.

(** A template that has lost its States and Client fields. *)
Definition partial : PDFDoc string :=
  mkDoc ["control copy"]
        (list_to_map
           [("ProSystem's #", blank); ("Tax Year", blank);
            ("Return Type", blank); ("File Directory", blank)]).

(** A world with an instance of the template at reference 1. *)
Definition loaded (d : PDFDoc string) : World :=
  mkWorld [OBuffer (Pdf template); ODoc d] [] false None None (Some 0) 0.

(** A stand-in parser to run the callbacks on: a text without a comma is
    reported as a field mismatch, any other text parses to no rows. *)
Definition tooFewFields : JsError :=
  Error "Too few fields: expected 2 fields but parsed 1".

#[export] Instance papa : Papa := {|
  Papa_parse csvText :=
    if includes csvText ","
    then Complete (mkResults [] [])
    else Complete (mkResults [] [tooFewFields])
|}.

Definition dropped : File := mkFile "clients.csv" "text/csv" (Some "Client").

End Reference.

(** ** The rest of the component: [loadTemplate] and [downloadPdf] *)

(** What the page gets from the browser and from file-saver: the embedded
    template constant (not part of [App.js]), [atob], the ArrayBuffer behind a
    Uint8Array with given elements, and whether [saveAs] throws. *)
Class Browser {L : PdfLib} : Type := {
  pdfTemplateBase64 : string;
  atob : string -> Result string;
  arrayBuffer : list nat -> Bytes;
  saveAs : Bytes -> string -> Result unit
}.

Section Rest.
Context {L : PdfLib} {B : Browser}.

Local Notation "x <- m ;; k" := (bind m (fun x => k))
  (at level 100, m at next level, right associativity).
Local Notation "m ;; k" := (bind m (fun _ => k))
  (at level 100, right associativity).

Definition setTemplatePdf (p : option Ref) : M unit :=
  fun w => (Ok tt, mkWorld (heap w) (console w) (processing w) (error w)
                           (completedPdf w) p (processedCount w)).

(** [s.charCodeAt(i)]; [None] is NaN. *)
Definition charCodeAt (s : string) (i : nat) : option nat :=
  option_map nat_of_ascii (String.get i s).

(** [bytes[i] = value] on a Uint8Array: the element is stored modulo 256, NaN
    as 0, and an index past the end is ignored. *)
Definition store (bytes : list nat) (i : nat) (value : option nat) : list nat :=
  <[i := match value with Some c => c mod 256 | None => 0 end]> bytes.

(** The body of the [for] loop of lines 21-23 over the indices it visits. *)
Fixpoint copyCodes (binaryString : string) (indices : list nat)
    (bytes : list nat) : list nat :=
  match indices with
  | [] => bytes
  | i :: rest => copyCodes binaryString rest (store bytes i (charCodeAt binaryString i))
  end.

(** Lines 20-23: a zeroed Uint8Array of the string's length, then the loop. *)
Definition binaryBytes (binaryString : string) : list nat :=
  copyCodes binaryString (seq 0 (String.length binaryString))
            (replicate (String.length binaryString) 0).

(** [loadTemplate], lines 16-28. *)
Definition loadTemplate : M unit :=
  tryCatch
    (binaryString <- liftR (atob pdfTemplateBase64) ;;
     let bytes := binaryBytes binaryString in
     buffer <- alloc (OBuffer (arrayBuffer bytes)) ;;
     setTemplatePdf (Some buffer))
    (fun err =>
       setError (Some ("Failed to load embedded PDF template: " ++ message err)%string)).

(** The page together with what [saveAs] has been handed: file name and
    bytes, oldest first. *)
Record Desk : Type := mkDesk {
  page : World;
  saved : list (string * Bytes)
}.

(** The [catch] block of [downloadPdf]. *)
Definition downloadFailed (err : JsError) : M unit :=
  console_error "Error downloading file:" err ;;
  setError (Some ("Failed to download file: " ++ message err)%string).

(** [downloadPdf], lines 136-149.  The Blob holds the bytes behind
    [completedPdf]. *)
Definition downloadPdf (s : Desk) : Desk :=
  match completedPdf (page s) with
  | None =>
      mkDesk (run (setError (Some "No completed PDF to download")) (page s))
             (saved s)
  | Some completed =>
      match readBuffer completed (page s) with
      | (Ok blob, _) =>
          match saveAs blob "tax-return-control-copies.pdf" with
          | Ok _ =>
              mkDesk (page s) (saved s ++ [("tax-return-control-copies.pdf", blob)])
          | Throw err => mkDesk (run (downloadFailed err) (page s)) (saved s)
          end
      | (Throw err, _) => mkDesk (run (downloadFailed err) (page s)) (saved s)
      end
  end.

End Rest.

(** ** Words for the further properties *)

Section Words.
Context {L : PdfLib}.

(** The rows up to the first one that does not fill. *)
Fixpoint filledPrefix (template : Bytes) (rows : list JsObject) : list JsObject :=
  match rows with
  | [] => []
  | row :: rest =>
      match filledDocument template row with
      | Ok _ => row :: filledPrefix template rest
      | Throw _ => []
      end
  end.

(** What the page shows of a run (lines 257-282): the error message, the
    progress count and whether a download is offered. *)
Definition verdict (w : World) : option string * nat * bool :=
  (error w, processedCount w,
   match completedPdf w with
   | Some _ => true
   | None => false
   end).

(** From [w] to [w']: no buffer is overwritten, documents stay documents,
    the console only grows, and the template reference is the same. *)
Definition advances (w w' : World) : Prop :=
  (forall a b, heap w !! a = Some (OBuffer b) -> heap w' !! a = Some (OBuffer b))
  /\ (forall a d, heap w !! a = Some (ODoc d) -> exists d', heap w' !! a = Some (ODoc d'))
  /\ console w `prefix_of` console w'
  /\ templatePdf w' = templatePdf w.

(** ... and [processing], [error] and [completedPdf] are untouched and the
    counter does not go down. *)
Definition proceeds (w w' : World) : Prop :=
  advances w w'
  /\ processing w' = processing w
  /\ error w' = error w
  /\ completedPdf w' = completedPdf w
  /\ processedCount w <= processedCount w'.

(** Every run of [m] relates the world before to the world after by [R]. *)
Definition respects (R : World -> World -> Prop) {A : Type} (m : M A) : Prop :=
  forall w, R w (snd (m w)).

(** Only the error message differs. *)
Definition onlyError (w w' : World) : Prop :=
  heap w' = heap w
  /\ console w' = console w
  /\ processing w' = processing w
  /\ completedPdf w' = completedPdf w
  /\ templatePdf w' = templatePdf w
  /\ processedCount w' = processedCount w.

End Words.

(** The six field names the filling block asks the form for. *)
Definition templateFields : list string := map snd fieldMappings ++ ["States"].

(** The States cells of a row the parser has typed: the string cells under a
    name containing "States" that are non-empty after trimming. *)
Definition stringStates (rowData : JsObject) : list string :=
  flat_map
    (fun kv =>
       match snd kv with
       | JStr s =>
           if includes (fst kv) "States" && negb (is_empty (trim s))
           then [s] else []
       | _ => []
       end)
    rowData.

(** A cell under a name containing States is a string or falsy. *)
Definition statesTyped (kv : string * JsValue) : Prop :=
  includes (fst kv) "States" = true -> toBoolean (snd kv) = true ->
  exists s, snd kv = JStr s.

(** The filter of line 107 on such a cell. *)
Definition keepsTyped (kv : string * JsValue) : bool :=
  includes (fst kv) "States" && toBoolean (snd kv)
  && match snd kv with
     | JStr s => negb (is_empty (trim s))
     | _ => false
     end.

(** Every character is white space. *)
Fixpoint whiteOnly (s : string) : bool :=
  match s with
  | EmptyString => true
  | String c s' => isWhiteSpace c && whiteOnly s'
  end.

Definition startsBlank (s : string) : bool :=
  match s with
  | EmptyString => false
  | String c _ => isWhiteSpace c
  end.

Fixpoint endsBlank (s : string) : bool :=
  match s with
  | EmptyString => false
  | String c EmptyString => isWhiteSpace c
  | String _ s' => endsBlank s'
  end.

(** ** A browser to run examples on *)

Module Demo.
Import Reference.

(** [atob] knows one string, the stand-in for the embedded template. *)
#[export] Instance browser : Browser := {|
  pdfTemplateBase64 := "Q09QWQ==";
  atob s :=
    if String.eqb s "Q09QWQ=="
    then Ok "COPY"
    else Throw (Error "The string to be decoded is not correctly encoded.");
  arrayBuffer bytes :=
    if bool_decide (bytes = [67; 79; 80; 89]) then Pdf template else Garbage;
  saveAs _ _ := Ok tt
|}.

(** A page whose embedded constant is not base64. *)
Definition broken : Browser := {|
  pdfTemplateBase64 := "%%%";
  atob := @atob lib browser;
  arrayBuffer := @arrayBuffer lib browser;
  saveAs := @saveAs lib browser
|}.

(** The page before the template is loaded. *)
Definition mounted : World := mkWorld [] [] false None None None 0.

(** A template buffer that is not a PDF. *)
Definition corrupt : World := standalone Garbage.

(** A form with a check box where Client should be, and a Tax Year of at
    most two characters. *)
Definition awkward : PDFDoc string :=
  mkDoc ["control copy"]
        (list_to_map
           [("Client", OtherField "PDFCheckBox");
            ("ProSystem's #", blank); ("Tax Year", TextField (Some 2) "");
            ("Return Type", blank); ("File Directory", blank); ("States", blank);
            ("Preparer", TextField None "J. Doe")]).

(** A row with cells the parser has typed. *)
Definition mixed : JsObject :=
  [("Client", JStr "Hooli"); ("Tax Year", JNum true "2023");
   ("Prosystems #", JNum false "0"); ("States_A", JNull);
   ("States_B", JStr " NV "); ("Notes", JBool true)].

(** A library that cannot serialise more than one page. *)
Definition cramped : PdfLib := {|
  Bytes := RefBytes;
  Page := string;
  decode := @decode lib;
  flattened := @flattened lib;
  encode d :=
    if Nat.ltb 1 (length (pages d))
    then Throw (Error "Array buffer allocation failed")
    else @encode lib d;
  blankPage := @blankPage lib
|}.

Definition textFile : File := mkFile "notes.txt" "text/plain" (Some "a,b").
Definition goodFile : File := mkFile "clients.csv" "" (Some "Client,States").

End Demo.

(** * Proofs *)

(** ** Strings and row objects *)

Lemma trim_kept_nonempty (s : string) :
  is_empty (trim s) = false -> is_empty s = false.
Proof. destruct s; [discriminate | reflexivity]. Qed.

Lemma keys_rowObject (row : RowRecord) : keys (rowObject row) = map fst row.
Proof.
  unfold keys, rowObject. rewrite map_map. reflexivity.
Qed.

Lemma get_rowObject (row : RowRecord) (c : string) :
  get (rowObject row) c =
  match cell row c with
  | Some v => JStr v
  | None => JUndefined
  end.
Proof.
  induction row as [|[c' v] row IH]; [reflexivity|].
  cbn [rowObject map get cell fst snd].
  destruct (String.eqb c' c); [reflexivity|].
  exact IH.
Qed.

(** With distinct column names the object holds each cell under its name. *)
Lemma get_rowObject_cell (row : RowRecord) (c v : string) :
  WellFormed (rowObject row) -> (c, v) ∈ row -> get (rowObject row) c = JStr v.
Proof.
  unfold WellFormed. fold (keys (rowObject row)). rewrite keys_rowObject.
  induction row as [|[c' v'] row IH]; intros Hnd Hin.
  - inversion Hin.
  - cbn [map fst] in Hnd. apply NoDup_cons in Hnd as [Hfresh Hnd].
    cbn [rowObject map get fst snd].
    apply elem_of_cons in Hin as [Heq | Hin].
    + inversion Heq; subst. rewrite String.eqb_refl. reflexivity.
    + destruct (String.eqb c' c) eqn:E.
      * apply String.eqb_eq in E. subst c'. exfalso. apply Hfresh.
        change c with (fst (c, v)). apply list_elem_of_fmap_2. exact Hin.
      * apply IH; assumption.
Qed.

(** [rowData[csvField] || ''] on a RowRecord is the column's value. *)
Lemma mappedText_rowObject (row : RowRecord) (c : string) :
  mappedText (rowObject row) c = column row c.
Proof.
  unfold mappedText, column. rewrite get_rowObject.
  destruct (cell row c) as [[|a v]|]; reflexivity.
Qed.

(** ** The States rule *)

Lemma isStateField_cell (o : JsObject) (kv : string * string) :
  get o (fst kv) = JStr (snd kv) ->
  isStateField o (fst kv) = Ok (keepsState kv).
Proof.
  intros Hget. unfold isStateField, keepsState. rewrite Hget.
  destruct (includes (fst kv) "States"); [|reflexivity].
  cbn [toBoolean andb].
  destruct (snd kv) as [|a s]; reflexivity.
Qed.

Lemma stateFields_cells (o : JsObject) (cells : list (string * string)) :
  Forall (fun kv => get o (fst kv) = JStr (snd kv)) cells ->
  filterR (isStateField o) (map fst cells) =
  Ok (map fst (List.filter keepsState cells)).
Proof.
  induction 1 as [|kv cells Hget _ IH]; [reflexivity|].
  cbn [map filterR List.filter].
  rewrite (isStateField_cell o kv Hget), IH.
  destruct (keepsState kv); reflexivity.
Qed.

Lemma stateValues_cells (o : JsObject) (cells : list (string * string)) :
  Forall (fun kv => get o (fst kv) = JStr (snd kv)) cells ->
  stateValues o (map fst (List.filter keepsState cells)) =
  map JStr (map snd (List.filter keepsState cells)).
Proof.
  unfold stateValues.
  induction 1 as [|kv cells Hget _ IH]; [reflexivity|].
  cbn [List.filter]. destruct (keepsState kv) eqn:E; [|exact IH].
  cbn [map List.filter]. rewrite Hget. cbn [toBoolean].
  unfold keepsState in E. apply andb_true_iff in E as [_ E].
  apply negb_true_iff in E. rewrite (trim_kept_nonempty _ E).
  cbn [negb]. f_equal. exact IH.
Qed.

Lemma join_strings (sep : string) (l : list string) :
  join sep (map JStr l) = String.concat sep l.
Proof.
  unfold join. rewrite map_map. cbn [joinItem toString].
  rewrite map_id. reflexivity.
Qed.

Lemma rowObject_cells (row : RowRecord) :
  WellFormed (rowObject row) ->
  Forall (fun kv => get (rowObject row) (fst kv) = JStr (snd kv)) row.
Proof.
  intros Hwf. apply Forall_forall. intros [c v] Hin.
  apply get_rowObject_cell; assumption.
Qed.

Lemma stateFields_rowObject (row : RowRecord) :
  WellFormed (rowObject row) ->
  stateFields (rowObject row) = Ok (map fst (List.filter keepsState row)).
Proof.
  intros Hwf. unfold stateFields. rewrite keys_rowObject.
  apply stateFields_cells, rowObject_cells, Hwf.
Qed.

Lemma statesText_rowObject (row : RowRecord) :
  WellFormed (rowObject row) ->
  statesText (rowObject row) = Ok (joinedStates row).
Proof.
  intros Hwf. unfold statesText. rewrite (stateFields_rowObject row Hwf).
  rewrite (stateValues_cells _ _ (rowObject_cells row Hwf)).
  rewrite join_strings. reflexivity.
Qed.

(** ** What one call does to the world *)

Section Pipeline.
Context {L : PdfLib}.

Ltac tidy :=
  unfold touched in *;
  cbn [heap console processing error completedPdf templatePdf processedCount
       fst snd] in *.

Lemma touched_id (w : World) : touched (heap w) (console w) w = w.
Proof. destruct w; reflexivity. Qed.

Lemma bind_ok {A B : Type} (m : M A) (k : A -> M B) (w w' : World) (a : A) :
  m w = (Ok a, w') -> bind m k w = k a w'.
Proof. intros H. unfold bind. rewrite H. reflexivity. Qed.

Lemma bind_throw {A B : Type} (m : M A) (k : A -> M B) (w w' : World) (e : JsError) :
  m w = (Throw e, w') -> bind m k w = (Throw e, w').
Proof. intros H. unfold bind. rewrite H. reflexivity. Qed.

Lemma bind_ret {A B : Type} (a : A) (k : A -> M B) (w : World) :
  bind (ret a) k w = k a w.
Proof. reflexivity. Qed.

Lemma readDoc_run (r : Ref) (d : PDFDoc Page) (w : World) :
  heap w !! r = Some (ODoc d) -> readDoc r w = (Ok d, w).
Proof. intros H. unfold readDoc. rewrite H. reflexivity. Qed.

Lemma readBuffer_run (r : Ref) (b : Bytes) (w : World) :
  heap w !! r = Some (OBuffer b) -> readBuffer r w = (Ok b, w).
Proof. intros H. unfold readBuffer. rewrite H. reflexivity. Qed.

Lemma modifyDoc_run (r : Ref) (f : PDFDoc Page -> Result (PDFDoc Page))
    (d : PDFDoc Page) (w : World) :
  heap w !! r = Some (ODoc d) ->
  modifyDoc r f w =
  match f d with
  | Ok d' => (Ok tt, touched (<[r := ODoc d']> (heap w)) (console w) w)
  | Throw e => (Throw e, w)
  end.
Proof.
  intros H. unfold modifyDoc. rewrite (bind_ok _ _ _ _ _ (readDoc_run r d w H)).
  unfold bind, liftR. destruct (f d); reflexivity.
Qed.

Lemma insert_same (h : list Obj) (r : Ref) (o : Obj) :
  h !! r = Some o -> <[r := o]> h = h.
Proof. apply list_insert_id. Qed.

Lemma getTextField_run (form : Ref) (name : string) (d : PDFDoc Page) (w : World) :
  heap w !! form = Some (ODoc d) ->
  getTextField form name w =
  match Form.getTextField d name with
  | Ok _ => (Ok (form, name), w)
  | Throw e => (Throw e, w)
  end.
Proof.
  intros H. unfold getTextField.
  rewrite (bind_ok _ _ _ _ _ (readDoc_run form d w H)).
  unfold bind, liftR, ret. destruct (Form.getTextField d name); reflexivity.
Qed.

Lemma setText_run (form : Ref) (name text : string) (d : PDFDoc Page) (w : World) :
  heap w !! form = Some (ODoc d) ->
  setText (form, name) text w =
  match Form.setText d name text with
  | Ok d' => (Ok tt, touched (<[form := ODoc d']> (heap w)) (console w) w)
  | Throw e => (Throw e, w)
  end.
Proof. intros H. unfold setText. exact (modifyDoc_run form _ d w H). Qed.

Lemma setText_no_field (d : PDFDoc Page) (name text : string) (e : JsError) :
  Form.getTextField d name = Throw e -> Form.setText d name text = Throw e.
Proof. intros H. unfold Form.setText. rewrite H. reflexivity. Qed.

Lemma console_warn_run (msg : string) (w : World) :
  console_warn msg w = (Ok tt, touched (heap w) (console w ++ [Warn msg]) w).
Proof. reflexivity. Qed.

(** A guarded [getTextField]/[setText] pair never throws. *)
Lemma tryText_run (form : Ref) (name text : string) (warning : JsError -> string)
    (d : PDFDoc Page) (w : World) :
  heap w !! form = Some (ODoc d) ->
  tryCatch
    (bind (getTextField form name) (fun formField => setText formField text))
    (fun e => console_warn (warning e)) w =
  (Ok tt,
   touched (<[form := ODoc (fst (tryText warning d name text))]> (heap w))
           (console w ++ snd (tryText warning d name text)) w).
Proof.
  intros H. unfold tryCatch, bind. rewrite (getTextField_run form name d w H).
  unfold tryText.
  destruct (Form.getTextField d name) as [maxLength|e] eqn:Hget.
  - rewrite (setText_run form name text d w H).
    destruct (Form.setText d name text) as [d'|e]; cbn [fst snd].
    + rewrite app_nil_r. reflexivity.
    + rewrite console_warn_run, (insert_same _ _ _ H). reflexivity.
  - rewrite (setText_no_field d name text e Hget). cbn [fst snd].
    rewrite console_warn_run, (insert_same _ _ _ H). reflexivity.
Qed.

Lemma fillMappedField_run (form : Ref) (rowData : JsObject)
    (csvField pdfField : string) (d : PDFDoc Page) (w : World) :
  heap w !! form = Some (ODoc d) ->
  let step := tryText (mappedWarning pdfField) d pdfField
                      (mappedText rowData csvField) in
  fillMappedField form rowData (csvField, pdfField) w =
  (Ok tt, touched (<[form := ODoc (fst step)]> (heap w))
                  (console w ++ snd step) w).
Proof.
  intros H.
  exact (tryText_run form pdfField (mappedText rowData csvField)
                     (mappedWarning pdfField) d w H).
Qed.

Lemma lookup_written (h : list Obj) (r : Ref) (o o' : Obj) :
  h !! r = Some o -> <[r := o']> h !! r = Some o'.
Proof.
  intros H. apply list_lookup_insert_eq. exact (lookup_lt_Some _ _ _ H).
Qed.

(** The [forEach] over the mapped fields never throws. *)
Lemma forEach_fillMappedField (form : Ref) (rowData : JsObject)
    (entries : list (string * string)) :
  forall (d : PDFDoc Page) (w : World),
    heap w !! form = Some (ODoc d) ->
    forEach (fillMappedField form rowData) entries w =
    (Ok tt,
     touched (<[form := ODoc (fst (fillMapped rowData entries d))]> (heap w))
             (console w ++ snd (fillMapped rowData entries d)) w).
Proof.
  induction entries as [|[csvField pdfField] rest IH]; intros d w H.
  - cbn [forEach fillMapped fst snd]. unfold ret.
    rewrite app_nil_r, (insert_same _ _ _ H), touched_id. reflexivity.
  - cbn [forEach fillMapped fst snd].
    rewrite (bind_ok _ _ _ _ _ (fillMappedField_run form rowData csvField pdfField d w H)).
    rewrite (IH (fst (tryText (mappedWarning pdfField) d pdfField
                              (mappedText rowData csvField)))).
    + unfold touched; cbn [heap console processing error completedPdf
                          templatePdf processedCount].
      rewrite list_insert_insert_eq, app_assoc. reflexivity.
    + cbn [touched heap]. exact (lookup_written _ _ _ _ H).
Qed.

Lemma fillStatesField_run (form : Ref) (rowData : JsObject) (d : PDFDoc Page)
    (w : World) :
  heap w !! form = Some (ODoc d) ->
  fillStatesField form rowData w =
  match statesText rowData with
  | Ok text =>
      (Ok tt,
       touched (<[form := ODoc (fst (tryText statesWarning d "States" text))]> (heap w))
               (console w ++ snd (tryText statesWarning d "States" text)) w)
  | Throw e => (Throw e, w)
  end.
Proof.
  intros H. unfold fillStatesField, statesText, bind at 1, liftR.
  destruct (stateFields rowData) as [fields|e]; [|reflexivity].
  exact (tryText_run form "States" _ statesWarning d w H).
Qed.

Lemma console_error_run (label : string) (e : JsError) (w : World) :
  console_error label e w =
  (Ok tt, touched (heap w) (console w ++ [LogError label e]) w).
Proof. reflexivity. Qed.

(** The filling block on the document behind [form]. *)
Lemma fillFormFields_run (form : Ref) (rowData : JsObject) (d : PDFDoc Page)
    (w : World) :
  heap w !! form = Some (ODoc d) ->
  fillFormFields form rowData w =
  (fst (fst (fillFields rowData d)),
   touched (<[form := ODoc (snd (fst (fillFields rowData d)))]> (heap w))
           (console w ++ snd (fillFields rowData d)) w).
Proof.
  intros H. unfold fillFormFields, tryCatch.
  rewrite (bind_ok _ _ _ _ _ (forEach_fillMappedField form rowData fieldMappings d w H)).
  set (mapped := fillMapped rowData fieldMappings d).
  rewrite (fillStatesField_run form rowData (fst mapped)).
  2: { cbn [touched heap]. exact (lookup_written _ _ _ _ H). }
  unfold fillFields. fold mapped.
  destruct (statesText rowData) as [text|e]; cbn [fst snd].
  - unfold touched; cbn [heap console processing error completedPdf
                        templatePdf processedCount].
    rewrite list_insert_insert_eq, app_assoc. reflexivity.
  - rewrite (bind_ok _ _ _ _ _ (console_error_run _ e _)).
    unfold throw, touched; cbn [heap console processing error completedPdf
                                templatePdf processedCount].
    rewrite app_assoc. reflexivity.
Qed.

(** *** Fresh objects *)

Lemma lookup_fresh (h : list Obj) (o : Obj) (rest : list Obj) :
  (h ++ o :: rest) !! length h = Some o.
Proof. apply list_lookup_middle. reflexivity. Qed.

Lemma lookup_fresh_next (h : list Obj) (o o' : Obj) (rest : list Obj) :
  (h ++ o :: o' :: rest) !! S (length h) = Some o'.
Proof.
  change (h ++ o :: o' :: rest) with (h ++ [o] ++ o' :: rest).
  rewrite app_assoc. apply list_lookup_middle.
  rewrite length_app. cbn. lia.
Qed.

Lemma insert_fresh (h : list Obj) (o o' : Obj) :
  <[length h := o']> (h ++ [o]) = h ++ [o'].
Proof.
  rewrite insert_app_r_alt by lia. rewrite Nat.sub_diag. reflexivity.
Qed.

Lemma PDFDocument_load_run (pdf : Ref) (b : Bytes) (w : World) :
  heap w !! pdf = Some (OBuffer b) ->
  PDFDocument_load pdf w =
  match decode b with
  | Ok d => (Ok (length (heap w)), touched (heap w ++ [ODoc d]) (console w) w)
  | Throw e => (Throw e, w)
  end.
Proof.
  intros H. unfold PDFDocument_load.
  rewrite (bind_ok _ _ _ _ _ (readBuffer_run pdf b w H)).
  unfold bind, liftR, alloc. destruct (decode b); reflexivity.
Qed.

Lemma flatten_run (form : Ref) (d : PDFDoc Page) (w : World) :
  heap w !! form = Some (ODoc d) ->
  flatten form w =
  match flattened d with
  | Ok d' => (Ok tt, touched (<[form := ODoc d']> (heap w)) (console w) w)
  | Throw e => (Throw e, w)
  end.
Proof. intros H. exact (modifyDoc_run form flattened d w H). Qed.


Lemma withDefaultPage_empty (f : gmap string PDFField) :
  Form.withDefaultPage (mkDoc [] f) blankPage = mkDoc [blankPage] f.
Proof. reflexivity. Qed.

(** [save] leaves the document with its default page, if it needed one,
    also when the serialiser throws. *)
Lemma save_run (doc : Ref) (d : PDFDoc Page) (w : World) :
  heap w !! doc = Some (ODoc d) ->
  let d' := Form.withDefaultPage d blankPage in
  save doc w =
  match encode d' with
  | Ok b =>
      (Ok (length (heap w)),
       touched (<[doc := ODoc d']> (heap w) ++ [OBuffer b]) (console w) w)
  | Throw e => (Throw e, touched (<[doc := ODoc d']> (heap w)) (console w) w)
  end.
Proof.
  intros H d'. subst d'. unfold save, getPageCount.
  rewrite (bind_ok _ _ w w (length (pages d))).
  2: { rewrite (bind_ok _ _ _ _ _ (readDoc_run doc d w H)). reflexivity. }
  unfold Form.withDefaultPage.
  destruct (Nat.eqb (length (pages d)) 0).
  - unfold addPage.
    pose proof (modifyDoc_run doc (fun d0 => Ok (Form.addPage d0 blankPage)) d w H)
      as Hadd.
    cbn beta in Hadd. rewrite (bind_ok _ _ _ _ _ Hadd).
    pose proof (lookup_written _ _ _ (ODoc (Form.addPage d blankPage)) H) as Hnew.
    rewrite (bind_ok _ _ _ _ _
               (readDoc_run doc _ (touched (<[doc := _]> (heap w)) (console w) w) Hnew)).
    unfold bind, liftR, alloc, withHeap. tidy.
    destruct (encode _); [rewrite length_insert|]; reflexivity.
  - rewrite bind_ret, (bind_ok _ _ _ _ _ (readDoc_run doc d w H)).
    unfold bind, liftR, alloc, withHeap. rewrite (insert_same _ _ _ H).
    destruct (encode d); [|rewrite touched_id]; reflexivity.
Qed.

(** [fillPdfForm] touches nothing that was on the heap: it allocates the
    objects of [fillEffect] and logs its warnings. *)
Lemma fillPdfForm_run (templateBytes : Ref) (rowData : JsObject) (b : Bytes)
    (w : World) :
  heap w !! templateBytes = Some (OBuffer b) ->
  fillPdfForm templateBytes rowData w =
  (match fst (fst (fillEffect b rowData)) with
   | Ok _ => Ok (S (length (heap w)))
   | Throw e => Throw e
   end,
   touched (heap w ++ snd (fst (fillEffect b rowData)))
           (console w ++ snd (fillEffect b rowData)) w).
Proof.
  intros H. unfold fillPdfForm, fillEffect.
  pose proof (PDFDocument_load_run templateBytes b w H) as Hload.
  destruct (decode b) as [d0|e].
  2: { rewrite (bind_throw _ _ _ _ _ Hload). cbn [fst snd].
       rewrite !app_nil_r, touched_id. reflexivity. }
  rewrite (bind_ok _ _ _ _ _ Hload).
  unfold getForm. rewrite bind_ret.
  set (n := length (heap w)).
  assert (Hfill :
    fillFormFields n rowData (touched (heap w ++ [ODoc d0]) (console w) w) =
    (fst (fst (fillFields rowData d0)),
     touched (heap w ++ [ODoc (snd (fst (fillFields rowData d0)))])
             (console w ++ snd (fillFields rowData d0)) w)).
  { rewrite (fillFormFields_run n rowData d0).
    - cbn [touched heap console]. subst n. rewrite insert_fresh. reflexivity.
    - cbn [touched heap]. apply lookup_fresh. }
  destruct (fillFields rowData d0) as [[r d1] log]. cbn [fst snd] in Hfill |- *.
  destruct r as [[]|e].
  2: { rewrite (bind_throw _ _ _ _ _ Hfill). reflexivity. }
  rewrite (bind_ok _ _ _ _ _ Hfill).
  assert (Hflat := flatten_run n d1
            (touched (heap w ++ [ODoc d1]) (console w ++ log) w)
            (lookup_fresh (heap w) (ODoc d1) [])).
  subst n. tidy.
  destruct (flattened d1) as [d2|e].
  2: { rewrite (bind_throw _ _ _ _ _ Hflat). reflexivity. }
  rewrite insert_fresh in Hflat.
  rewrite (bind_ok _ _ _ _ _ Hflat).
  assert (Hsave := save_run (length (heap w)) d2
            (touched (heap w ++ [ODoc d2]) (console w ++ log) w)
            (lookup_fresh (heap w) (ODoc d2) [])).
  tidy. rewrite insert_fresh in Hsave. rewrite Hsave.
  destruct (encode _) as [bytes|e]; cbn [fst snd]; [|reflexivity].
  rewrite length_app, <- app_assoc. cbn [length app].
  replace (length (heap w) + 1) with (S (length (heap w))) by lia.
  reflexivity.
Qed.

Lemma fillEffect_objects (template : Bytes) (rowData : JsObject) (bytes : Bytes) :
  fst (fst (fillEffect template rowData)) = Ok bytes ->
  exists d2, snd (fst (fillEffect template rowData)) = [ODoc d2; OBuffer bytes].
Proof.
  unfold fillEffect.
  destruct (decode template) as [d0|e]; [|discriminate].
  destruct (fillFields rowData d0) as [[[[]|e] d1] log]; [|discriminate].
  destruct (flattened d1) as [d2|e]; [|discriminate].
  cbn zeta. destruct (encode _) as [b|e]; [|discriminate].
  cbn [fst snd]. intros [= ->]. eexists. reflexivity.
Qed.

(** *** Copying the pages *)

Lemma pagesAt_seq (d : PDFDoc Page) (ps : list Page) :
  forall before : list Page,
    pages d = before ++ ps ->
    Form.pagesAt d (seq (length before) (length ps)) = Ok ps.
Proof.
  induction ps as [|p ps IH]; intros before Hd; [reflexivity|].
  cbn [length seq Form.pagesAt].
  rewrite Hd at 1. rewrite list_lookup_middle by reflexivity.
  specialize (IH (before ++ [p])).
  rewrite length_app, Nat.add_1_r in IH.
  rewrite IH; [reflexivity|].
  rewrite Hd, <- app_assoc. reflexivity.
Qed.

Lemma pagesAt_all (d : PDFDoc Page) :
  Form.pagesAt d (Form.getPageIndices d) = Ok (pages d).
Proof. exact (pagesAt_seq d (pages d) [] eq_refl). Qed.

Lemma addPage_run (doc : Ref) (page : Page) (d : PDFDoc Page) (w : World) :
  heap w !! doc = Some (ODoc d) ->
  addPage doc page w =
  (Ok tt, touched (<[doc := ODoc (Form.addPage d page)]> (heap w)) (console w) w).
Proof. intros H. unfold addPage. rewrite (modifyDoc_run doc _ d w H). reflexivity. Qed.

Lemma forEach_addPage (doc : Ref) (ps : list Page) :
  forall (d : PDFDoc Page) (w : World),
    heap w !! doc = Some (ODoc d) ->
    forEach (fun page => addPage doc page) ps w =
    (Ok tt,
     touched (<[doc := ODoc (mkDoc (pages d ++ ps) (fields d))]> (heap w))
             (console w) w).
Proof.
  induction ps as [|p ps IH]; intros d w H.
  - cbn [forEach]. unfold ret. rewrite app_nil_r.
    replace (mkDoc (pages d) (fields d)) with d by (destruct d; reflexivity).
    rewrite (insert_same _ _ _ H), touched_id. reflexivity.
  - cbn [forEach].
    rewrite (bind_ok _ _ _ _ _ (addPage_run doc p d w H)).
    rewrite (IH (Form.addPage d p)).
    + tidy. rewrite list_insert_insert_eq.
      unfold Form.addPage. cbn [pages fields].
      rewrite <- app_assoc. reflexivity.
    + tidy. exact (lookup_written _ _ _ _ H).
Qed.

(** One turn of the loop: on success the merged document gains the pages of
    the row's document and the counter goes up by one; on failure nothing
    that existed is touched. *)
Lemma processRow_run (t m : Ref) (row : JsObject)
    (b : Bytes) (dm : PDFDoc Page) (w : World) :
  heap w !! t = Some (OBuffer b) ->
  heap w !! m = Some (ODoc dm) ->
  processRow t m row w =
  match fst (fst (rowEffect b row)) with
  | Ok d =>
      (Ok tt,
       mkWorld (<[m := ODoc (appended dm d)]> (heap w)
                ++ snd (fst (rowEffect b row)))
               (console w ++ snd (rowEffect b row))
               (processing w) (error w) (completedPdf w)
               (templatePdf w) (processedCount w + 1))
  | Throw e =>
      (Throw e,
       touched (heap w ++ snd (fst (rowEffect b row)))
               (console w ++ snd (rowEffect b row)) w)
  end.
Proof.
  intros Ht Hm. unfold processRow, rowEffect.
  pose proof (fillPdfForm_run t row b w Ht) as Hfill.
  pose proof (fillEffect_objects b row) as Hobjs.
  destruct (fillEffect b row) as [[[bytes|e] objs] log]; cbn [fst snd] in *.
  2: { rewrite (bind_throw _ _ _ _ _ Hfill). reflexivity. }
  destruct (Hobjs bytes eq_refl) as [d2 ->]. clear Hobjs.
  rewrite (bind_ok _ _ _ _ _ Hfill).
  set (w2 := touched (heap w ++ [ODoc d2; OBuffer bytes]) (console w ++ log) w).
  assert (Hload := PDFDocument_load_run (S (length (heap w))) bytes w2
                     (lookup_fresh_next (heap w) (ODoc d2) (OBuffer bytes) [])).
  destruct (decode bytes) as [d|e]; cbn [fst snd].
  2: { rewrite (bind_throw _ _ _ _ _ Hload). reflexivity. }
  rewrite (bind_ok _ _ _ _ _ Hload).
  set (w3 := touched (heap w2 ++ [ODoc d]) (console w2) w2).
  assert (Hd : heap w3 !! length (heap w2) = Some (ODoc d))
    by apply lookup_fresh.
  unfold getPageIndices.
  rewrite (bind_ok _ _ _ _ _ (bind_ok _ _ _ _ _ (readDoc_run _ d w3 Hd))).
  unfold copyPages.
  rewrite (bind_ok _ _ w3 w3 (pages d)).
  2: { rewrite (bind_ok _ _ _ _ _ (readDoc_run _ d w3 Hd)).
       unfold liftR. rewrite pagesAt_all. reflexivity. }
  assert (Hm3 : heap w3 !! m = Some (ODoc dm)).
  { subst w3 w2. tidy. rewrite !lookup_app_l; [exact Hm| |].
    - exact (lookup_lt_Some _ _ _ Hm).
    - rewrite length_app. pose proof (lookup_lt_Some _ _ _ Hm). lia. }
  rewrite (bind_ok _ _ _ _ _ (forEach_addPage m (pages d) dm w3 Hm3)).
  unfold setProcessedCount, appended. subst w3 w2. tidy.
  pose proof (lookup_lt_Some _ _ _ Hm) as Hlt.
  rewrite !insert_app_l by (rewrite ?length_app; lia).
  rewrite <- app_assoc. reflexivity.
Qed.

(** A row's filled document is the first component of [rowEffect]. *)
Lemma filledDocument_rowEffect (template : Bytes) (row : JsObject) :
  filledDocument template row = fst (fst (rowEffect template row)).
Proof.
  unfold filledDocument, outcome, rowEffect.
  set (w := standalone template).
  assert (Ht : heap w !! 0 = Some (OBuffer template)) by reflexivity.
  pose proof (fillPdfForm_run 0 row template w Ht) as Hfill.
  pose proof (fillEffect_objects template row) as Hobjs.
  destruct (fillEffect template row) as [[[bytes|e] objs] log]; cbn [fst snd] in *.
  2: { rewrite (bind_throw _ _ _ _ _ Hfill). reflexivity. }
  destruct (Hobjs bytes eq_refl) as [d2 ->]. clear Hobjs.
  rewrite (bind_ok _ _ _ _ _ Hfill).
  set (w2 := touched (heap w ++ [ODoc d2; OBuffer bytes]) (console w ++ log) w).
  assert (Hload := PDFDocument_load_run (S (length (heap w))) bytes w2
                     (lookup_fresh_next (heap w) (ODoc d2) (OBuffer bytes) [])).
  destruct (decode bytes) as [d|e]; cbn [fst snd].
  2: { rewrite (bind_throw _ _ _ _ _ Hload). reflexivity. }
  rewrite (bind_ok _ _ _ _ _ Hload).
  rewrite (readDoc_run _ d) by apply lookup_fresh.
  reflexivity.
Qed.

(** *** What a turn of the loop leaves alone *)

Lemma carried_refl (m : Ref) (w : World) : carried m w w.
Proof. unfold carried. auto. Qed.

Lemma carried_trans (m : Ref) (w1 w2 w3 : World) :
  carried m w1 w2 -> carried m w2 w3 -> carried m w1 w3.
Proof.
  unfold carried. intros (Ha & ? & ? & ? & ?) (Hb & ? & ? & ? & ?).
  repeat split; try congruence. auto.
Qed.

Lemma lookup_kept (h objs : list Obj) (m a : Ref) (o o' : Obj) :
  a <> m -> h !! a = Some o -> (<[m := o']> h ++ objs) !! a = Some o.
Proof.
  intros Hne Ha. rewrite lookup_app_l.
  - rewrite list_lookup_insert_ne by congruence. exact Ha.
  - rewrite length_insert. exact (lookup_lt_Some _ _ _ Ha).
Qed.

Lemma lookup_extended (h objs : list Obj) (a : Ref) (o : Obj) :
  h !! a = Some o -> (h ++ objs) !! a = Some o.
Proof.
  intros Ha. rewrite lookup_app_l; [exact Ha | exact (lookup_lt_Some _ _ _ Ha)].
Qed.

Section Loop.
Variables (t m : Ref) (b : Bytes).

Lemma processRow_ok (row : JsObject) (d dm : PDFDoc Page) (w : World) :
  heap w !! t = Some (OBuffer b) ->
  heap w !! m = Some (ODoc dm) ->
  filledDocument b row = Ok d ->
  exists w',
    processRow t m row w = (Ok tt, w')
    /\ heap w' !! m = Some (ODoc (appended dm d))
    /\ carried m w w'
    /\ console w' = console w ++ snd (rowEffect b row)
    /\ processedCount w' = processedCount w + 1.
Proof.
  intros Ht Hm Hd. rewrite filledDocument_rowEffect in Hd.
  rewrite (processRow_run t m row b dm w Ht Hm), Hd.
  eexists. split; [reflexivity|]. cbn [heap console processedCount].
  split; [|split; [|split]]; [| |reflexivity|reflexivity].
  - apply lookup_extended, (lookup_written _ _ _ _ Hm).
  - unfold carried. cbn. repeat split; auto.
    intros a o Hne Ha. apply lookup_kept; assumption.
Qed.

Lemma processRow_throw (row : JsObject) (e : JsError) (dm : PDFDoc Page)
    (w : World) :
  heap w !! t = Some (OBuffer b) ->
  heap w !! m = Some (ODoc dm) ->
  filledDocument b row = Throw e ->
  exists w',
    processRow t m row w = (Throw e, w')
    /\ heap w' !! m = Some (ODoc dm)
    /\ carried m w w'
    /\ console w' = console w ++ snd (rowEffect b row)
    /\ processedCount w' = processedCount w.
Proof.
  intros Ht Hm Hd. rewrite filledDocument_rowEffect in Hd.
  rewrite (processRow_run t m row b dm w Ht Hm), Hd.
  eexists. split; [reflexivity|]. cbn [touched heap console processedCount].
  split; [|split; [|split]]; [| |reflexivity|reflexivity].
  - apply lookup_extended, Hm.
  - unfold carried. cbn. repeat split; auto.
    intros a o _ Ha. apply lookup_extended, Ha.
Qed.

Lemma forEach_app {A : Type} (body : A -> M unit) (l1 l2 : list A) (w : World) :
  forEach body (l1 ++ l2) w = bind (forEach body l1) (fun _ => forEach body l2) w.
Proof.
  revert w. induction l1 as [|x l1 IH]; intros w; [reflexivity|].
  cbn [app forEach]. unfold bind.
  destruct (body x w) as [[[]|e] w1]; [|reflexivity].
  rewrite IH. reflexivity.
Qed.

(** The loop over rows that all fill and reload. *)
Lemma forEach_processRow_ok (rows : list JsObject) (docs : list (PDFDoc Page)) :
  Forall2 (fun row d => filledDocument b row = Ok d) rows docs ->
  forall (dm : PDFDoc Page) (w : World),
    heap w !! t = Some (OBuffer b) ->
    heap w !! m = Some (ODoc dm) ->
    exists w',
      forEach (processRow t m) rows w = (Ok tt, w')
      /\ heap w' !! m =
         Some (ODoc (mkDoc (pages dm ++ concat (map pages docs)) (fields dm)))
      /\ carried m w w'
      /\ processedCount w' = processedCount w + length rows.
Proof.
  induction 1 as [|row d rows docs Hd _ IH]; intros dm w Ht Hm.
  - exists w. cbn [forEach map concat length]. unfold ret.
    rewrite app_nil_r, Nat.add_0_r.
    replace (mkDoc (pages dm) (fields dm)) with dm by (destruct dm; reflexivity).
    auto using carried_refl.
  - destruct (processRow_ok row d dm w Ht Hm Hd)
      as (w1 & Hrun & Hm1 & Hc1 & _ & Hn1).
    assert (Ht1 : heap w1 !! t = Some (OBuffer b)).
    { destruct Hc1 as (Hheap & _). apply Hheap; [|exact Ht]. congruence. }
    destruct (IH (appended dm d) w1 Ht1 Hm1) as (w' & Hrun' & Hm' & Hc' & Hn').
    exists w'. cbn [forEach]. rewrite (bind_ok _ _ _ _ _ Hrun).
    split; [exact Hrun'|]. split; [|split].
    + rewrite Hm'. unfold appended. cbn [pages fields map concat].
      rewrite <- app_assoc. reflexivity.
    + exact (carried_trans _ _ _ _ Hc1 Hc').
    + rewrite Hn', Hn1. cbn [length]. lia.
Qed.

(** The loop that meets a failing row after [before]: it stops there. *)
Lemma forEach_processRow_throw (before : list JsObject)
    (docs : list (PDFDoc Page)) (row : JsObject) (e : JsError)
    (after : list JsObject) (dm : PDFDoc Page) (w : World) :
  Forall2 (fun row d => filledDocument b row = Ok d) before docs ->
  filledDocument b row = Throw e ->
  heap w !! t = Some (OBuffer b) ->
  heap w !! m = Some (ODoc dm) ->
  exists w',
    forEach (processRow t m) (before ++ row :: after) w
      = (Throw e, w')
    /\ forEach (processRow t m) (before ++ [row]) w
      = (Throw e, w')
    /\ carried m w w'
    /\ processedCount w' = processedCount w + length before.
Proof.
  intros Hbefore Hrow Ht Hm.
  destruct (forEach_processRow_ok before docs Hbefore dm w Ht Hm)
    as (w1 & Hrun & Hm1 & Hc1 & Hn1).
  assert (Ht1 : heap w1 !! t = Some (OBuffer b)).
  { destruct Hc1 as (Hheap & _). apply Hheap; [|exact Ht]. congruence. }
  destruct (processRow_throw row e _ w1 Ht1 Hm1 Hrow)
    as (w' & Hrun' & _ & Hc' & _ & Hn').
  exists w'. rewrite !forEach_app, !(bind_ok _ _ _ _ _ Hrun).
  cbn [forEach]. rewrite !(bind_throw _ _ _ _ _ Hrun').
  split; [reflexivity|]. split; [reflexivity|]. split.
  - exact (carried_trans _ _ _ _ Hc1 Hc').
  - rewrite Hn', Hn1. reflexivity.
Qed.

(** Whatever the rows do, the loop leaves every other object alone. *)
Lemma forEach_processRow_carried (rows : list JsObject) :
  forall (dm : PDFDoc Page) (w : World),
    heap w !! t = Some (OBuffer b) ->
    heap w !! m = Some (ODoc dm) ->
    carried m w (snd (forEach (processRow t m) rows w))
    /\ exists dm',
         heap (snd (forEach (processRow t m) rows w)) !! m
         = Some (ODoc dm').
Proof.
  induction rows as [|row rows IH]; intros dm w Ht Hm.
  - cbn. split; [apply carried_refl | eauto].
  - cbn [forEach].
    destruct (filledDocument b row) as [d|e] eqn:Hd.
    + destruct (processRow_ok row d dm w Ht Hm Hd)
        as (w1 & Hrun & Hm1 & Hc1 & _).
      assert (Ht1 : heap w1 !! t = Some (OBuffer b)).
      { destruct Hc1 as (Hheap & _). apply Hheap; [|exact Ht]. congruence. }
      rewrite (bind_ok _ _ _ _ _ Hrun).
      destruct (IH _ w1 Ht1 Hm1) as (Hc & Hdm).
      split; [exact (carried_trans _ _ _ _ Hc1 Hc) | exact Hdm].
    + destruct (processRow_throw row e dm w Ht Hm Hd)
        as (w1 & Hrun & Hm1 & Hc1 & _).
      rewrite (bind_throw _ _ _ _ _ Hrun). cbn [snd].
      split; [exact Hc1 | eauto].
Qed.

End Loop.

(** *** [processCsvData] around its loop *)

Lemma processCsvData_run (csvData : list JsObject) (t : Ref) (w : World) :
  templatePdf w = Some t ->
  processCsvData csvData w =
  (Ok tt,
   match forEach (processRow t (length (heap w))) csvData (started t w) with
   | (Ok _, w') => finished (length (heap w)) w'
   | (Throw e, w') => failed e w'
   end).
Proof.
  intros Ht.
  unfold processCsvData, tryFinally, tryCatch, bind, setProcessing, setError,
    setCompletedPdf, setProcessedCount, getTemplatePdf, PDFDocument_create,
    alloc, withHeap, console_error, withConsole, finished, failed, started.
  cbn [heap console processing error completedPdf templatePdf processedCount].
  rewrite Ht.
  destruct (forEach _ csvData _) as [[[]|e] w2]; [|reflexivity].
  destruct (save _ w2) as [[r|e] w3]; reflexivity.
Qed.

Lemma processCsvData_no_template (csvData : list JsObject) (w : World) :
  templatePdf w = None ->
  processCsvData csvData w =
  (Ok tt,
   failed (Error "PDF template not loaded. Please reload the page.")
          (mkWorld (heap w) (console w) true None None None 0)).
Proof.
  intros Ht.
  unfold processCsvData, tryFinally, tryCatch, bind, setProcessing, setError,
    setCompletedPdf, setProcessedCount, getTemplatePdf, throw, console_error,
    withConsole, failed.
  cbn [heap console processing error completedPdf templatePdf processedCount].
  rewrite Ht. reflexivity.
Qed.

Lemma started_template (t : Ref) (b : Bytes) (w : World) :
  heap w !! t = Some (OBuffer b) -> heap (started t w) !! t = Some (OBuffer b).
Proof. intros H. cbn [started heap]. apply lookup_extended, H. Qed.

Lemma started_merged (t : Ref) (w : World) :
  heap (started t w) !! length (heap w) = Some (ODoc (mkDoc [] ∅)).
Proof. cbn [started heap]. apply lookup_fresh. Qed.

Lemma finished_run (m : Ref) (d : PDFDoc Page) (w : World) :
  heap w !! m = Some (ODoc d) ->
  let d' := Form.withDefaultPage d blankPage in
  finished m w =
  match encode d' with
  | Ok bytes =>
      mkWorld (<[m := ODoc d']> (heap w) ++ [OBuffer bytes]) (console w) false
              (error w) (Some (length (heap w))) (templatePdf w)
              (processedCount w)
  | Throw e => failed e (touched (<[m := ODoc d']> (heap w)) (console w) w)
  end.
Proof.
  intros H d'. unfold finished. rewrite (save_run m d w H). fold d'.
  destruct (encode d'); reflexivity.
Qed.

Lemma filled_documents (template : Bytes) (rows : list JsObject) :
  Forall (fun row => exists d, filledDocument template row = Ok d) rows ->
  exists docs,
    Forall2 (fun row d => filledDocument template row = Ok d) rows docs.
Proof.
  induction 1 as [|row rows [d Hd] _ [docs IH]].
  - exists []. constructor.
  - exists (d :: docs). constructor; assumption.
Qed.

(** ** The batch *)


(** C3: when the rows before row i fill and row i throws, the run leaves
    [completedPdf] unset, reports i-1 processed rows and the failure, and is
    the very run of the rows up to i: the rows after i are never reached. *)
Theorem abort_on_first_failure (before : list JsObject) (row : JsObject)
    (after : list JsObject) (e : JsError) (t : Ref) (b : Bytes) (w : World) :
  templatePdf w = Some t ->
  heap w !! t = Some (OBuffer b) ->
  Forall (fun r => exists d, filledDocument b r = Ok d) before ->
  filledDocument b row = Throw e ->
  let w' := run (processCsvData (before ++ row :: after)) w in
  completedPdf w' = None
  /\ processedCount w' = length before
  /\ error w' = Some ("Failed to process CSV data: " ++ message e)%string
  /\ processing w' = false
  /\ w' = run (processCsvData (before ++ [row])) w.
Proof.
  intros Ht Hb Hbefore Hrow w'. subst w'. unfold run.
  destruct (filled_documents b before Hbefore) as [docs Hdocs].
  rewrite !(processCsvData_run _ t w Ht). cbn [snd].
  destruct (forEach_processRow_throw t (length (heap w)) b before docs row e
              after (mkDoc [] ∅) (started t w) Hdocs Hrow
              (started_template t b w Hb) (started_merged t w))
    as (w2 & Hrun & Hrun' & (_ & _ & _ & Hdone & _) & Hn).
  rewrite Hrun, Hrun'. cbn [failed completedPdf processedCount error processing].
  rewrite Hdone, Hn. cbn [started completedPdf processedCount]. auto.
Qed.

(** C9: with the template loaded, the run over no rows ends
    without an error and counts 0.  No row adds a page to the merged
    document, so [save] gives it its blank default page: the document that is
    written, and whose bytes become [completedPdf], has that one page and no
    other, not zero pages. *)
Theorem empty_batch_saves_blank_page (t : Ref) (bytes : Bytes) (w : World) :
  templatePdf w = Some t ->
  encode (mkDoc [blankPage] ∅) = Ok bytes ->
  let w' := run (processCsvData []) w in
  outcome (processCsvData []) w = Ok tt
  /\ error w' = None
  /\ console w' = console w
  /\ processedCount w' = 0
  /\ docAt w' (length (heap w)) = Some (mkDoc [blankPage] ∅)
  /\ (exists r, completedPdf w' = Some r /\ bufferAt w' r = Some bytes)
  /\ (forall d, decode bytes = Ok d -> artifactPages w' = Some (pages d)).
Proof.
  intros Ht Henc w'. subst w'. unfold run, outcome.
  rewrite (processCsvData_run [] t w Ht). cbn [fst snd forEach]. unfold ret.
  rewrite (finished_run _ _ _ (started_merged t w)).
  rewrite withDefaultPage_empty, Henc.
  cbn [error console processedCount completedPdf started heap].
  rewrite insert_fresh.
  assert (Hbytes :
    ((heap w ++ [ODoc (mkDoc [blankPage] ∅)]) ++ [OBuffer bytes])
      !! length (heap w ++ [ODoc (mkDoc [] ∅)]) = Some (OBuffer bytes)).
  { rewrite !length_app. cbn [length].
    rewrite <- (length_app (heap w) [ODoc (mkDoc [blankPage] ∅)]).
    apply lookup_fresh. }
  repeat split.
  - unfold docAt. cbn [heap].
    rewrite (lookup_extended _ _ _ _ (lookup_fresh (heap w) _ [])). reflexivity.
  - eexists. split; [reflexivity|].
    unfold bufferAt. cbn [heap]. rewrite Hbytes. reflexivity.
  - intros d Hdec. unfold artifactPages, bufferAt. cbn [completedPdf heap].
    rewrite Hbytes, Hdec. reflexivity.
Qed.

(** ** The template and the instances filled from it *)

Lemma docAt_lookup (w : World) (r : Ref) (d : PDFDoc Page) :
  docAt w r = Some d -> heap w !! r = Some (ODoc d).
Proof.
  unfold docAt. destruct (heap w !! r) as [[|d']|]; try discriminate.
  intros [= ->]. reflexivity.
Qed.

Lemma fillPdfForm_keeps (t : Ref) (b : Bytes) (row : JsObject) (w : World) :
  heap w !! t = Some (OBuffer b) ->
  (forall a o, heap w !! a = Some o ->
               heap (run (fillPdfForm t row) w) !! a = Some o)
  /\ templatePdf (run (fillPdfForm t row) w) = templatePdf w.
Proof.
  intros Hb. unfold run. rewrite (fillPdfForm_run t row b w Hb). cbn [snd].
  split; [|reflexivity].
  intros a o Ha. cbn [touched heap]. apply lookup_extended, Ha.
Qed.

Lemma failed_keeps (e : JsError) (w : World) :
  heap (failed e w) = heap w /\ templatePdf (failed e w) = templatePdf w.
Proof. split; reflexivity. Qed.

(** C7: a batch run over any rows leaves the template reference and the
    template bytes as they were, along with every other object that existed
    before it; and each call of [fillPdfForm] works on an instance of its own:
    it changes no object that was on the heap when it was called. *)
Theorem template_never_mutated (rows : list JsObject) (t : Ref) (b : Bytes)
    (w : World) :
  templatePdf w = Some t ->
  heap w !! t = Some (OBuffer b) ->
  let w' := run (processCsvData rows) w in
  templatePdf w' = Some t
  /\ bufferAt w' t = Some b
  /\ (forall a o, heap w !! a = Some o -> heap w' !! a = Some o)
  /\ (forall row w0,
        heap w0 !! t = Some (OBuffer b) ->
        forall a o, heap w0 !! a = Some o ->
                    heap (run (fillPdfForm t row) w0) !! a = Some o).
Proof.
  intros Ht Hb w'.
  assert (Hkeep : templatePdf w' = Some t
                  /\ forall a o, heap w !! a = Some o -> heap w' !! a = Some o).
  { subst w'. unfold run. rewrite (processCsvData_run rows t w Ht). cbn [snd].
    destruct (forEach_processRow_carried t (length (heap w)) b rows
                (mkDoc [] ∅) (started t w) (started_template t b w Hb)
                (started_merged t w))
      as ((Hheap & _ & _ & _ & Htpl) & dm & Hm).
    assert (Hold : forall a o, heap w !! a = Some o ->
              heap (snd (forEach (processRow t (length (heap w))) rows
                                 (started t w))) !! a = Some o).
    { intros a o Ha. apply Hheap.
      - pose proof (lookup_lt_Some _ _ _ Ha). lia.
      - cbn [started heap]. apply lookup_extended, Ha. }
    destruct (forEach _ rows _) as [[[]|e] w2]; cbn [snd] in *.
    - rewrite (finished_run _ dm w2 Hm).
      assert (Hkept : forall a o, heap w !! a = Some o ->
                <[length (heap w) := ODoc (Form.withDefaultPage dm blankPage)]>
                  (heap w2) !! a = Some o).
      { intros a o Ha. rewrite list_lookup_insert_ne; [apply Hold, Ha|].
        pose proof (lookup_lt_Some _ _ _ Ha). lia. }
      destruct (encode _) as [bytes|e]; cbn [templatePdf heap failed touched];
        split; try (rewrite Htpl; reflexivity); intros a o Ha;
        [apply lookup_extended|]; apply Hkept, Ha.
    - cbn [templatePdf heap failed]. split; [rewrite Htpl; reflexivity|].
      exact Hold. }
  destruct Hkeep as [Htpl Hold].
  split; [exact Htpl|]. split; [|split; [exact Hold|]].
  - unfold bufferAt. rewrite (Hold t _ Hb). reflexivity.
  - intros row w0 Hb0. apply (fillPdfForm_keeps t b row w0 Hb0).
Qed.

(** The instance decoded from the template, after the filling block, as a
    function of the template bytes and the row. *)
Lemma filledInstance_fillFields (t : Ref) (b : Bytes) (row : JsObject) (w : World) :
  heap w !! t = Some (OBuffer b) ->
  filledInstance t row w =
  match decode b with
  | Ok d => Some (snd (fst (fillFields row d)))
  | Throw _ => None
  end.
Proof.
  intros Hb. unfold filledInstance. rewrite (PDFDocument_load_run t b w Hb).
  destruct (decode b) as [d|e]; [|reflexivity].
  unfold run. rewrite (fillFormFields_run _ row d).
  2: { cbn [touched heap]. apply lookup_fresh. }
  cbn [snd]. unfold docAt. cbn [touched heap].
  rewrite insert_fresh, lookup_fresh. reflexivity.
Qed.

Lemma filledFields_fillFields (form : Ref) (row : JsObject) (d : PDFDoc Page)
    (w : World) :
  docAt w form = Some d ->
  filledFields form row w = Some (fields (snd (fst (fillFields row d))))
  /\ outcome (fillFormFields form row) w = fst (fst (fillFields row d)).
Proof.
  intros Hd. apply docAt_lookup in Hd.
  unfold filledFields, run, outcome. rewrite (fillFormFields_run form row d w Hd).
  cbn [fst snd]. split; [|reflexivity].
  unfold docAt. cbn [touched heap]. rewrite (lookup_written _ _ _ _ Hd).
  reflexivity.
Qed.

(** C6: two fills of the same row against the same template, in any two
    worlds whose template references hold the same bytes, leave the same
    field values on the instances they decode and fill: these are the field
    values of the fill run alone on the template bytes, whatever else the
    world holds.  Likewise the filling block run on two instances with the
    same content leaves the same fields and ends the same way. *)
Theorem fill_is_deterministic (rowData : JsObject) (t1 t2 : Ref) (b : Bytes)
    (w1 w2 : World) :
  heap w1 !! t1 = Some (OBuffer b) ->
  heap w2 !! t2 = Some (OBuffer b) ->
  option_map fields (filledInstance t1 rowData w1)
  = option_map fields (filledInstance t2 rowData w2)
  /\ option_map fields (filledInstance t1 rowData w1)
     = option_map fields (filledInstance 0 rowData (standalone b))
  /\ (forall form1 form2 d,
        docAt w1 form1 = Some d ->
        docAt w2 form2 = Some d ->
        filledFields form1 rowData w1 = filledFields form2 rowData w2
        /\ outcome (fillFormFields form1 rowData) w1
           = outcome (fillFormFields form2 rowData) w2).
Proof.
  intros H1 H2.
  rewrite (filledInstance_fillFields t1 b rowData w1 H1).
  rewrite (filledInstance_fillFields t2 b rowData w2 H2).
  rewrite (filledInstance_fillFields 0 b rowData (standalone b) eq_refl).
  split; [reflexivity|]. split; [reflexivity|].
  intros form1 form2 d Hd1 Hd2.
  destruct (filledFields_fillFields form1 rowData d w1 Hd1) as [-> ->].
  destruct (filledFields_fillFields form2 rowData d w2 Hd2) as [-> ->].
  split; reflexivity.
Qed.

(** ** The fields one by one *)

Lemma tryTexts_app (items1 items2 : list (string * string)) (d : PDFDoc Page) :
  tryTexts (items1 ++ items2) d =
  (fst (tryTexts items2 (fst (tryTexts items1 d))),
   snd (tryTexts items1 d) ++ snd (tryTexts items2 (fst (tryTexts items1 d)))).
Proof.
  revert d. induction items1 as [|[name text] items1 IH]; intros d.
  - cbn [app tryTexts fst snd]. destruct (tryTexts items2 d); reflexivity.
  - cbn [app tryTexts fst snd]. rewrite IH. cbn [fst snd].
    rewrite app_assoc. reflexivity.
Qed.

Lemma fillMapped_tryTexts (rowData : JsObject) (entries : list (string * string)) :
  Forall (fun m => String.eqb (snd m) "States" = false) entries ->
  forall d,
    fillMapped rowData entries d =
    tryTexts (map (fun m => (snd m, mappedText rowData (fst m))) entries) d.
Proof.
  induction 1 as [|[csvField pdfField] entries Hne _ IH]; intros d;
    [reflexivity|].
  cbn [map fillMapped tryTexts fst snd] in *.
  unfold warningFor. rewrite Hne, IH. reflexivity.
Qed.

Lemma fillFields_sentTexts (rowData : JsObject) (text : string) (d : PDFDoc Page) :
  statesText rowData = Ok text ->
  fillFields rowData d =
  (Ok tt, fst (tryTexts (sentTexts rowData text) d),
   snd (tryTexts (sentTexts rowData text) d)).
Proof.
  intros Hstates. unfold fillFields, sentTexts. rewrite Hstates.
  rewrite tryTexts_app, fillMapped_tryTexts.
  - cbn [tryTexts fst snd]. rewrite app_nil_r. reflexivity.
  - repeat constructor.
Qed.

Lemma sentTexts_rowObject (row : RowRecord) :
  sentTexts (rowObject row) (joinedStates row) = fieldTexts row.
Proof.
  unfold sentTexts, fieldTexts. f_equal.
  apply map_ext. intros m. rewrite mappedText_rowObject. reflexivity.
Qed.

Lemma fieldTexts_names (row : RowRecord) : NoDup (map fst (fieldTexts row)).
Proof.
  unfold fieldTexts. rewrite map_app, map_map. cbn [map fst snd fieldMappings app].
  apply (bool_decide_unpack _). vm_compute. exact I.
Qed.

(** *** One guarded assignment *)

Lemma tryText_other (warning : JsError -> string) (d : PDFDoc Page)
    (name text other : string) :
  name <> other ->
  fields (fst (tryText warning d name text)) !! other = fields d !! other.
Proof.
  intros Hne. unfold tryText, Form.setText.
  destruct (Form.getTextField d name) as [[n|]|e]; cbn [fst]; try reflexivity.
  - destruct (Nat.ltb n (String.length text)); cbn [fst fields]; [reflexivity|].
    apply lookup_insert_ne, Hne.
  - cbn [fields]. apply lookup_insert_ne, Hne.
Qed.

Lemma tryText_accepted (warning : JsError -> string) (d : PDFDoc Page)
    (name text : string) :
  accepts d name text ->
  fieldText (fst (tryText warning d name text)) name = Some text.
Proof.
  intros (maxLength & old & Hfield & Hfits).
  unfold tryText, Form.setText, Form.getTextField, fieldText. rewrite Hfield.
  destruct maxLength as [n|].
  - apply Nat.ltb_ge in Hfits. rewrite Hfits. cbn [fst fields].
    rewrite lookup_insert_eq. reflexivity.
  - cbn [fst fields]. rewrite lookup_insert_eq. reflexivity.
Qed.

Lemma tryText_missing (warning : JsError -> string) (d : PDFDoc Page)
    (name text : string) :
  fields d !! name = None ->
  tryText warning d name text = (d, [Warn (warning (Form.NoSuchFieldError name))]).
Proof.
  intros Hnone. unfold tryText, Form.setText, Form.getTextField.
  rewrite Hnone. reflexivity.
Qed.

Lemma accepts_other (warning : JsError -> string) (d : PDFDoc Page)
    (name text other otherText : string) :
  name <> other ->
  accepts d other otherText ->
  accepts (fst (tryText warning d name text)) other otherText.
Proof.
  intros Hne (maxLength & old & Hfield & Hfits).
  exists maxLength, old. split; [|exact Hfits].
  rewrite (tryText_other warning d name text other Hne). exact Hfield.
Qed.

(** *** All of them *)

Lemma tryTexts_other (items : list (string * string)) (other : string) :
  other ∉ map fst items ->
  forall d, fields (fst (tryTexts items d)) !! other = fields d !! other.
Proof.
  induction items as [|[name text] items IH]; intros Hnotin d; [reflexivity|].
  cbn [map fst] in Hnotin. apply not_elem_of_cons in Hnotin as [Hne Hnotin].
  cbn [tryTexts fst]. rewrite (IH Hnotin).
  apply tryText_other. congruence.
Qed.

Lemma fieldText_same (d d' : PDFDoc Page) (name : string) :
  fields d' !! name = fields d !! name -> fieldText d' name = fieldText d name.
Proof. intros H. unfold fieldText. rewrite H. reflexivity. Qed.

(** A field that accepts its text ends up holding it. *)
Lemma tryTexts_assigns (items : list (string * string)) (name text : string) :
  NoDup (map fst items) ->
  (name, text) ∈ items ->
  forall d,
    accepts d name text ->
    fieldText (fst (tryTexts items d)) name = Some text.
Proof.
  induction items as [|[name' text'] items IH]; intros Hnd Hin d Hacc.
  - inversion Hin.
  - cbn [map fst] in Hnd. apply NoDup_cons in Hnd as [Hfresh Hnd].
    cbn [tryTexts fst].
    apply elem_of_cons in Hin as [Heq | Hin].
    + inversion Heq; subst name' text'.
      rewrite (fieldText_same _ _ _ (tryTexts_other items name Hfresh _)).
      apply tryText_accepted, Hacc.
    + apply (IH Hnd Hin). apply accepts_other; [|exact Hacc].
      intros ->. apply Hfresh.
      change name with (fst (name, text)). apply list_elem_of_fmap_2, Hin.
Qed.

(** A field the instance lacks is warned about. *)
Lemma tryTexts_warns (items : list (string * string)) (name text : string) :
  NoDup (map fst items) ->
  (name, text) ∈ items ->
  forall d,
    fields d !! name = None ->
    Warn (warningFor name (Form.NoSuchFieldError name)) ∈ snd (tryTexts items d).
Proof.
  induction items as [|[name' text'] items IH]; intros Hnd Hin d Hnone.
  - inversion Hin.
  - cbn [map fst] in Hnd. apply NoDup_cons in Hnd as [Hfresh Hnd].
    cbn [tryTexts snd]. apply elem_of_app.
    apply elem_of_cons in Hin as [Heq | Hin].
    + inversion Heq; subst name' text'. left.
      rewrite (tryText_missing _ d name text Hnone). cbn [snd].
      apply list_elem_of_singleton. reflexivity.
    + right. apply (IH Hnd Hin).
      rewrite tryText_other; [exact Hnone|].
      intros ->. apply Hfresh.
      change name with (fst (name, text)). apply list_elem_of_fmap_2, Hin.
Qed.

Lemma sentTexts_names (rowData : JsObject) (text : string) :
  NoDup (map fst (sentTexts rowData text)).
Proof.
  unfold sentTexts. rewrite map_app, map_map. cbn [map fst snd fieldMappings app].
  apply (bool_decide_unpack _). vm_compute. exact I.
Qed.

(** The filling block on a row whose States text is computed: it ends
    normally, having tried the six texts of [sentTexts] in order. *)
Lemma fillFormFields_sent (rowData : JsObject) (text : string) (form : Ref)
    (d : PDFDoc Page) (w : World) :
  statesText rowData = Ok text ->
  docAt w form = Some d ->
  outcome (fillFormFields form rowData) w = Ok tt
  /\ docAt (run (fillFormFields form rowData) w) form
     = Some (fst (tryTexts (sentTexts rowData text) d))
  /\ console (run (fillFormFields form rowData) w)
     = console w ++ snd (tryTexts (sentTexts rowData text) d).
Proof.
  intros Hstates Hd. apply docAt_lookup in Hd.
  unfold outcome, run. rewrite (fillFormFields_run form _ d w Hd).
  rewrite (fillFields_sentTexts _ _ d Hstates). cbn [fst snd].
  split; [reflexivity|]. split; [|reflexivity].
  unfold docAt, touched. cbn [heap].
  rewrite (lookup_written _ _ _ _ Hd). reflexivity.
Qed.

Lemma filterR_total {A : Type} (p : A -> Result bool) (l : list A) :
  (forall x, exists keep, p x = Ok keep) -> exists r, filterR p l = Ok r.
Proof.
  intros Hp. induction l as [|x l [r IH]]; [exists []; reflexivity|].
  destruct (Hp x) as [keep Hx]. cbn [filterR]. rewrite Hx, IH. eauto.
Qed.

(** On a RowRecord every cell is a string, so the States rule never throws. *)
Lemma statesText_total (row : RowRecord) :
  exists text, statesText (rowObject row) = Ok text.
Proof.
  unfold statesText, stateFields.
  destruct (filterR_total (isStateField (rowObject row)) (keys (rowObject row)))
    as [fields ->]; [|eauto].
  intros key. unfold isStateField. rewrite get_rowObject.
  destruct (includes key "States"); [|eauto].
  destruct (cell row key) as [[|a v]|]; cbn [toBoolean is_empty negb]; eauto.
Qed.

(** ** The field mapper *)

(** C1: on a RowRecord the States text is the values of the columns whose
    name contains "States" and whose value is non-empty after trimming, in
    column order, joined with ", " (the empty string when there is none), and
    that text is what the States field of the instance holds after filling. *)
Theorem states_field_is_joined_states (row : RowRecord) (form : Ref)
    (d : PDFDoc Page) (w : World) :
  WellFormed (rowObject row) ->
  docAt w form = Some d ->
  statesText (rowObject row) = Ok (joinedStates row)
  /\ (keptStates row = [] -> joinedStates row = "")
  /\ (accepts d "States" (joinedStates row) ->
      exists d',
        docAt (run (fillFormFields form (rowObject row)) w) form = Some d'
        /\ fieldText d' "States" = Some (joinedStates row)).
Proof.
  intros Hwf Hd. pose proof (statesText_rowObject row Hwf) as Hstates.
  split; [exact Hstates|]. split.
  - unfold joinedStates. intros ->. reflexivity.
  - intros Hacc.
    destruct (fillFormFields_sent _ _ form d w Hstates Hd) as (_ & Hdoc & _).
    eexists. split; [exact Hdoc|].
    apply tryTexts_assigns; [apply sentTexts_names| |exact Hacc].
    unfold sentTexts. apply elem_of_app. right.
    apply list_elem_of_singleton. reflexivity.
Qed.

(** C2: for each of the five entries of the correspondence table the text
    sent to the PDF field is the row's value for the CSV column, blank exactly
    when the row lacks the column or its cell is empty; the filling block
    never throws on a RowRecord, and the field holds that text afterwards. *)
Theorem mapped_fields_assigned (row : RowRecord) (csvField pdfField : string)
    (form : Ref) (d : PDFDoc Page) (w : World) :
  (csvField, pdfField) ∈ fieldMappings ->
  docAt w form = Some d ->
  let text := mappedText (rowObject row) csvField in
  text = column row csvField
  /\ (text = "" <-> cell row csvField = None \/ cell row csvField = Some "")
  /\ outcome (fillFormFields form (rowObject row)) w = Ok tt
  /\ (accepts d pdfField text ->
      exists d',
        docAt (run (fillFormFields form (rowObject row)) w) form = Some d'
        /\ fieldText d' pdfField = Some text).
Proof.
  intros Hin Hd text. subst text.
  destruct (statesText_total row) as [states Hstates].
  destruct (fillFormFields_sent _ _ form d w Hstates Hd) as (Hok & Hdoc & _).
  split; [apply mappedText_rowObject|]. split; [|split; [exact Hok|]].
  - rewrite mappedText_rowObject. unfold column.
    destruct (cell row csvField) as [v|].
    + split; [intros ->; auto | intros [Habs | [= ->]]; [discriminate | reflexivity]].
    + split; auto.
  - intros Hacc. eexists. split; [exact Hdoc|].
    apply tryTexts_assigns; [apply sentTexts_names| |exact Hacc].
    unfold sentTexts. apply elem_of_app. left.
    apply (list_elem_of_fmap_2 (fun m => (snd m, mappedText (rowObject row) (fst m)))
             fieldMappings (csvField, pdfField)), Hin.
Qed.

(** C5: on a RowRecord the filling block ends normally whatever fields the
    instance has; for each of the six fields, one the instance lacks leaves a
    warning on the console, and one it has as a text field that accepts the
    text holds its text afterwards, whichever other fields are missing. *)
Theorem missing_field_is_warned (row : RowRecord) (form : Ref)
    (d : PDFDoc Page) (w : World) :
  WellFormed (rowObject row) ->
  docAt w form = Some d ->
  let w' := run (fillFormFields form (rowObject row)) w in
  outcome (fillFormFields form (rowObject row)) w = Ok tt
  /\ forall name text,
       (name, text) ∈ fieldTexts row ->
       (fields d !! name = None ->
        Warn (warningFor name (Form.NoSuchFieldError name)) ∈ console w')
       /\ (accepts d name text ->
           exists d', docAt w' form = Some d' /\ fieldText d' name = Some text).
Proof.
  intros Hwf Hd w'. subst w'.
  destruct (fillFormFields_sent _ _ form d w (statesText_rowObject row Hwf) Hd)
    as (Hok & Hdoc & Hlog).
  rewrite sentTexts_rowObject in Hdoc, Hlog.
  split; [exact Hok|]. intros name text Hin. split.
  - intros Hnone. rewrite Hlog. apply elem_of_app. right.
    exact (tryTexts_warns _ name text (fieldTexts_names row) Hin d Hnone).
  - intros Hacc. eexists. split; [exact Hdoc|].
    exact (tryTexts_assigns _ name text (fieldTexts_names row) Hin d Hacc).
Qed.

(** A string that is joined occurs in the result as it is. *)
Lemma concat_occurs (sep v : string) (l : list string) :
  v ∈ l -> exists pre post, String.concat sep l = (pre ++ v ++ post)%string.
Proof.
  assert (Hnil : forall s : string, (s ++ "")%string = s).
  { induction s as [|a s IH]; [reflexivity|].
    change (String a s ++ "")%string with (String a (s ++ "")%string).
    rewrite IH. reflexivity. }
  assert (Hassoc : forall s1 s2 s3 : string,
            (s1 ++ s2 ++ s3)%string = ((s1 ++ s2) ++ s3)%string).
  { induction s1 as [|a s1 IH]; intros s2 s3; [reflexivity|].
    change (String a s1 ++ s2 ++ s3)%string with (String a (s1 ++ s2 ++ s3)%string).
    rewrite IH. reflexivity. }
  induction l as [|x l IH]; intros Hin; [inversion Hin|].
  apply elem_of_cons in Hin as [<- | Hin].
  - exists "". destruct l as [|y l].
    + exists "". cbn [String.concat]. rewrite Hnil. reflexivity.
    + exists (sep ++ String.concat sep (y :: l))%string. reflexivity.
  - destruct (IH Hin) as (pre & post & Hrest).
    destruct l as [|y l]; [inversion Hin|].
    exists (x ++ sep ++ pre)%string, post.
    change (String.concat sep (x :: y :: l))
      with (x ++ sep ++ String.concat sep (y :: l))%string.
    rewrite Hrest, !Hassoc. reflexivity.
Qed.

(** C10: the values joined into the States text are the cells themselves:
    trimming only decides which cells are kept.  The list that is joined is
    the list of kept cells as the row has them, each one a cell of the row
    that is non-empty after trimming; and after the filling block the States
    field of the instance holds these cells joined: every kept cell occurs in
    the field's text as the row has it, and a row with one kept cell leaves
    that very cell in the field, whatever white space surrounds it. *)
Theorem states_values_untrimmed (row : RowRecord) (form : Ref)
    (d : PDFDoc Page) (w : World) :
  WellFormed (rowObject row) ->
  docAt w form = Some d ->
  accepts d "States" (String.concat ", " (map snd (List.filter keepsState row))) ->
  (exists fields,
     stateFields (rowObject row) = Ok fields
     /\ stateValues (rowObject row) fields = map JStr (keptStates row))
  /\ (forall v, v ∈ keptStates row ->
        exists c, (c, v) ∈ row /\ is_empty (trim v) = false)
  /\ exists d' text,
       docAt (run (fillFormFields form (rowObject row)) w) form = Some d'
       /\ fieldText d' "States" = Some text
       /\ text = String.concat ", " (map snd (List.filter keepsState row))
       /\ (forall v, v ∈ keptStates row ->
             exists pre post, text = (pre ++ v ++ post)%string)
       /\ (forall v, keptStates row = [v] -> text = v).
Proof.
  intros Hwf Hd Hacc. split; [|split].
  - eexists. split; [exact (stateFields_rowObject row Hwf)|].
    exact (stateValues_cells _ _ (rowObject_cells row Hwf)).
  - intros v Hv. unfold keptStates in Hv.
    apply list_elem_of_fmap in Hv as ([c v'] & -> & Hin).
    apply list_elem_of_In, filter_In in Hin as [Hin Hkeep].
    exists c. split; [apply list_elem_of_In, Hin|].
    unfold keepsState in Hkeep. apply andb_true_iff in Hkeep as [_ Hkeep].
    apply negb_true_iff, Hkeep.
  - pose proof (statesText_rowObject row Hwf) as Hstates.
    destruct (fillFormFields_sent _ _ form d w Hstates Hd) as (_ & Hdoc & _).
    exists (fst (tryTexts (sentTexts (rowObject row) (joinedStates row)) d)),
           (joinedStates row).
    split; [exact Hdoc|]. split; [|split; [reflexivity|split]].
    + apply tryTexts_assigns; [apply sentTexts_names| |exact Hacc].
      unfold sentTexts. apply elem_of_app. right.
      apply list_elem_of_singleton. reflexivity.
    + intros v Hv. unfold joinedStates. apply concat_occurs, Hv.
    + intros v Hone. unfold joinedStates. rewrite Hone. reflexivity.
Qed.

End Pipeline.

(** ** Parse errors *)

Section Drop.
Context {L : PdfLib} {P : Papa}.

(** C8: when the parse of the dropped file's text reports an error, [onDrop]
    only sets the error message: no document is created, nothing is logged,
    [processing], [processedCount] and [completedPdf] stay as they were, so
    [processCsvData] was never entered. *)
Theorem parse_errors_stop_the_batch (file : File) (csvText : string)
    (e : JsError) (w : World) :
  type file = "text/csv" \/ endsWith (name file) ".csv" = true ->
  contents file = Some csvText ->
  reportsError (Papa_parse csvText) e ->
  let w' := run (onDrop [file]) w in
  outcome (onDrop [file]) w = Ok tt
  /\ error w' = Some ("Error parsing CSV: " ++ message e)%string
  /\ heap w' = heap w
  /\ console w' = console w
  /\ processing w' = processing w
  /\ completedPdf w' = completedPdf w
  /\ processedCount w' = processedCount w
  /\ templatePdf w' = templatePdf w.
Proof.
  intros Hcsv Htext Hparse w'. subst w'.
  unfold run, outcome, onDrop, bind, setError.
  assert (Htype : negb (String.eqb (type file) "text/csv")
                  && negb (endsWith (name file) ".csv") = false).
  { destruct Hcsv as [-> | ->]; [reflexivity | apply andb_false_r]. }
  rewrite Htype, Htext. unfold onload, reportsError in *.
  destruct (Papa_parse csvText) as [results|err].
  - destruct Hparse as [rest Herrors]. unfold complete. rewrite Herrors.
    cbn. repeat split; reflexivity.
  - subst err. cbn. repeat split; reflexivity.
Qed.

End Drop.

(** * The theorems at work on the reference library *)

Section Examples.
Import Reference.

Lemma wellFormed_by_computation (o : JsObject) :
  bool_decide (NoDup (map fst o)) = true -> WellFormed o.
Proof. apply bool_decide_eq_true_1. Qed.

(** The second row of the specification's example: "NY, TX" in States. *)
Lemma states_field_is_joined_states_witness :
  statesText (rowObject globex) = Ok "NY, TX"
  /\ exists d',
       docAt (run (fillFormFields 1 (rowObject globex)) (loaded template)) 1
       = Some d'
       /\ fieldText d' "States" = Some "NY, TX".
Proof.
  destruct (states_field_is_joined_states (L := lib) globex 1 template (loaded template))
    as (Htext & _ & Hfield).
  - apply wellFormed_by_computation. vm_compute. reflexivity.
  - reflexivity.
  - split; [exact Htext|]. apply Hfield.
    exists None, "". split; [vm_compute; reflexivity | exact I].
Defined.

(** The first row: its Tax Year goes to the Tax Year field. *)
Lemma mapped_fields_assigned_witness :
  outcome (fillFormFields 1 (rowObject acme)) (loaded template) = Ok tt
  /\ exists d',
       docAt (run (fillFormFields 1 (rowObject acme)) (loaded template)) 1
       = Some d'
       /\ fieldText d' "Tax Year" = Some "2023".
Proof.
  destruct (mapped_fields_assigned (L := lib) acme "Tax Year" "Tax Year" 1 template
              (loaded template))
    as (_ & _ & Hok & Hfield).
  - apply list_elem_of_In. cbn. tauto.
  - reflexivity.
  - split; [exact Hok|]. apply Hfield.
    exists None, "". split; [vm_compute; reflexivity | exact I].
Defined.

(** A parser-typed States cell in the second of three rows stops the run
    with one row counted. *)
Lemma abort_on_first_failure_witness :
  let w' := run (processCsvData ([rowObject acme] ++ typed :: [rowObject globex]))
                ready in
  completedPdf w' = None /\ processedCount w' = 1 /\ processing w' = false.
Proof.
  destruct (abort_on_first_failure (L := lib) [rowObject acme] typed [rowObject globex]
              (Error "Error filling PDF form: rowData[key].trim is not a function")
              0 (Pdf template) ready)
    as (Hpdf & Hcount & _ & Hproc & _).
  - reflexivity.
  - reflexivity.
  - constructor; [|constructor]. exists flat. vm_compute. reflexivity.
  - vm_compute. reflexivity.
  - repeat split; assumption.
Defined.


(** A template without its Client and States fields: both are warned about
    and Tax Year is still filled. *)
Lemma missing_field_is_warned_witness :
  let w' := run (fillFormFields 1 (rowObject acme)) (loaded partial) in
  outcome (fillFormFields 1 (rowObject acme)) (loaded partial) = Ok tt
  /\ Warn (warningFor "Client" (Form.NoSuchFieldError "Client")) ∈ console w'
  /\ Warn (warningFor "States" (Form.NoSuchFieldError "States")) ∈ console w'
  /\ exists d', docAt w' 1 = Some d' /\ fieldText d' "Tax Year" = Some "2023".
Proof.
  destruct (missing_field_is_warned (L := lib) acme 1 partial (loaded partial))
    as (Hok & Hall).
  - apply wellFormed_by_computation. vm_compute. reflexivity.
  - reflexivity.
  - split; [exact Hok|]. split; [|split].
    + apply (Hall "Client" "Acme"); [apply list_elem_of_In; cbn; tauto|].
      vm_compute. reflexivity.
    + apply (Hall "States" "CA"); [apply list_elem_of_In; cbn; tauto|].
      vm_compute. reflexivity.
    + apply (Hall "Tax Year" "2023"); [apply list_elem_of_In; cbn; tauto|].
      exists None, "". split; [vm_compute; reflexivity | exact I].
Defined.

(** Filling the first row again in a world that has filled it once and
    holds a second instance of the template at reference 3: the same field
    values as on the first fill. *)
Lemma fill_is_deterministic_witness :
  let later := run (PDFDocument_load 0) (run (fillPdfForm 0 (rowObject acme)) ready) in
  option_map fields (filledInstance 0 (rowObject acme) (loaded template))
  = option_map fields (filledInstance 0 (rowObject acme) later)
  /\ filledFields 1 (rowObject acme) (loaded template)
     = filledFields 3 (rowObject acme) later.
Proof.
  destruct (fill_is_deterministic (L := lib) (rowObject acme) 0 0 (Pdf template)
              (loaded template)
              (run (PDFDocument_load 0) (run (fillPdfForm 0 (rowObject acme)) ready)))
    as (Hinstance & _ & Hblock).
  - reflexivity.
  - vm_compute. reflexivity.
  - split; [exact Hinstance|].
    apply (Hblock 1 3 template); vm_compute; reflexivity.
Defined.

(** The field values in question: the row's Client and States. *)
Example filled_instance_fields :
  option_map (fun d => (fieldText d "Client", fieldText d "States"))
             (filledInstance 0 (rowObject acme) ready)
  = Some (Some "Acme", Some "CA").
Proof. vm_compute. reflexivity. Qed.

(** The template after a run with a good and a failing row. *)
Lemma template_never_mutated_witness :
  let w' := run (processCsvData [rowObject acme; typed]) ready in
  templatePdf w' = Some 0 /\ bufferAt w' 0 = Some (Pdf template).
Proof.
  destruct (template_never_mutated (L := lib) [rowObject acme; typed] 0 (Pdf template) ready)
    as (Htpl & Hbytes & _).
  - reflexivity.
  - reflexivity.
  - split; assumption.
Defined.

(** A dropped file whose text the stand-in parser rejects. *)
Lemma parse_errors_stop_the_batch_witness :
  let w' := run (onDrop [dropped]) ready in
  error w' = Some "Error parsing CSV: Too few fields: expected 2 fields but parsed 1"
  /\ heap w' = heap ready
  /\ processedCount w' = 0
  /\ completedPdf w' = None.
Proof.
  destruct (parse_errors_stop_the_batch (L := lib) dropped "Client" tooFewFields ready)
    as (_ & Herr & Hheap & _ & _ & Hpdf & Hcount & _).
  - left. reflexivity.
  - reflexivity.
  - exists []. reflexivity.
  - repeat split; assumption.
Defined.

(** No rows: the run ends well with nothing counted, and what it offers
    holds the blank page. *)
Lemma empty_batch_saves_blank_page_witness :
  let w' := run (processCsvData []) ready in
  error w' = None
  /\ processedCount w' = 0
  /\ docAt w' 1 = Some (mkDoc ["blank"] ∅)
  /\ artifactPages w' = Some ["blank"].
Proof.
  destruct (empty_batch_saves_blank_page (L := lib) 0 (Pdf (mkDoc ["blank"] ∅)) ready)
    as (_ & Herr & _ & Hcount & Hdoc & _ & Hpages).
  - reflexivity.
  - reflexivity.
  - split; [exact Herr|]. split; [exact Hcount|]. split; [exact Hdoc|].
    apply (Hpages (mkDoc ["blank"] ∅)). reflexivity.
Defined.

(** The run over no rows does not end with an artifact of zero pages: its
    artifact has one page. *)
Lemma empty_batch_artifact_has_a_page :
  let w' := run (processCsvData []) ready in
  artifactPages w' = Some ["blank"]
  /\ ~ (error w' = None /\ artifactPages w' = Some [] /\ processedCount w' = 0).
Proof.
  split; [vm_compute; reflexivity|].
  intros (_ & Hpages & _). vm_compute in Hpages. discriminate Hpages.
Qed.

(** The white space around " CA " is kept in the States field. *)
Lemma states_values_untrimmed_witness :
  exists d',
    docAt (run (fillFormFields 1 (rowObject padded)) (loaded template)) 1 = Some d'
    /\ fieldText d' "States" = Some " CA ".
Proof.
  destruct (states_values_untrimmed (L := lib) padded 1 template (loaded template))
    as (_ & _ & d' & text & Hdoc & Hfield & _ & _ & Hone).
  - apply wellFormed_by_computation. vm_compute. reflexivity.
  - reflexivity.
  - exists None, "". split; [vm_compute; reflexivity | exact I].
  - exists d'. split; [exact Hdoc|].
    rewrite Hfield, (Hone " CA " eq_refl). reflexivity.
Defined.

(** A batch over a template without its Client and States fields still
    merges both rows; the console holds the four warnings. *)
Example missing_fields_do_not_abort :
  let w' := run (processCsvData [rowObject acme; rowObject globex])
                (standalone (Pdf partial)) in
  processedCount w' = 2 /\ error w' = None /\ length (console w') = 4.
Proof. vm_compute. repeat split; reflexivity. Qed.

(** ** Cells the parser has typed *)

(** A number in a States column has no [trim]: the row throws. *)
Example typed_states_cell_throws :
  statesText typed = Throw (TypeError "rowData[key].trim is not a function").
Proof. reflexivity. Qed.

(** The number 0 and [false] are falsy: their mapped field is left blank. *)
Example falsy_cells_are_blank :
  mappedText [("Tax Year", JNum false "0"); ("Client", JBool false)] "Tax Year" = ""
  /\ mappedText [("Tax Year", JNum false "0"); ("Client", JBool false)] "Client" = "".
Proof. split; reflexivity. Qed.

(** The bytes offered after an empty batch: a document of one blank page. *)
Example empty_batch_artifact :
  bufferAt (run (processCsvData []) ready) 2 = Some (Pdf (mkDoc ["blank"] ∅)).
Proof. vm_compute. reflexivity. Qed.

End Examples.

(** * Further properties *)

(** ** The string methods the component calls *)

Lemma append_cons (c : ascii) (s t : string) :
  (String c s ++ t)%string = String c (s ++ t)%string.
Proof. reflexivity. Qed.

Lemma append_empty (t : string) : ("" ++ t)%string = t.
Proof. reflexivity. Qed.

Lemma prefix_app (sub s : string) :
  String.prefix sub s = true <-> exists post, s = (sub ++ post)%string.
Proof.
  revert s. induction sub as [|a sub IH]; intros s.
  - split; [intros _; exists s; reflexivity | destruct s; reflexivity].
  - destruct s as [|b s]; cbn [String.prefix].
    + split; [discriminate | intros [post H]; discriminate].
    + destruct (ascii_dec a b) as [->|Hne].
      * rewrite IH. split; intros [post H]; exists post.
        -- rewrite append_cons, H. reflexivity.
        -- rewrite append_cons in H. injection H. auto.
      * split; [discriminate|]. intros [post H]. rewrite append_cons in H.
        injection H as Hab _. congruence.
Qed.

(** X1: [s.includes(sub)] holds exactly when [sub] occurs in [s]: some text,
    then [sub], then some text. *)
Theorem includes_substring (s sub : string) :
  includes s sub = true <-> exists before after, s = (before ++ sub ++ after)%string.
Proof.
  induction s as [|c s IH]; cbn [includes].
  - rewrite orb_false_r, prefix_app. split.
    + intros [post H]. exists "", post. exact H.
    + intros (before & after & H). destruct before; [|discriminate].
      exists after. exact H.
  - rewrite orb_true_iff, prefix_app, IH. split.
    + intros [[post H] | (before & after & H)].
      * exists "", post. exact H.
      * exists (String c before), after. rewrite append_cons, H. reflexivity.
    + intros (before & after & H). destruct before as [|c' before].
      * left. exists after. exact H.
      * right. exists before, after. rewrite append_cons in H. congruence.
Qed.

(** X2: [file.name.endsWith(suffix)] holds exactly when the name is some
    text followed by [suffix]. *)
Theorem endsWith_suffix (s suffix : string) :
  endsWith s suffix = true <-> exists before, s = (before ++ suffix)%string.
Proof.
  induction s as [|c s IH]; cbn [endsWith].
  - rewrite orb_false_r, String.eqb_eq. split.
    + intros <-. exists "". reflexivity.
    + intros [before H]. destruct before; [exact H | discriminate].
  - rewrite orb_true_iff, String.eqb_eq, IH. split.
    + intros [<- | [before H]].
      * exists "". reflexivity.
      * exists (String c before). rewrite append_cons, H. reflexivity.
    + intros [before H]. destruct before as [|c' before].
      * left. exact H.
      * right. exists before. rewrite append_cons in H. congruence.
Qed.

Lemma trimStart_split (s : string) :
  exists lead,
    s = (lead ++ trimStart s)%string
    /\ whiteOnly lead = true
    /\ startsBlank (trimStart s) = false.
Proof.
  induction s as [|c s (lead & Hs & Hlead & Hstart)].
  - exists "". auto.
  - cbn [trimStart]. destruct (isWhiteSpace c) eqn:Hc.
    + exists (String c lead). rewrite append_cons, <- Hs.
      cbn [whiteOnly]. rewrite Hc. auto.
    + exists "". cbn [whiteOnly startsBlank]. auto.
Qed.

Lemma trimEnd_split (s : string) :
  exists trail,
    s = (trimEnd s ++ trail)%string
    /\ whiteOnly trail = true
    /\ endsBlank (trimEnd s) = false.
Proof.
  induction s as [|c s (trail & Hs & Htrail & Hend)].
  - exists "". auto.
  - cbn [trimEnd]. destruct (trimEnd s) as [|a t] eqn:Ht.
    + rewrite append_empty in Hs. subst trail. destruct (isWhiteSpace c) eqn:Hc.
      * exists (String c s). cbn [whiteOnly endsBlank]. rewrite Hc. auto.
      * exists s. cbn [endsBlank]. auto.
    + exists trail. rewrite append_cons, <- Hs. auto.
Qed.

Lemma trimEnd_keeps_start (s : string) :
  startsBlank s = false -> startsBlank (trimEnd s) = false.
Proof.
  destruct s as [|c s]; [reflexivity|]. cbn [startsBlank trimEnd]. intros Hc.
  destruct (trimEnd s); [rewrite Hc|]; cbn; auto.
Qed.

Lemma whiteOnly_app (s1 s2 : string) :
  whiteOnly (s1 ++ s2) = whiteOnly s1 && whiteOnly s2.
Proof.
  induction s1 as [|c s1 IH]; [reflexivity|].
  rewrite append_cons. cbn. rewrite IH, andb_assoc. reflexivity.
Qed.

Lemma whiteOnly_starts (s : string) :
  whiteOnly s = true -> startsBlank s = false -> s = "".
Proof.
  destruct s as [|c s]; [reflexivity|]. cbn. intros H Hc.
  rewrite Hc in H. discriminate.
Qed.

(** X3: [trim] removes white space at both ends and nothing else: the string
    is white space, then its trim, then white space; the trim neither starts
    nor ends with white space; and it is empty exactly when the string holds
    nothing but white space. *)
Theorem trim_meaning (s : string) :
  (exists lead trail,
     s = (lead ++ trim s ++ trail)%string
     /\ whiteOnly lead = true /\ whiteOnly trail = true)
  /\ startsBlank (trim s) = false
  /\ endsBlank (trim s) = false
  /\ (is_empty (trim s) = true <-> whiteOnly s = true).
Proof.
  unfold trim.
  destruct (trimStart_split s) as (lead & Hs & Hlead & Hstart).
  destruct (trimEnd_split (trimStart s)) as (trail & Hmid & Htrail & Hend).
  split; [|split; [|split]].
  - exists lead, trail. rewrite <- Hmid. auto.
  - apply trimEnd_keeps_start, Hstart.
  - exact Hend.
  - split.
    + intros Hempty. destruct (trimEnd (trimStart s)); [|discriminate].
      rewrite append_empty in Hmid.
      rewrite Hs, Hmid, whiteOnly_app, Hlead, Htrail. reflexivity.
    + intros Hwhite. rewrite Hs, whiteOnly_app, Hlead in Hwhite.
      rewrite (whiteOnly_starts _ Hwhite Hstart). reflexivity.
Qed.

(** ** What no call ever does *)

Section Respects.
Context {L : PdfLib}.
Variable R : World -> World -> Prop.
Hypothesis R_refl : forall w, R w w.
Hypothesis R_trans : forall w1 w2 w3, R w1 w2 -> R w2 w3 -> R w1 w3.

Lemma respects_unchanged {A : Type} (m : M A) :
  (forall w, snd (m w) = w) -> respects R m.
Proof. intros H w. rewrite H. apply R_refl. Qed.

Lemma respects_bind {A B : Type} (m : M A) (k : A -> M B) :
  respects R m -> (forall a, respects R (k a)) -> respects R (bind m k).
Proof.
  intros Hm Hk w. unfold bind. specialize (Hm w).
  destruct (m w) as [[a|e] w1]; cbn [snd] in *; [|exact Hm].
  exact (R_trans _ _ _ Hm (Hk a w1)).
Qed.

Lemma respects_tryCatch {A : Type} (m : M A) (handler : JsError -> M A) :
  respects R m -> (forall e, respects R (handler e)) ->
  respects R (tryCatch m handler).
Proof.
  intros Hm Hh w. unfold tryCatch. specialize (Hm w).
  destruct (m w) as [[a|e] w1]; cbn [snd] in *; [exact Hm|].
  exact (R_trans _ _ _ Hm (Hh e w1)).
Qed.

Lemma respects_forEach {A : Type} (body : A -> M unit) (l : list A) :
  (forall x, respects R (body x)) -> respects R (forEach body l).
Proof.
  intros Hbody. induction l as [|x l IH]; cbn [forEach].
  - apply respects_unchanged. reflexivity.
  - apply respects_bind; [apply Hbody | intros _; exact IH].
Qed.

Lemma respects_liftR {A : Type} (r : Result A) : respects R (liftR r).
Proof. apply respects_unchanged. reflexivity. Qed.

Lemma respects_readDoc (r : Ref) : respects R (readDoc r).
Proof.
  apply respects_unchanged. intros w. unfold readDoc.
  destruct (heap w !! r) as [[b|d]|]; reflexivity.
Qed.

Lemma respects_readBuffer (r : Ref) : respects R (readBuffer r).
Proof.
  apply respects_unchanged. intros w. unfold readBuffer.
  destruct (heap w !! r) as [[b|d]|]; reflexivity.
Qed.

(** The calls that write: allocation, mutation of a document that was read
    at the same reference, logging, and the counter going up. *)
Hypothesis R_alloc : forall o, respects R (alloc o).
Hypothesis R_modifyDoc : forall r f, respects R (modifyDoc r f).
Hypothesis R_warn : forall msg, respects R (console_warn msg).
Hypothesis R_error : forall label e, respects R (console_error label e).
Hypothesis R_count : respects R (setProcessedCount (fun prev => prev + 1)).

Lemma respects_PDFDocument_load (pdf : Ref) : respects R (PDFDocument_load pdf).
Proof.
  unfold PDFDocument_load.
  apply respects_bind; [apply respects_readBuffer | intros b].
  apply respects_bind; [apply respects_liftR | intros d]. apply R_alloc.
Qed.

Lemma respects_save (doc : Ref) : respects R (save doc).
Proof.
  unfold save. apply respects_bind.
  { unfold getPageCount. apply respects_bind; [apply respects_readDoc | intros d].
    apply respects_unchanged. reflexivity. }
  intros pageCount. apply respects_bind.
  { destruct (Nat.eqb pageCount 0); [apply R_modifyDoc|].
    apply respects_unchanged. reflexivity. }
  intros _. apply respects_bind; [apply respects_readDoc | intros d].
  apply respects_bind; [apply respects_liftR | intros b]. apply R_alloc.
Qed.

Lemma respects_guarded (form : Ref) (name text : string)
    (handler : JsError -> M unit) :
  (forall e, respects R (handler e)) ->
  respects R
    (tryCatch (bind (getTextField form name) (fun field => setText field text))
              handler).
Proof.
  intros Hh. apply respects_tryCatch; [|exact Hh].
  apply respects_bind.
  - unfold getTextField. apply respects_bind; [apply respects_readDoc | intros d].
    apply respects_bind; [apply respects_liftR | intros _].
    apply respects_unchanged. reflexivity.
  - intros field. apply R_modifyDoc.
Qed.

Lemma respects_fillFormFields (form : Ref) (rowData : JsObject) :
  respects R (fillFormFields form rowData).
Proof.
  unfold fillFormFields. apply respects_tryCatch.
  - apply respects_bind.
    + apply respects_forEach. intros [csvField pdfField].
      apply respects_guarded. intros e. apply R_warn.
    + intros _. unfold fillStatesField.
      apply respects_bind; [apply respects_liftR | intros fields].
      apply respects_guarded. intros e. apply R_warn.
  - intros e. apply respects_bind; [apply R_error | intros _].
    apply respects_unchanged. reflexivity.
Qed.

Lemma respects_fillPdfForm (templateBytes : Ref) (rowData : JsObject) :
  respects R (fillPdfForm templateBytes rowData).
Proof.
  unfold fillPdfForm.
  apply respects_bind; [apply respects_PDFDocument_load | intros pdfDoc].
  apply respects_bind; [apply respects_unchanged; reflexivity | intros form].
  apply respects_bind; [apply respects_fillFormFields | intros _].
  apply respects_bind; [apply R_modifyDoc | intros _].
  apply respects_save.
Qed.

Lemma respects_processRow (t m : Ref) (row : JsObject) :
  respects R (processRow t m row).
Proof.
  unfold processRow.
  apply respects_bind; [apply respects_fillPdfForm | intros pdfBytes].
  apply respects_bind; [apply respects_PDFDocument_load | intros filledPdf].
  apply respects_bind.
  { unfold getPageIndices. apply respects_bind; [apply respects_readDoc | intros d].
    apply respects_unchanged. reflexivity. }
  intros indices. apply respects_bind.
  { unfold copyPages. apply respects_bind; [apply respects_readDoc | intros d].
    apply respects_liftR. }
  intros copiedPages. apply respects_bind.
  { apply respects_forEach. intros page. apply R_modifyDoc. }
  intros _. apply R_count.
Qed.

(** The [try] block of [processCsvData] up to [save], for a loaded template. *)
Lemma respects_merge (t : Ref) (csvData : list JsObject) :
  respects R
    (bind PDFDocument_create (fun mergedPdf =>
     bind (forEach (processRow t mergedPdf) csvData) (fun _ =>
     save mergedPdf))).
Proof.
  apply respects_bind; [apply R_alloc | intros mergedPdf].
  apply respects_bind; [|intros _; apply respects_save].
  apply respects_forEach. intros row. apply respects_processRow.
Qed.

End Respects.

Section Invariants.
Context {L : PdfLib}.

Lemma advances_refl (w : World) : advances w w.
Proof. unfold advances. repeat split; eauto. Qed.

Lemma advances_trans (w1 w2 w3 : World) :
  advances w1 w2 -> advances w2 w3 -> advances w1 w3.
Proof.
  unfold advances. intros (Hb1 & Hd1 & Hc1 & Ht1) (Hb2 & Hd2 & Hc2 & Ht2).
  repeat split.
  - auto.
  - intros a d Ha. destruct (Hd1 a d Ha) as [d' Ha']. eauto.
  - etransitivity; eassumption.
  - congruence.
Qed.

Lemma proceeds_refl (w : World) : proceeds w w.
Proof. unfold proceeds. auto using advances_refl. Qed.

Lemma proceeds_trans (w1 w2 w3 : World) :
  proceeds w1 w2 -> proceeds w2 w3 -> proceeds w1 w3.
Proof.
  unfold proceeds. intros (Ha & ? & ? & ? & ?) (Hb & ? & ? & ? & ?).
  split; [exact (advances_trans _ _ _ Ha Hb)|].
  repeat split; try congruence. lia.
Qed.

Lemma proceeds_alloc (o : Obj) : respects proceeds (alloc o).
Proof.
  intros w. unfold proceeds, advances. cbn. repeat split; auto.
  - intros a b Ha. apply lookup_extended, Ha.
  - intros a d Ha. exists d. apply lookup_extended, Ha.
Qed.

Lemma proceeds_modifyDoc (r : Ref) (f : PDFDoc Page -> Result (PDFDoc Page)) :
  respects proceeds (modifyDoc r f).
Proof.
  intros w. unfold modifyDoc, bind, readDoc, liftR, writeDoc.
  destruct (heap w !! r) as [[b|d]|] eqn:Hr; cbn [snd]; try apply proceeds_refl.
  destruct (f d) as [d'|e]; cbn [snd]; [|apply proceeds_refl].
  unfold proceeds, advances. cbn. repeat split; auto.
  - intros a b Ha. rewrite list_lookup_insert_ne; [exact Ha | congruence].
  - intros a d0 Ha. destruct (decide (r = a)) as [->|Hne].
    + exists d'. exact (lookup_written _ _ _ _ Ha).
    + exists d0. rewrite list_lookup_insert_ne; [exact Ha | exact Hne].
Qed.

Lemma proceeds_console_warn (msg : string) : respects proceeds (console_warn msg).
Proof.
  intros w. unfold proceeds, advances. cbn. repeat split; eauto.
  eexists. reflexivity.
Qed.

Lemma proceeds_console_error (label : string) (e : JsError) :
  respects proceeds (console_error label e).
Proof.
  intros w. unfold proceeds, advances. cbn. repeat split; eauto.
  eexists. reflexivity.
Qed.

Lemma proceeds_count : respects proceeds (setProcessedCount (fun prev => prev + 1)).
Proof.
  intros w. unfold proceeds, advances. cbn. repeat split; eauto. lia.
Qed.

(** Neither [fillPdfForm] nor a turn of the loop nor [save] touches
    [processing], [error] or [completedPdf], whatever the world. *)
Lemma proceeds_fillPdfForm (t : Ref) (row : JsObject) :
  respects proceeds (fillPdfForm t row).
Proof.
  exact (respects_fillPdfForm proceeds proceeds_refl proceeds_trans
           proceeds_alloc proceeds_modifyDoc proceeds_console_warn
           proceeds_console_error t row).
Qed.

Lemma proceeds_loop (t m : Ref) (rows : list JsObject) :
  respects proceeds (forEach (processRow t m) rows).
Proof.
  apply respects_forEach; [apply proceeds_refl | apply proceeds_trans |].
  intros row.
  exact (respects_processRow proceeds proceeds_refl proceeds_trans
           proceeds_alloc proceeds_modifyDoc proceeds_console_warn
           proceeds_console_error proceeds_count t m row).
Qed.

Lemma proceeds_save (doc : Ref) : respects proceeds (save doc).
Proof.
  exact (respects_save proceeds proceeds_refl proceeds_trans proceeds_alloc
           proceeds_modifyDoc doc).
Qed.

Lemma save_returns_buffer (doc r : Ref) (w w' : World) :
  save doc w = (Ok r, w') -> exists bytes, bufferAt w' r = Some bytes.
Proof.
  intros Hsave. destruct (heap w !! doc) as [[b|d]|] eqn:Hd.
  - unfold save, getPageCount, bind, readDoc in Hsave. rewrite Hd in Hsave.
    discriminate.
  - rewrite (save_run doc d w Hd) in Hsave. cbn zeta in Hsave.
    destruct (encode _) as [bytes|e]; [|discriminate].
    injection Hsave as <- <-. exists bytes. unfold bufferAt. cbn [touched heap].
    rewrite <- (length_insert (heap w) doc (ODoc (Form.withDefaultPage d blankPage))).
    rewrite lookup_fresh. reflexivity.
  - unfold save, getPageCount, bind, readDoc in Hsave. rewrite Hd in Hsave.
    discriminate.
Qed.

(** How a batch can end. *)
Lemma completed_or_error (rows : list JsObject) (w : World) :
  match completedPdf (run (processCsvData rows) w) with
  | Some r =>
      (exists bytes, bufferAt (run (processCsvData rows) w) r = Some bytes)
      /\ error (run (processCsvData rows) w) = None
  | None => exists msg, error (run (processCsvData rows) w) = Some msg
  end.
Proof.
  unfold run. destruct (templatePdf w) as [t|] eqn:Ht.
  2: { rewrite (processCsvData_no_template rows w Ht). cbn. eauto. }
  rewrite (processCsvData_run rows t w Ht). cbn [snd].
  pose proof (proceeds_loop t (length (heap w)) rows (started t w))
    as (_ & _ & Herr & Hpdf & _).
  cbn [started error completedPdf] in Herr, Hpdf.
  destruct (forEach _ rows _) as [[[]|e] w2]; cbn [snd] in *.
  - unfold finished.
    pose proof (proceeds_save (length (heap w)) w2) as (_ & _ & Herr' & Hpdf' & _).
    destruct (save _ w2) as [[r|e] w3] eqn:Hsave; cbn [snd] in *.
    + cbn. split; [exact (save_returns_buffer _ _ _ _ Hsave) | congruence].
    + cbn. rewrite Hpdf', Hpdf. eauto.
  - cbn. rewrite Hpdf. eauto.
Qed.

Lemma processCsvData_returns (rows : list JsObject) (w : World) :
  outcome (processCsvData rows) w = Ok tt
  /\ processing (run (processCsvData rows) w) = false.
Proof.
  unfold run, outcome. destruct (templatePdf w) as [t|] eqn:Ht.
  - rewrite (processCsvData_run rows t w Ht). cbn [fst snd].
    split; [reflexivity|].
    destruct (forEach _ rows _) as [[[]|e] w2]; [|reflexivity].
    unfold finished. destruct (save _ w2) as [[r|e] w3]; reflexivity.
  - rewrite (processCsvData_no_template rows w Ht). split; reflexivity.
Qed.

(** X4: in any world and for any rows [processCsvData] returns normally with
    [processing] off, and it ends in exactly one of two ways: [completedPdf]
    points to a buffer and no error is set, or [completedPdf] is unset and an
    error message is set.  It never leaves both or neither. *)
Theorem batch_ends_one_way (rows : list JsObject) (w : World) :
  let w' := run (processCsvData rows) w in
  outcome (processCsvData rows) w = Ok tt
  /\ processing w' = false
  /\ ((exists r bytes,
         completedPdf w' = Some r /\ bufferAt w' r = Some bytes /\ error w' = None)
      \/ (completedPdf w' = None /\ exists msg, error w' = Some msg)).
Proof.
  intros w'. subst w'.
  destruct (processCsvData_returns rows w) as [Hok Hoff].
  split; [exact Hok|]. split; [exact Hoff|].
  pose proof (completed_or_error rows w) as Hend.
  destruct (completedPdf (run (processCsvData rows) w)) as [r|].
  - destruct Hend as [[bytes Hbytes] Herr]. left. exists r, bytes. auto.
  - right. auto.
Qed.

Lemma failed_advances (e : JsError) (w : World) : advances w (failed e w).
Proof.
  unfold advances, failed. cbn. repeat split; eauto. eexists. reflexivity.
Qed.

Lemma finished_advances (m : Ref) (w : World) : advances w (finished m w).
Proof.
  unfold finished. pose proof (proceeds_save m w) as (Hadv & _).
  destruct (save m w) as [[r|e] w'] eqn:Hsave; cbn [snd] in *.
  - apply (advances_trans _ _ _ Hadv). unfold advances. cbn. repeat split; eauto.
  - exact (advances_trans _ _ _ Hadv (failed_advances e w')).
Qed.

Lemma processCsvData_advances (rows : list JsObject) (w : World) :
  advances w (run (processCsvData rows) w).
Proof.
  unfold run. destruct (templatePdf w) as [t|] eqn:Ht.
  - rewrite (processCsvData_run rows t w Ht). cbn [snd].
    assert (Hstart : advances w (started t w)).
    { unfold advances, started. cbn. repeat split; auto.
      - intros a b Ha. apply lookup_extended, Ha.
      - intros a d Ha. exists d. apply lookup_extended, Ha. }
    pose proof (proceeds_loop t (length (heap w)) rows (started t w)) as (Hloop & _).
    destruct (forEach _ rows _) as [[[]|e] w2]; cbn [snd] in *.
    + exact (advances_trans _ _ _ Hstart
               (advances_trans _ _ _ Hloop (finished_advances _ w2))).
    + exact (advances_trans _ _ _ Hstart
               (advances_trans _ _ _ Hloop (failed_advances e w2))).
  - rewrite (processCsvData_no_template rows w Ht). cbn [snd].
    unfold advances, failed. cbn. repeat split; eauto. eexists. reflexivity.
Qed.

Lemma setError_advances (msg : option string) (w : World) :
  advances w (snd (setError msg w)).
Proof. unfold advances. cbn. repeat split; eauto. Qed.

End Invariants.

Section DropInvariant.
Context {L : PdfLib} {P : Papa}.

(** X5: whatever is dropped and whatever the world, [onDrop] (and the batch
    it may start) overwrites no buffer on the heap, leaves every document a
    document, only appends to the console, and keeps the template
    reference. *)
Theorem drop_never_overwrites (acceptedFiles : list File) (w : World) :
  let w' := run (onDrop acceptedFiles) w in
  (forall a b, heap w !! a = Some (OBuffer b) -> heap w' !! a = Some (OBuffer b))
  /\ (forall a d, heap w !! a = Some (ODoc d) -> exists d', heap w' !! a = Some (ODoc d'))
  /\ console w `prefix_of` console w'
  /\ templatePdf w' = templatePdf w.
Proof.
  intros w'. subst w'. change (advances w (run (onDrop acceptedFiles) w)).
  unfold run, onDrop, bind.
  pose proof (setError_advances None w) as H0.
  destruct (setError None w) as [[[]|e] w0] eqn:Hset; [|discriminate].
  cbn [snd] in H0. apply (advances_trans _ _ _ H0).
  destruct acceptedFiles as [|file [|file' rest]]; try apply setError_advances.
  destruct (negb _ && negb _); [apply setError_advances|].
  destruct (contents file) as [csvText|]; [|apply setError_advances].
  unfold onload.
  destruct (Papa_parse csvText) as [results|err]; [|apply setError_advances].
  unfold complete.
  destruct (errors results); [|apply setError_advances].
  apply processCsvData_advances.
Qed.

End DropInvariant.

(** ** More on the batch *)

Section Batch.
Context {L : PdfLib}.

(** X6: a batch started while no template is loaded fails before creating
    any document, whatever the rows (even none): the error message says the
    template is not loaded, one error is logged, and the result and counter
    of any earlier run are cleared. *)
Theorem batch_without_template (rows : list JsObject) (w : World) :
  templatePdf w = None ->
  let w' := run (processCsvData rows) w in
  error w'
  = Some "Failed to process CSV data: PDF template not loaded. Please reload the page."
  /\ completedPdf w' = None
  /\ processedCount w' = 0
  /\ processing w' = false
  /\ heap w' = heap w
  /\ console w'
     = console w
       ++ [LogError "Error processing CSV data:"
             (Error "PDF template not loaded. Please reload the page.")].
Proof.
  intros Ht w'. subst w'. unfold run.
  rewrite (processCsvData_no_template rows w Ht). cbn. repeat split; reflexivity.
Qed.

Lemma filledDocument_undecodable (b : Bytes) (e : JsError) (row : JsObject) :
  decode b = Throw e -> rowEffect b row = (Throw e, [], []).
Proof.
  intros Hdec. unfold rowEffect, fillEffect. rewrite Hdec. reflexivity.
Qed.

(** X7: a template buffer that does not decode is only found out at the first
    row: a batch with at least one row fails there with the decoder's
    message, nothing counted, and nothing created but the empty merged
    document. *)
Theorem undecodable_template_fails_first_row (row : JsObject)
    (rest : list JsObject) (t : Ref) (b : Bytes) (e : JsError) (w : World) :
  templatePdf w = Some t ->
  heap w !! t = Some (OBuffer b) ->
  decode b = Throw e ->
  let w' := run (processCsvData (row :: rest)) w in
  error w' = Some ("Failed to process CSV data: " ++ message e)%string
  /\ processedCount w' = 0
  /\ completedPdf w' = None
  /\ heap w' = heap w ++ [ODoc (mkDoc [] ∅)].
Proof.
  intros Ht Hb Hdec w'. subst w'. unfold run.
  rewrite (processCsvData_run _ t w Ht). cbn [snd forEach].
  pose proof (processRow_run t (length (heap w)) row b (mkDoc [] ∅) (started t w)
                (started_template t b w Hb) (started_merged t w)) as Hrow.
  rewrite (filledDocument_undecodable b e row Hdec) in Hrow. cbn [fst snd] in Hrow.
  rewrite !app_nil_r, touched_id in Hrow.
  rewrite (bind_throw _ _ _ _ _ Hrow). cbn. repeat split; reflexivity.
Qed.

Lemma filledPrefix_fills (b : Bytes) (rows : list JsObject) :
  Forall (fun row => exists d, filledDocument b row = Ok d) (filledPrefix b rows).
Proof.
  induction rows as [|row rows IH]; cbn [filledPrefix]; [constructor|].
  destruct (filledDocument b row) as [d|e] eqn:Hd; constructor; eauto.
Qed.

(** The rows are their filled prefix, or that prefix, a row that throws, and
    the rest. *)
Lemma filledPrefix_split (b : Bytes) (rows : list JsObject) :
  filledPrefix b rows = rows
  \/ exists row e after,
       rows = filledPrefix b rows ++ row :: after
       /\ filledDocument b row = Throw e.
Proof.
  induction rows as [|row rows IH]; cbn [filledPrefix]; [left; reflexivity|].
  destruct (filledDocument b row) as [d|e] eqn:Hd.
  - destruct IH as [-> | (row' & e & after & Hrows & Hrow')]; [left; reflexivity|].
    right. exists row', e, after. split; [|exact Hrow'].
    cbn [app]. rewrite <- Hrows. reflexivity.
  - right. exists row, e, rows. auto.
Qed.

(** What the user sees when every row fills. *)
Lemma verdict_filled (rows : list JsObject) (docs : list (PDFDoc Page))
    (t : Ref) (b : Bytes) (w : World) :
  templatePdf w = Some t ->
  heap w !! t = Some (OBuffer b) ->
  Forall2 (fun row d => filledDocument b row = Ok d) rows docs ->
  let saved := Form.withDefaultPage (mkDoc (concat (map pages docs)) ∅) blankPage in
  verdict (run (processCsvData rows) w) =
  match encode saved with
  | Ok _ => (None, length rows, true)
  | Throw e =>
      (Some ("Failed to process CSV data: " ++ message e)%string, length rows, false)
  end
  /\ docAt (run (processCsvData rows) w) (length (heap w)) = Some saved.
Proof.
  intros Ht Hb Hrows saved. unfold run.
  rewrite (processCsvData_run rows t w Ht). cbn [snd].
  destruct (forEach_processRow_ok t (length (heap w)) b rows docs Hrows
              (mkDoc [] ∅) (started t w) (started_template t b w Hb)
              (started_merged t w))
    as (w2 & Hrun & Hm & (_ & _ & Herr & Hpdf & _) & Hn).
  rewrite Hrun. cbn [pages fields app] in Hm.
  rewrite (finished_run _ _ w2 Hm). fold saved.
  pose proof (lookup_written _ _ _ (ODoc saved) Hm) as Hsaved.
  cbn [started error completedPdf processedCount] in Herr, Hpdf, Hn.
  destruct (encode saved) as [bytes|e]; unfold verdict, failed, docAt;
    cbn [error processedCount completedPdf heap touched]; rewrite ?Herr, ?Hpdf, Hn.
  - rewrite (lookup_extended _ _ _ _ Hsaved). split; reflexivity.
  - rewrite Hsaved. split; reflexivity.
Qed.

(** What the user sees when a row throws after rows that fill. *)
Lemma verdict_aborted (before : list JsObject) (row : JsObject)
    (after : list JsObject) (e : JsError) (t : Ref) (b : Bytes) (w : World) :
  templatePdf w = Some t ->
  heap w !! t = Some (OBuffer b) ->
  Forall (fun r => exists d, filledDocument b r = Ok d) before ->
  filledDocument b row = Throw e ->
  verdict (run (processCsvData (before ++ row :: after)) w) =
  (Some ("Failed to process CSV data: " ++ message e)%string, length before, false)
  /\ completedPdf (run (processCsvData (before ++ row :: after)) w) = None.
Proof.
  intros Ht Hb Hbefore Hrow. unfold run.
  destruct (filled_documents b before Hbefore) as [docs Hdocs].
  rewrite (processCsvData_run _ t w Ht). cbn [snd].
  destruct (forEach_processRow_throw t (length (heap w)) b before docs row e
              after (mkDoc [] ∅) (started t w) Hdocs Hrow
              (started_template t b w Hb) (started_merged t w))
    as (w2 & Hrun & _ & (_ & _ & _ & Hpdf & _) & Hn).
  rewrite Hrun. unfold verdict, failed. cbn [error processedCount completedPdf].
  rewrite Hpdf, Hn. split; reflexivity.
Qed.

(** X8: with the template loaded, the progress count after a batch is the
    number of rows before the first row that does not fill; it never exceeds
    the number of rows, and [completedPdf] is set only if every row filled. *)
Theorem progress_is_filled_prefix (rows : list JsObject) (t : Ref) (b : Bytes)
    (w : World) :
  templatePdf w = Some t ->
  heap w !! t = Some (OBuffer b) ->
  let w' := run (processCsvData rows) w in
  processedCount w' = length (filledPrefix b rows)
  /\ processedCount w' <= length rows
  /\ (filledPrefix b rows <> rows -> completedPdf w' = None).
Proof.
  intros Ht Hb w'. subst w'.
  assert (Hcount : processedCount (run (processCsvData rows) w)
                   = length (filledPrefix b rows)
                   /\ (filledPrefix b rows <> rows ->
                       completedPdf (run (processCsvData rows) w) = None)).
  { destruct (filledPrefix_split b rows) as [Hall | (row & e & after & Hrows & Hrow)].
    - pose proof (filledPrefix_fills b rows) as Hfills. rewrite Hall in *.
      destruct (filled_documents b rows Hfills) as [docs Hdocs].
      destruct (verdict_filled rows docs t b w Ht Hb Hdocs) as [Hv _].
      split; [|congruence].
      unfold verdict in Hv. destruct (encode _); congruence.
    - destruct (verdict_aborted (filledPrefix b rows) row after e t b w Ht Hb
                  (filledPrefix_fills b rows) Hrow) as [Hv Hnone].
      rewrite <- Hrows in Hv, Hnone. unfold verdict in Hv.
      split; [congruence | intros _; exact Hnone]. }
  destruct Hcount as [Hn Hnone]. split; [exact Hn|]. split; [|exact Hnone].
  rewrite Hn. clear. induction rows as [|row rows IH]; cbn [filledPrefix length]; [lia|].
  destruct (filledDocument b row); cbn [length]; lia.
Qed.

End Batch.

Section Verdicts.
Context {L : PdfLib}.

(** X9: what the page shows of a batch (the error message, the progress
    count and whether a download is offered) depends on the rows and the
    template bytes only: it is the same in any two worlds whose template
    references hold the same bytes, whatever earlier runs left in the state
    variables, on the heap and on the console.  When every row fills, the
    merged documents of the two runs also hold the same pages. *)
Theorem batch_result_depends_on_rows_only (rows : list JsObject) (t1 t2 : Ref)
    (b : Bytes) (w1 w2 : World) :
  templatePdf w1 = Some t1 ->
  heap w1 !! t1 = Some (OBuffer b) ->
  templatePdf w2 = Some t2 ->
  heap w2 !! t2 = Some (OBuffer b) ->
  verdict (run (processCsvData rows) w1) = verdict (run (processCsvData rows) w2)
  /\ (filledPrefix b rows = rows ->
      docAt (run (processCsvData rows) w1) (length (heap w1))
      = docAt (run (processCsvData rows) w2) (length (heap w2))).
Proof.
  intros Ht1 Hb1 Ht2 Hb2.
  destruct (filledPrefix_split b rows) as [Hall | (row & e & after & Hrows & Hrow)].
  - pose proof (filledPrefix_fills b rows) as Hfills. rewrite Hall in Hfills.
    destruct (filled_documents b rows Hfills) as [docs Hdocs].
    destruct (verdict_filled rows docs t1 b w1 Ht1 Hb1 Hdocs) as [-> ->].
    destruct (verdict_filled rows docs t2 b w2 Ht2 Hb2 Hdocs) as [-> ->].
    split; reflexivity.
  - split.
    + rewrite Hrows.
      destruct (verdict_aborted (filledPrefix b rows) row after e t1 b w1 Ht1 Hb1
                  (filledPrefix_fills b rows) Hrow) as [-> _].
      destruct (verdict_aborted (filledPrefix b rows) row after e t2 b w2 Ht2 Hb2
                  (filledPrefix_fills b rows) Hrow) as [-> _].
      reflexivity.
    + intros Hall. exfalso.
      apply (f_equal (@length JsObject)) in Hrows.
      rewrite length_app in Hrows. cbn [length] in Hrows.
      rewrite Hall in Hrows. lia.
Qed.

(** X10: when every row fills but the final [save] of the merged document
    throws, the batch reports that failure and offers nothing, although the
    progress count has reached the number of rows. *)
Theorem final_save_failure (rows : list JsObject) (docs : list (PDFDoc Page))
    (e : JsError) (t : Ref) (b : Bytes) (w : World) :
  templatePdf w = Some t ->
  heap w !! t = Some (OBuffer b) ->
  Forall2 (fun row d => filledDocument b row = Ok d) rows docs ->
  encode (Form.withDefaultPage (mkDoc (concat (map pages docs)) ∅) blankPage)
  = Throw e ->
  let w' := run (processCsvData rows) w in
  error w' = Some ("Failed to process CSV data: " ++ message e)%string
  /\ completedPdf w' = None
  /\ processedCount w' = length rows.
Proof.
  intros Ht Hb Hrows Henc w'. subst w'. unfold run.
  rewrite (processCsvData_run rows t w Ht). cbn [snd].
  destruct (forEach_processRow_ok t (length (heap w)) b rows docs Hrows
              (mkDoc [] ∅) (started t w) (started_template t b w Hb)
              (started_merged t w))
    as (w2 & Hrun & Hm & (_ & _ & _ & Hpdf & _) & Hn).
  rewrite Hrun. cbn [pages fields app] in Hm.
  rewrite (finished_run _ _ w2 Hm), Henc.
  cbn [failed error completedPdf processedCount started touched] in *.
  rewrite Hpdf, Hn. auto.
Qed.

End Verdicts.

(** ** More on the filling block *)

Section Filling.
Context {L : PdfLib}.

Lemma tryText_pages (warning : JsError -> string) (d : PDFDoc Page)
    (name text : string) :
  pages (fst (tryText warning d name text)) = pages d.
Proof.
  unfold tryText, Form.setText.
  destruct (Form.getTextField d name) as [[n|]|e]; cbn [fst]; try reflexivity.
  destruct (Nat.ltb n (String.length text)); reflexivity.
Qed.

Lemma tryTexts_pages (items : list (string * string)) :
  forall d, pages (fst (tryTexts items d)) = pages d.
Proof.
  induction items as [|[name text] items IH]; intros d; [reflexivity|].
  cbn [tryTexts fst]. rewrite IH. apply tryText_pages.
Qed.

Lemma mapped_names :
  Forall (fun m : string * string => String.eqb (snd m) "States" = false)
         fieldMappings.
Proof. repeat constructor. Qed.

(** X11: the filling block changes nothing of the instance but the six fields
    it asks for: the pages are the same and every field under another name is
    as it was, whatever the row holds and even when the block throws. *)
Theorem fill_touches_only_its_fields (rowData : JsObject) (form : Ref)
    (d : PDFDoc Page) (w : World) :
  docAt w form = Some d ->
  exists d',
    docAt (run (fillFormFields form rowData) w) form = Some d'
    /\ pages d' = pages d
    /\ forall name, name ∉ templateFields -> fields d' !! name = fields d !! name.
Proof.
  intros Hd. apply docAt_lookup in Hd.
  unfold run. rewrite (fillFormFields_run form rowData d w Hd). cbn [snd].
  eexists. split.
  { unfold docAt, touched. cbn [heap]. rewrite (lookup_written _ _ _ _ Hd).
    reflexivity. }
  unfold fillFields. rewrite (fillMapped_tryTexts rowData _ mapped_names).
  set (items := map _ fieldMappings).
  assert (Hmapped : forall name, name ∉ templateFields ->
            fields (fst (tryTexts items d)) !! name = fields d !! name).
  { intros name Hname. apply tryTexts_other. intros Hin. apply Hname.
    unfold templateFields. apply elem_of_app. left.
    subst items. rewrite map_map in Hin. exact Hin. }
  destruct (statesText rowData) as [text|e]; cbn [fst snd].
  - split; [rewrite tryText_pages; apply tryTexts_pages|].
    intros name Hname. rewrite tryText_other; [apply Hmapped, Hname|].
    intros <-. apply Hname. unfold templateFields. apply elem_of_app. right.
    apply list_elem_of_singleton. reflexivity.
  - split; [apply tryTexts_pages | exact Hmapped].
Qed.

Lemma setText_throw_local (d1 d2 : PDFDoc Page) (name text : string) (e : JsError) :
  fields d1 !! name = fields d2 !! name ->
  Form.setText d2 name text = Throw e ->
  Form.setText d1 name text = Throw e.
Proof.
  unfold Form.setText, Form.getTextField. intros ->.
  destruct (fields d2 !! name) as [[[n|] old|kind]|]; try discriminate; auto.
  destruct (Nat.ltb n (String.length text)); [auto | discriminate].
Qed.

Lemma tryTexts_swallows (items : list (string * string)) (name text : string)
    (e : JsError) :
  NoDup (map fst items) ->
  (name, text) ∈ items ->
  forall d,
    Form.setText d name text = Throw e ->
    Warn (warningFor name e) ∈ snd (tryTexts items d)
    /\ fields (fst (tryTexts items d)) !! name = fields d !! name.
Proof.
  induction items as [|[name' text'] items IH]; intros Hnd Hin d Hthrow.
  - inversion Hin.
  - cbn [map fst] in Hnd. apply NoDup_cons in Hnd as [Hfresh Hnd].
    cbn [tryTexts fst snd].
    apply elem_of_cons in Hin as [Heq | Hin].
    + inversion Heq; subst name' text'.
      unfold tryText at 1 3. rewrite Hthrow. cbn [fst snd]. split.
      * apply elem_of_app. left. apply list_elem_of_singleton. reflexivity.
      * apply (tryTexts_other items name Hfresh).
    + assert (Hne : name' <> name).
      { intros ->. apply Hfresh.
        change name with (fst (name, text)). apply list_elem_of_fmap_2, Hin. }
      pose proof (tryText_other (warningFor name') d name' text' name Hne) as Hsame.
      destruct (IH Hnd Hin _ (setText_throw_local _ d name text e Hsame Hthrow))
        as [Hwarn Hfield].
      split; [apply elem_of_app; right; exact Hwarn | congruence].
Qed.

(** X12: whatever [getTextField] or [setText] throws for one of the six
    fields (no such field, a field of another type, a text longer than the
    field allows) is caught: the block still ends normally, the console gets
    the warning with the thrown message, and the field is left as it was. *)
Theorem field_errors_are_swallowed (rowData : JsObject) (states name text : string)
    (e : JsError) (form : Ref) (d : PDFDoc Page) (w : World) :
  statesText rowData = Ok states ->
  docAt w form = Some d ->
  (name, text) ∈ sentTexts rowData states ->
  Form.setText d name text = Throw e ->
  let w' := run (fillFormFields form rowData) w in
  outcome (fillFormFields form rowData) w = Ok tt
  /\ Warn (warningFor name e) ∈ console w'
  /\ exists d', docAt w' form = Some d' /\ fields d' !! name = fields d !! name.
Proof.
  intros Hstates Hd Hin Hthrow w'. subst w'.
  destruct (fillFormFields_sent rowData states form d w Hstates Hd)
    as (Hok & Hdoc & Hlog).
  destruct (tryTexts_swallows _ name text e (sentTexts_names rowData states)
              Hin d Hthrow) as [Hwarn Hfield].
  split; [exact Hok|]. split.
  - rewrite Hlog. apply elem_of_app. right. exact Hwarn.
  - eexists. split; [exact Hdoc | exact Hfield].
Qed.

Lemma mappedText_typed (rowData : JsObject) (csvField : string) :
  mappedText rowData csvField =
  if toBoolean (get rowData csvField) then toString (get rowData csvField) else "".
Proof.
  unfold mappedText, or. destruct (toBoolean (get rowData csvField)); reflexivity.
Qed.

Lemma mapped_texts_names (rowData : JsObject) :
  NoDup (map fst (map (fun m : string * string =>
                         (snd m, mappedText rowData (fst m))) fieldMappings)).
Proof.
  rewrite map_map. cbn [map fst snd fieldMappings].
  apply (bool_decide_unpack _). vm_compute. exact I.
Qed.

(** X13: for any row the parser has typed, each of the five mapped fields
    that accepts its text ends up holding [String(value)] when the cell is
    truthy and the empty text when it is falsy: a cell read as the number 0,
    as [false] or as [null] leaves its field blank.  This is so whatever the
    States cells hold, also when they make the block throw afterwards. *)
Theorem typed_cells_are_rendered (rowData : JsObject) (csvField pdfField : string)
    (form : Ref) (d : PDFDoc Page) (w : World) :
  (csvField, pdfField) ∈ fieldMappings ->
  docAt w form = Some d ->
  let value := get rowData csvField in
  let sent := if toBoolean value then toString value else "" in
  accepts d pdfField sent ->
  exists d',
    docAt (run (fillFormFields form rowData) w) form = Some d'
    /\ fieldText d' pdfField = Some sent.
Proof.
  intros Hin Hd value sent Hacc. subst value sent.
  rewrite <- mappedText_typed in *.
  apply docAt_lookup in Hd.
  unfold run. rewrite (fillFormFields_run form rowData d w Hd). cbn [snd].
  eexists. split.
  { unfold docAt, touched. cbn [heap]. rewrite (lookup_written _ _ _ _ Hd).
    reflexivity. }
  unfold fillFields. rewrite (fillMapped_tryTexts rowData _ mapped_names).
  assert (Hmapped :
    fieldText (fst (tryTexts (map (fun m => (snd m, mappedText rowData (fst m)))
                                  fieldMappings) d)) pdfField
    = Some (mappedText rowData csvField)).
  { apply tryTexts_assigns; [apply mapped_texts_names| |exact Hacc].
    apply (list_elem_of_fmap_2 (fun m => (snd m, mappedText rowData (fst m)))
             fieldMappings (csvField, pdfField)), Hin. }
  assert (Hne : "States" <> pdfField).
  { pose proof mapped_names as Hnames. rewrite Forall_forall in Hnames.
    specialize (Hnames _ Hin). cbn [snd] in Hnames.
    intros <-. discriminate Hnames. }
  destruct (statesText rowData) as [text|e]; cbn [fst snd]; [|exact Hmapped].
  rewrite (fieldText_same _ _ _ (tryText_other statesWarning _ "States" text
                                               pdfField Hne)).
  exact Hmapped.
Qed.

Lemma tryText_quiet (warning : JsError -> string) (d : PDFDoc Page)
    (name text : string) :
  accepts d name text -> snd (tryText warning d name text) = [].
Proof.
  intros (maxLength & old & Hfield & Hfits).
  unfold tryText, Form.setText, Form.getTextField. rewrite Hfield.
  destruct maxLength as [n|]; [|reflexivity].
  apply Nat.ltb_ge in Hfits. rewrite Hfits. reflexivity.
Qed.

Lemma tryTexts_quiet (items : list (string * string)) :
  NoDup (map fst items) ->
  forall d,
    (forall name text, (name, text) ∈ items -> accepts d name text) ->
    snd (tryTexts items d) = [].
Proof.
  induction items as [|[name text] items IH]; intros Hnd d Hall; [reflexivity|].
  cbn [map fst] in Hnd. apply NoDup_cons in Hnd as [Hfresh Hnd].
  cbn [tryTexts snd].
  rewrite (tryText_quiet _ d name text) by (apply Hall; left).
  rewrite (IH Hnd); [reflexivity|].
  intros name' text' Hin. apply accepts_other.
  - intros ->. apply Hfresh.
    change name' with (fst (name', text')). apply list_elem_of_fmap_2, Hin.
  - apply Hall. right. exact Hin.
Qed.

(** X14: when the instance has all six fields as text fields that accept
    their texts, the filling block logs nothing. *)
Theorem clean_fill_logs_nothing (rowData : JsObject) (states : string)
    (form : Ref) (d : PDFDoc Page) (w : World) :
  statesText rowData = Ok states ->
  docAt w form = Some d ->
  (forall name text, (name, text) ∈ sentTexts rowData states -> accepts d name text) ->
  outcome (fillFormFields form rowData) w = Ok tt
  /\ console (run (fillFormFields form rowData) w) = console w.
Proof.
  intros Hstates Hd Hall.
  destruct (fillFormFields_sent rowData states form d w Hstates Hd)
    as (Hok & _ & Hlog).
  split; [exact Hok|].
  rewrite Hlog, (tryTexts_quiet _ (sentTexts_names rowData states) d Hall).
  apply app_nil_r.
Qed.

End Filling.

(** ** The States rule on rows the parser has typed *)

Lemma get_cell (o : JsObject) (k : string) (v : JsValue) :
  WellFormed o -> (k, v) ∈ o -> get o k = v.
Proof.
  unfold WellFormed. induction o as [|[k' v'] o IH]; intros Hnd Hin.
  - inversion Hin.
  - cbn [map fst] in Hnd. apply NoDup_cons in Hnd as [Hfresh Hnd].
    cbn [get]. apply elem_of_cons in Hin as [Heq | Hin].
    + inversion Heq; subst. rewrite String.eqb_refl. reflexivity.
    + destruct (String.eqb k' k) eqn:E.
      * apply String.eqb_eq in E. subst k'. exfalso. apply Hfresh.
        change k with (fst (k, v)). apply list_elem_of_fmap_2. exact Hin.
      * apply IH; assumption.
Qed.

Lemma object_cells (o : JsObject) :
  WellFormed o -> Forall (fun kv => get o (fst kv) = snd kv) o.
Proof.
  intros Hwf. apply Forall_forall. intros [k v] Hin.
  apply get_cell; [exact Hwf | exact Hin].
Qed.

Lemma isStateField_typed (o : JsObject) (kv : string * JsValue) :
  get o (fst kv) = snd kv -> statesTyped kv ->
  isStateField o (fst kv) = Ok (keepsTyped kv).
Proof.
  intros Hget Htyped. unfold isStateField, keepsTyped, statesTyped in *.
  rewrite Hget. destruct (includes (fst kv) "States"); [|reflexivity].
  destruct (toBoolean (snd kv)) eqn:Htruthy; [|reflexivity].
  destruct (Htyped eq_refl eq_refl) as [s Hs]. rewrite Hs. reflexivity.
Qed.

Lemma stateFields_typed (o : JsObject) (cells : list (string * JsValue)) :
  Forall (fun kv => get o (fst kv) = snd kv) cells ->
  Forall statesTyped cells ->
  filterR (isStateField o) (map fst cells)
  = Ok (map fst (List.filter keepsTyped cells)).
Proof.
  induction 1 as [|kv cells Hget _ IH]; intros Htyped; [reflexivity|].
  apply Forall_cons in Htyped as [Hkv Htyped].
  cbn [map filterR List.filter].
  rewrite (isStateField_typed o kv Hget Hkv), (IH Htyped).
  destruct (keepsTyped kv); reflexivity.
Qed.

Lemma stateValues_typed (o : JsObject) (cells : list (string * JsValue)) :
  Forall (fun kv => get o (fst kv) = snd kv) cells ->
  map joinItem (stateValues o (map fst (List.filter keepsTyped cells)))
  = stringStates cells.
Proof.
  unfold stateValues, stringStates.
  induction 1 as [|[k v] cells Hget _ IH]; [reflexivity|].
  cbn [List.filter flat_map fst snd] in *.
  destruct (keepsTyped (k, v)) eqn:E; unfold keepsTyped in E; cbn [fst snd] in E.
  - apply andb_true_iff in E as [E Hs]. apply andb_true_iff in E as [Hk Hv].
    cbn [map List.filter fst]. rewrite Hget, Hv.
    destruct v; try discriminate. rewrite Hk, Hs.
    cbn [map joinItem toString andb app]. f_equal. exact IH.
  - rewrite IH. destruct v; try reflexivity.
    destruct (includes k "States"); [|reflexivity]. cbn [andb] in *.
    destruct (is_empty (trim s)) eqn:Hs; [reflexivity|].
    destruct s; [discriminate|]. discriminate.
Qed.

(** X15: on a row the parser has typed, as long as every cell under a name
    containing "States" is a string or falsy, the States text is the string
    cells that are non-empty after trimming, in column order, joined with
    ", ": empty cells (read as [null]), 0 and [false] are skipped. *)
Theorem states_text_of_typed_row (rowData : JsObject) :
  WellFormed rowData ->
  Forall statesTyped rowData ->
  statesText rowData = Ok (String.concat ", " (stringStates rowData)).
Proof.
  intros Hwf Htyped. unfold statesText, stateFields, keys.
  rewrite (stateFields_typed rowData rowData (object_cells rowData Hwf) Htyped).
  unfold join. rewrite (stateValues_typed rowData rowData (object_cells rowData Hwf)).
  reflexivity.
Qed.

Lemma isStateField_throws (o : JsObject) (k : string) (e : JsError) :
  isStateField o k = Throw e ->
  e = TypeError "rowData[key].trim is not a function".
Proof.
  unfold isStateField. destruct (includes k "States"); [|discriminate].
  destruct (toBoolean (get o k)); [|discriminate].
  destruct (get o k); intros [= <-]; reflexivity.
Qed.

Lemma filterR_throws {A : Type} (p : A -> Result bool) (e : JsError)
    (l : list A) (x : A) :
  (forall y e', p y = Throw e' -> e' = e) ->
  x ∈ l -> p x = Throw e -> filterR p l = Throw e.
Proof.
  intros Honly Hin Hx. induction l as [|y l IH]; [inversion Hin|].
  cbn [filterR]. destruct (p y) as [keep|e'] eqn:Hy.
  - apply elem_of_cons in Hin as [-> | Hin]; [congruence|].
    rewrite (IH Hin). reflexivity.
  - rewrite (Honly y e' Hy). reflexivity.
Qed.

Lemma statesText_throws (rowData : JsObject) (k : string) (v : JsValue) :
  WellFormed rowData ->
  (k, v) ∈ rowData ->
  includes k "States" = true ->
  toBoolean v = true ->
  (forall s, v <> JStr s) ->
  statesText rowData = Throw (TypeError "rowData[key].trim is not a function").
Proof.
  intros Hwf Hin Hk Hv Hnot. unfold statesText, stateFields.
  rewrite (filterR_throws (isStateField rowData)
             (TypeError "rowData[key].trim is not a function") (keys rowData) k).
  - reflexivity.
  - intros y e'. apply isStateField_throws.
  - unfold keys. change k with (fst (k, v)). apply list_elem_of_fmap_2, Hin.
  - unfold isStateField. rewrite Hk, (get_cell rowData k v Hwf Hin), Hv.
    destruct v; try reflexivity. exfalso. exact (Hnot s eq_refl).
Qed.

Section TypedStates.
Context {L : PdfLib}.

(** X16: a row with a truthy cell that is not a string (a number, [true], a
    date) under a name containing "States" cannot be filled: [trim] is not a
    function of it.  With a decodable template the batch stops at that row
    with this message, counting the rows before it and offering nothing. *)
Theorem typed_states_cell_aborts_batch (before : list JsObject)
    (rowData : JsObject) (after : list JsObject) (k : string) (v : JsValue)
    (t : Ref) (b : Bytes) (d0 : PDFDoc Page) (w : World) :
  templatePdf w = Some t ->
  heap w !! t = Some (OBuffer b) ->
  decode b = Ok d0 ->
  Forall (fun r => exists d, filledDocument b r = Ok d) before ->
  WellFormed rowData ->
  (k, v) ∈ rowData ->
  includes k "States" = true ->
  toBoolean v = true ->
  (forall s, v <> JStr s) ->
  let w' := run (processCsvData (before ++ rowData :: after)) w in
  error w'
  = Some "Failed to process CSV data: Error filling PDF form: rowData[key].trim is not a function"
  /\ processedCount w' = length before
  /\ completedPdf w' = None.
Proof.
  intros Ht Hb Hdec Hbefore Hwf Hin Hk Hv Hnot w'. subst w'.
  assert (Hrow : filledDocument b rowData
                 = Throw (Error "Error filling PDF form: rowData[key].trim is not a function")).
  { rewrite filledDocument_rowEffect. unfold rowEffect, fillEffect, fillFields.
    rewrite Hdec, (statesText_throws rowData k v Hwf Hin Hk Hv Hnot). reflexivity. }
  destruct (verdict_aborted before rowData after _ t b w Ht Hb Hbefore Hrow)
    as [Hv' Hnone].
  unfold verdict in Hv'. injection Hv' as Herr Hcount _.
  split; [exact Herr|]. split; [exact Hcount | exact Hnone].
Qed.

Lemma get_skip (o1 o2 : JsObject) (k c : string) (v : JsValue) :
  c <> k -> get (o1 ++ (k, v) :: o2) c = get (o1 ++ o2) c.
Proof.
  intros Hne. induction o1 as [|[k' v'] o1 IH]; cbn [app get].
  - destruct (String.eqb k c) eqn:E; [|reflexivity].
    apply String.eqb_eq in E. congruence.
  - rewrite IH. reflexivity.
Qed.

Lemma isStateField_skip (o1 o2 : JsObject) (k : string) (v : JsValue) (c : string) :
  includes k "States" = false ->
  isStateField (o1 ++ (k, v) :: o2) c = isStateField (o1 ++ o2) c.
Proof.
  intros Hk. unfold isStateField.
  destruct (includes c "States") eqn:Hc; [|reflexivity].
  rewrite get_skip; [reflexivity | congruence].
Qed.

Lemma filterR_ext {A : Type} (p q : A -> Result bool) (l : list A) :
  (forall x, p x = q x) -> filterR p l = filterR q l.
Proof.
  intros H. induction l as [|x l IH]; [reflexivity|].
  cbn [filterR]. rewrite H, IH. reflexivity.
Qed.

Lemma filterR_drop {A : Type} (p : A -> Result bool) (l1 l2 : list A) (x : A) :
  p x = Ok false -> filterR p (l1 ++ x :: l2) = filterR p (l1 ++ l2).
Proof.
  intros Hx. induction l1 as [|y l1 IH]; cbn [app filterR].
  - rewrite Hx. destruct (filterR p l2); reflexivity.
  - rewrite IH. reflexivity.
Qed.

Lemma filterR_kept {A : Type} (p : A -> Result bool) (l r : list A) :
  filterR p l = Ok r -> Forall (fun x => p x = Ok true) r.
Proof.
  revert r. induction l as [|x l IH]; intros r; cbn [filterR].
  - intros [= <-]. constructor.
  - destruct (p x) as [keep|e] eqn:Hx; [|discriminate].
    destruct (filterR p l) as [r'|e]; [|discriminate].
    intros [= <-]. destruct keep; [constructor|]; auto.
Qed.

Lemma fillStatesField_skip (o1 o2 : JsObject) (k : string) (v : JsValue)
    (form : Ref) (w : World) :
  includes k "States" = false ->
  fillStatesField form (o1 ++ (k, v) :: o2) w = fillStatesField form (o1 ++ o2) w.
Proof.
  intros Hk. unfold fillStatesField, bind at 1 3, liftR.
  assert (Hfields : stateFields (o1 ++ (k, v) :: o2) = stateFields (o1 ++ o2)).
  { unfold stateFields, keys. rewrite !map_app. cbn [map fst].
    rewrite (filterR_ext _ (isStateField (o1 ++ o2)))
      by (intros c; apply isStateField_skip, Hk).
    apply filterR_drop. unfold isStateField. rewrite Hk. reflexivity. }
  rewrite Hfields.
  destruct (stateFields (o1 ++ o2)) as [fields|e] eqn:Hok; [|reflexivity].
  assert (Hvalues : stateValues (o1 ++ (k, v) :: o2) fields
                    = stateValues (o1 ++ o2) fields).
  { unfold stateValues. f_equal. apply map_ext_in. intros c Hc.
    apply get_skip. intros ->.
    pose proof (filterR_kept _ _ _ Hok) as Hkept.
    rewrite Forall_forall in Hkept.
    specialize (Hkept k (proj2 (list_elem_of_In _ _) Hc)).
    unfold isStateField in Hkept. rewrite Hk in Hkept. discriminate. }
  rewrite Hvalues. reflexivity.
Qed.

Lemma fillMappedField_skip (o1 o2 : JsObject) (k : string) (v : JsValue)
    (form : Ref) (csvField pdfField : string) :
  csvField <> k ->
  fillMappedField form (o1 ++ (k, v) :: o2) (csvField, pdfField)
  = fillMappedField form (o1 ++ o2) (csvField, pdfField).
Proof.
  intros Hne. unfold fillMappedField. rewrite get_skip by exact Hne. reflexivity.
Qed.

Lemma forEach_same {A : Type} (f g : A -> M unit) (l : list A) (w : World) :
  Forall (fun x => f x = g x) l -> forEach f l w = forEach g l w.
Proof.
  intros H. revert w. induction H as [|x l Hx _ IH]; intros w; [reflexivity|].
  cbn [forEach]. rewrite Hx. unfold bind.
  destruct (g x w) as [[[]|e] w1]; [apply IH | reflexivity].
Qed.

(** X17: a column the mapper has no use for (its name is none of the five
    mapped columns and does not contain "States") never changes what
    [fillPdfForm] does, whatever its cell holds and wherever it stands in the
    row. *)
Theorem unrecognised_column_is_ignored (o1 o2 : JsObject) (k : string)
    (v : JsValue) (templateBytes : Ref) (w : World) :
  includes k "States" = false ->
  k ∉ map fst fieldMappings ->
  fillPdfForm templateBytes (o1 ++ (k, v) :: o2) w
  = fillPdfForm templateBytes (o1 ++ o2) w.
Proof.
  intros Hk Hnot. unfold fillPdfForm, bind at 1 5.
  destruct (PDFDocument_load templateBytes w) as [[pdfDoc|e] w1]; [|reflexivity].
  unfold getForm. rewrite !bind_ret.
  assert (Hfill : fillFormFields pdfDoc (o1 ++ (k, v) :: o2) w1
                  = fillFormFields pdfDoc (o1 ++ o2) w1).
  { unfold fillFormFields, tryCatch, bind at 1 3.
    rewrite (forEach_same (fillMappedField pdfDoc (o1 ++ (k, v) :: o2))
                          (fillMappedField pdfDoc (o1 ++ o2))).
    - destruct (forEach _ fieldMappings w1) as [[[]|e] w2]; [|reflexivity].
      rewrite (fillStatesField_skip o1 o2 k v pdfDoc w2 Hk). reflexivity.
    - apply Forall_forall. intros [csvField pdfField] Hin.
      apply fillMappedField_skip. intros ->. apply Hnot.
      change k with (fst (k, pdfField)). apply list_elem_of_fmap_2, Hin. }
  unfold bind at 1 4. rewrite Hfill. reflexivity.
Qed.

End TypedStates.

(** ** What a drop leads to *)

Section Drops.
Context {L : PdfLib} {P : Papa}.

Lemma setError_onlyError (msg msg' : option string) (w : World) :
  onlyError w (snd (setError msg (snd (setError msg' w)))).
Proof. unfold onlyError. cbn. auto 10. Qed.

Lemma processCsvData_clears_error (rows : list JsObject) (w : World) :
  processCsvData rows (snd (setError None w)) = processCsvData rows w.
Proof. reflexivity. Qed.

(** X18: [onDrop] does one of two things.  When exactly one file is dropped,
    it has the CSV type or a name ending in ".csv", its text is read, and the
    parse completes without errors, [onDrop] is [processCsvData] on the
    parsed rows.  In every other case it sets an error message and changes
    nothing else: no batch starts and an earlier result stays as it was. *)
Theorem drop_starts_batch_or_only_reports (acceptedFiles : list File) (w : World) :
  (exists file csvText results,
     acceptedFiles = [file]
     /\ (type file = "text/csv" \/ endsWith (name file) ".csv" = true)
     /\ contents file = Some csvText
     /\ Papa_parse csvText = Complete results
     /\ errors results = []
     /\ onDrop acceptedFiles w = processCsvData (data results) w)
  \/ (onlyError w (run (onDrop acceptedFiles) w)
      /\ exists msg, error (run (onDrop acceptedFiles) w) = Some msg).
Proof.
  unfold run, onDrop.
  rewrite (bind_ok (setError None) _ w (snd (setError None w)) tt eq_refl).
  destruct acceptedFiles as [|file [|file' rest]];
    try (right; split; [apply setError_onlyError | cbn; eauto]).
  destruct (String.eqb (type file) "text/csv") eqn:Htype;
    [|destruct (endsWith (name file) ".csv") eqn:Hname];
    cbn [negb andb];
    try (right; split; [apply setError_onlyError | cbn; eauto]).
  all: destruct (contents file) as [csvText|] eqn:Htext;
    try (right; split; [apply setError_onlyError | cbn; eauto]).
  all: unfold onload; destruct (Papa_parse csvText) as [results|err] eqn:Hparse;
    try (right; split; [apply setError_onlyError | cbn; eauto]).
  all: unfold complete; destruct (errors results) as [|e errs] eqn:Herrors;
    try (right; split; [apply setError_onlyError | cbn; eauto]).
  - left. exists file, csvText, results. apply String.eqb_eq in Htype.
    repeat split; auto.
  - left. exists file, csvText, results. repeat split; auto.
Qed.

End Drops.

(** ** Loading the template *)

Lemma get_lookup (s : string) :
  forall i, String.get i s = list_ascii_of_string s !! i.
Proof.
  induction s as [|c s IH]; intros i; [destruct i; reflexivity|].
  destruct i; cbn; [reflexivity | apply IH].
Qed.

Lemma length_list_ascii (s : string) :
  length (list_ascii_of_string s) = String.length s.
Proof. induction s as [|c s IH]; cbn; [reflexivity | rewrite IH; reflexivity]. Qed.

Lemma copyCodes_fills (s : string) (todo : list ascii) :
  forall done : list ascii,
    list_ascii_of_string s = done ++ todo ->
    copyCodes s (seq (length done) (length todo))
              (map nat_of_ascii done ++ replicate (length todo) 0)
    = map nat_of_ascii (done ++ todo).
Proof.
  induction todo as [|c todo IH]; intros done Hs.
  - cbn [length seq copyCodes replicate]. rewrite !app_nil_r. reflexivity.
  - cbn [length seq copyCodes replicate].
    unfold charCodeAt, store. rewrite get_lookup, Hs.
    rewrite list_lookup_middle by reflexivity. cbn [option_map].
    rewrite Nat.mod_small by apply nat_ascii_bounded.
    rewrite insert_app_r_alt by (rewrite length_map; lia).
    rewrite length_map, Nat.sub_diag. cbn [list_insert].
    specialize (IH (done ++ [c])).
    rewrite length_app, Nat.add_1_r, map_app, <- !app_assoc in IH.
    apply IH. rewrite Hs. reflexivity.
Qed.

Lemma binaryBytes_codes (s : string) :
  binaryBytes s = map nat_of_ascii (list_ascii_of_string s).
Proof.
  unfold binaryBytes. rewrite <- length_list_ascii.
  exact (copyCodes_fills s (list_ascii_of_string s) [] eq_refl).
Qed.

(** X19: the loop of [loadTemplate] fills the whole array: the bytes are the
    character codes of the decoded string, one per character and in order,
    so the array has the string's length and every element is below 256. *)
Theorem template_bytes_are_char_codes (binaryString : string) :
  binaryBytes binaryString = map nat_of_ascii (list_ascii_of_string binaryString)
  /\ length (binaryBytes binaryString) = String.length binaryString
  /\ (forall i,
        binaryBytes binaryString !! i = charCodeAt binaryString i)
  /\ Forall (fun byte => byte < 256) (binaryBytes binaryString).
Proof.
  rewrite binaryBytes_codes. split; [reflexivity|]. split; [|split].
  - rewrite length_map. apply length_list_ascii.
  - intros i. unfold charCodeAt. rewrite get_lookup, list_lookup_fmap.
    destruct (list_ascii_of_string binaryString !! i); reflexivity.
  - apply Forall_forall. intros byte Hin.
    apply list_elem_of_fmap in Hin as (c & -> & _). apply nat_ascii_bounded.
Qed.

Section Template.
Context {L : PdfLib} {B : Browser}.

(** X20: when [atob] decodes the embedded constant, [loadTemplate] puts the
    character codes of the decoded string in a new buffer and makes it the
    template: the precondition of a batch.  It touches no object that was on
    the heap, logs nothing, and leaves the error message as it was. *)
Theorem template_load_succeeds (binaryString : string) (w : World) :
  atob pdfTemplateBase64 = Ok binaryString ->
  let w' := run loadTemplate w in
  let t := length (heap w) in
  templatePdf w' = Some t
  /\ heap w' !! t
     = Some (OBuffer (arrayBuffer (map nat_of_ascii (list_ascii_of_string binaryString))))
  /\ (forall a o, heap w !! a = Some o -> heap w' !! a = Some o)
  /\ error w' = error w
  /\ console w' = console w.
Proof.
  intros Hatob w' t. subst w' t.
  unfold run, loadTemplate, tryCatch, bind, liftR, alloc, setTemplatePdf.
  rewrite Hatob, binaryBytes_codes. cbn. repeat split.
  - apply lookup_fresh.
  - intros a o Ha. apply lookup_extended, Ha.
Qed.

(** X21: when [atob] throws, [loadTemplate] only reports it; with no
    template loaded before, none is loaded after, and every batch from then
    on fails with the template-not-loaded message and offers nothing. *)
Theorem template_load_fails (e : JsError) (w : World) :
  atob pdfTemplateBase64 = Throw e ->
  templatePdf w = None ->
  let w1 := run loadTemplate w in
  error w1 = Some ("Failed to load embedded PDF template: " ++ message e)%string
  /\ templatePdf w1 = None
  /\ heap w1 = heap w
  /\ forall rows,
       let w2 := run (processCsvData rows) w1 in
       error w2
       = Some "Failed to process CSV data: PDF template not loaded. Please reload the page."
       /\ completedPdf w2 = None
       /\ heap w2 = heap w.
Proof.
  intros Hatob Ht w1.
  assert (Hw1 : w1 = snd (setError
             (Some ("Failed to load embedded PDF template: " ++ message e)%string) w)).
  { subst w1. unfold run, loadTemplate, tryCatch, bind, liftR.
    rewrite Hatob. reflexivity. }
  rewrite Hw1. cbn [setError snd error templatePdf heap].
  split; [reflexivity|]. split; [exact Ht|]. split; [reflexivity|].
  intros rows. unfold run.
  rewrite processCsvData_no_template by exact Ht.
  cbn. repeat split; reflexivity.
Qed.

Lemma bufferAt_lookup (w : World) (r : Ref) (bytes : Bytes) :
  bufferAt w r = Some bytes -> heap w !! r = Some (OBuffer bytes).
Proof.
  unfold bufferAt. destruct (heap w !! r) as [[b|d]|]; try discriminate.
  intros [= ->]. reflexivity.
Qed.

(** X22: [downloadPdf] after a batch offers the batch's result and nothing
    else.  If the batch ended with an error, nothing is handed to [saveAs]
    and the message says there is no completed PDF.  If it ended well, the
    bytes behind [completedPdf] are handed to [saveAs] under the name
    "tax-return-control-copies.pdf", and the page changes only if [saveAs]
    throws. *)
Theorem download_offers_the_batch_result (rows : list JsObject) (w : World)
    (earlier : list (string * Bytes)) :
  let w' := run (processCsvData rows) w in
  let s' := downloadPdf (mkDesk w' earlier) in
  match error w' with
  | Some _ =>
      saved s' = earlier
      /\ error (page s') = Some "No completed PDF to download"
  | None =>
      exists r bytes,
        completedPdf w' = Some r /\ bufferAt w' r = Some bytes
        /\ match saveAs bytes "tax-return-control-copies.pdf" with
           | Ok _ =>
               s' = mkDesk w' (earlier ++ [("tax-return-control-copies.pdf", bytes)])
           | Throw e =>
               saved s' = earlier
               /\ error (page s') = Some ("Failed to download file: " ++ message e)%string
           end
  end.
Proof.
  intros w' s'. subst s'. pose proof (completed_or_error rows w) as Hend.
  fold w' in Hend. unfold downloadPdf. cbn [page saved].
  destruct (completedPdf w') as [r|] eqn:Hpdf.
  - destruct Hend as [[bytes Hbytes] Herr]. rewrite Herr.
    exists r, bytes. split; [reflexivity|]. split; [exact Hbytes|].
    rewrite (readBuffer_run r bytes w' (bufferAt_lookup _ _ _ Hbytes)).
    destruct (saveAs bytes "tax-return-control-copies.pdf") as [[]|e];
      [reflexivity | split; reflexivity].
  - destruct Hend as [msg Herr]. rewrite Herr. split; reflexivity.
Qed.

End Template.

(** * The further properties at work *)

Section MoreExamples.
Import Reference Demo.

(** Before the template is loaded even one good row fails. *)
Lemma batch_without_template_witness :
  let w' := run (processCsvData [rowObject acme]) mounted in
  error w'
  = Some "Failed to process CSV data: PDF template not loaded. Please reload the page."
  /\ heap w' = [].
Proof.
  destruct (batch_without_template (L := lib) [rowObject acme] mounted)
    as (Herr & _ & _ & _ & Hheap & _).
  - reflexivity.
  - split; assumption.
Defined.

(** A template that is not a PDF. *)
Lemma undecodable_template_fails_first_row_witness :
  let w' := run (processCsvData [rowObject acme; rowObject globex]) corrupt in
  error w' = Some "Failed to process CSV data: Failed to parse PDF document"
  /\ processedCount w' = 0.
Proof.
  destruct (undecodable_template_fails_first_row (L := lib) (rowObject acme)
              [rowObject globex] 0 Garbage
              (Error "Failed to parse PDF document") corrupt)
    as (Herr & Hcount & _).
  - reflexivity.
  - reflexivity.
  - reflexivity.
  - split; assumption.
Defined.

(** One row fills before the typed row. *)
Lemma progress_is_filled_prefix_witness :
  processedCount (run (processCsvData [rowObject acme; typed; rowObject globex]) ready)
  = 1.
Proof.
  destruct (progress_is_filled_prefix (L := lib)
              [rowObject acme; typed; rowObject globex] 0 (Pdf template) ready)
    as (Hcount & _).
  - reflexivity.
  - reflexivity.
  - rewrite Hcount. vm_compute. reflexivity.
Defined.

(** The same rows after a run that failed. *)
Lemma batch_result_depends_on_rows_only_witness :
  let after := run (processCsvData [typed]) ready in
  verdict (run (processCsvData [rowObject acme]) ready)
  = verdict (run (processCsvData [rowObject acme]) after)
  /\ docAt (run (processCsvData [rowObject acme]) ready) 1
     = docAt (run (processCsvData [rowObject acme]) after) 3.
Proof.
  destruct (batch_result_depends_on_rows_only (L := lib) [rowObject acme] 0 0
              (Pdf template) ready (run (processCsvData [typed]) ready))
    as [Hverdict Hmerged].
  - reflexivity.
  - reflexivity.
  - vm_compute. reflexivity.
  - vm_compute. reflexivity.
  - split; [exact Hverdict|]. apply Hmerged. vm_compute. reflexivity.
Defined.

(** Two rows on a library that cannot write two pages. *)
Lemma final_save_failure_witness :
  let w' := run (L := cramped) (processCsvData [rowObject acme; rowObject globex])
                (standalone (L := cramped) (Pdf template)) in
  error w' = Some "Failed to process CSV data: Array buffer allocation failed"
  /\ completedPdf w' = None
  /\ processedCount w' = 2.
Proof.
  apply (final_save_failure (L := cramped) [rowObject acme; rowObject globex]
           [flat; flat] (Error "Array buffer allocation failed") 0 (Pdf template)
           (standalone (L := cramped) (Pdf template))).
  - reflexivity.
  - reflexivity.
  - repeat constructor; vm_compute; reflexivity.
  - vm_compute. reflexivity.
Defined.

(** The Preparer field of the awkward form is not one of the six. *)
Lemma fill_touches_only_its_fields_witness :
  exists d',
    docAt (run (fillFormFields 1 (rowObject acme)) (loaded awkward)) 1 = Some d'
    /\ pages d' = ["control copy"]
    /\ fields d' !! "Preparer" = Some (TextField None "J. Doe").
Proof.
  destruct (fill_touches_only_its_fields (L := lib) (rowObject acme) 1 awkward
              (loaded awkward) eq_refl)
    as (d' & Hdoc & Hpages & Hfields).
  exists d'. split; [exact Hdoc|]. split; [exact Hpages|].
  rewrite Hfields; [vm_compute; reflexivity|].
  apply (bool_decide_unpack _). vm_compute. exact I.
Defined.

(** "2023" does not fit a Tax Year field of two characters. *)
Lemma field_errors_are_swallowed_witness :
  let w' := run (fillFormFields 1 (rowObject acme)) (loaded awkward) in
  outcome (fillFormFields 1 (rowObject acme)) (loaded awkward) = Ok tt
  /\ Warn (warningFor "Tax Year" (Form.ExceededMaxLengthError 4 2 "Tax Year"))
     ∈ console w'.
Proof.
  destruct (field_errors_are_swallowed (L := lib) (rowObject acme) "CA"
              "Tax Year" "2023" (Form.ExceededMaxLengthError 4 2 "Tax Year")
              1 awkward (loaded awkward))
    as (Hok & Hwarn & _).
  - vm_compute. reflexivity.
  - reflexivity.
  - apply list_elem_of_In. cbn. tauto.
  - vm_compute. reflexivity.
  - split; assumption.
Defined.

(** A row whose States cell is the number 5: the block throws, and Client
    holds its text all the same. *)
Lemma typed_cells_are_rendered_witness :
  exists d',
    docAt (run (fillFormFields 1 typed) (loaded template)) 1 = Some d'
    /\ fieldText d' "Client" = Some "Initech".
Proof.
  apply (typed_cells_are_rendered (L := lib) typed "Client" "Client" 1 template
           (loaded template)).
  - apply list_elem_of_In. cbn. tauto.
  - reflexivity.
  - exists None, "". split; [vm_compute; reflexivity | exact I].
Defined.

(** The block does throw on that row; and a cell read as the number 0 leaves
    its field blank. *)
Example typed_rows_in_the_block :
  outcome (fillFormFields 1 typed) (loaded template)
  = Throw (Error "Error filling PDF form: rowData[key].trim is not a function")
  /\ option_map (fun d => fieldText d "ProSystem's #")
                (docAt (run (fillFormFields 1 mixed) (loaded template)) 1)
     = Some (Some "").
Proof. split; vm_compute; reflexivity. Qed.

(** The first row on the full template. *)
Lemma clean_fill_logs_nothing_witness :
  console (run (fillFormFields 1 (rowObject acme)) (loaded template)) = [].
Proof.
  apply (clean_fill_logs_nothing (L := lib) (rowObject acme) "CA" 1 template
           (loaded template)).
  - vm_compute. reflexivity.
  - reflexivity.
  - intros name text Hin. exists None, "".
    apply list_elem_of_In in Hin. cbn in Hin.
    split; [|exact I].
    repeat (destruct Hin as [[= <- <-] | Hin]; [vm_compute; reflexivity|]).
    destruct Hin.
Defined.

(** An empty States cell read as [null] is skipped. *)
Lemma states_text_of_typed_row_witness : statesText mixed = Ok " NV ".
Proof.
  apply (states_text_of_typed_row mixed).
  - apply wellFormed_by_computation. vm_compute. reflexivity.
  - unfold statesTyped. repeat constructor; cbn [fst snd]; intros Hk Hv;
      try discriminate; eauto.
Defined.

(** The typed row as the second of three. *)
Lemma typed_states_cell_aborts_batch_witness :
  let w' := run (processCsvData ([rowObject acme] ++ typed :: [rowObject globex]))
                ready in
  error w'
  = Some "Failed to process CSV data: Error filling PDF form: rowData[key].trim is not a function"
  /\ processedCount w' = 1.
Proof.
  destruct (typed_states_cell_aborts_batch (L := lib) [rowObject acme] typed
              [rowObject globex] "States" (JNum true "5") 0 (Pdf template)
              template ready)
    as (Herr & Hcount & _).
  - reflexivity.
  - reflexivity.
  - reflexivity.
  - constructor; [|constructor]. exists flat. vm_compute. reflexivity.
  - apply wellFormed_by_computation. vm_compute. reflexivity.
  - apply list_elem_of_In. cbn. tauto.
  - vm_compute. reflexivity.
  - reflexivity.
  - intros s. discriminate.
  - split; assumption.
Defined.

(** The Notes column of the mixed row makes no difference. *)
Lemma unrecognised_column_is_ignored_witness :
  fillPdfForm 0 mixed ready
  = fillPdfForm 0
      [("Client", JStr "Hooli"); ("Tax Year", JNum true "2023");
       ("Prosystems #", JNum false "0"); ("States_A", JNull);
       ("States_B", JStr " NV ")]
      ready.
Proof.
  apply (unrecognised_column_is_ignored (L := lib)
           [("Client", JStr "Hooli"); ("Tax Year", JNum true "2023");
            ("Prosystems #", JNum false "0"); ("States_A", JNull);
            ("States_B", JStr " NV ")]
           [] "Notes" (JBool true) 0 ready).
  - vm_compute. reflexivity.
  - apply (bool_decide_unpack _). vm_compute. exact I.
Defined.

(** The stand-in constant decodes to "COPY". *)
Lemma template_load_succeeds_witness :
  let w' := run (loadTemplate (B := browser)) mounted in
  templatePdf w' = Some 0 /\ heap w' !! 0 = Some (OBuffer (Pdf template)).
Proof.
  destruct (template_load_succeeds (L := lib) (B := browser) "COPY" mounted)
    as (Htpl & Hbuf & _).
  - reflexivity.
  - split; [exact Htpl | exact Hbuf].
Defined.

(** A constant that is not base64. *)
Lemma template_load_fails_witness :
  let w1 := run (loadTemplate (B := broken)) mounted in
  error w1
  = Some "Failed to load embedded PDF template: The string to be decoded is not correctly encoded."
  /\ error (run (processCsvData [rowObject acme]) w1)
     = Some "Failed to process CSV data: PDF template not loaded. Please reload the page.".
Proof.
  destruct (template_load_fails (L := lib) (B := broken)
              (Error "The string to be decoded is not correctly encoded.") mounted)
    as (Herr & _ & _ & Hbatch).
  - reflexivity.
  - reflexivity.
  - split; [exact Herr|]. apply (Hbatch [rowObject acme]).
Defined.

(** After the two rows of the specification's example the download hands
    over the two merged pages; after the typed row it hands over nothing. *)
Example download_after_batches :
  saved (downloadPdf (B := browser)
           (mkDesk (run (processCsvData [rowObject acme; rowObject globex]) ready) []))
  = [("tax-return-control-copies.pdf",
      Pdf (mkDoc ["control copy"; "control copy"] ∅))]
  /\ saved (downloadPdf (B := browser)
              (mkDesk (run (processCsvData [rowObject acme; typed]) ready) []))
     = [].
Proof. split; vm_compute; reflexivity. Qed.

(** A text file is turned away, and a clean CSV with no rows runs the empty
    batch. *)
Example drops :
  error (run (onDrop [textFile]) ready) = Some "Please upload a CSV file"
  /\ error (run (onDrop []) ready) = Some "Please upload exactly one CSV file"
  /\ verdict (run (onDrop [goodFile]) ready) = (None, 0, true)
  /\ artifactPages (run (onDrop [goodFile]) ready) = Some ["blank"].
Proof. repeat split; vm_compute; reflexivity. Qed.

End MoreExamples.
